(** * Veridian workout tracker: reconciliation engine, session lifecycle
      and profile store

    A shallow embedding of the data-consistency core of the application:

    - [mergeData] (components/Settings.tsx), the reconciliation of a local
      and a remote [AppData];
    - the session controller of App.tsx ([finishSession], [startSession],
      [addExerciseToSession], [updateActiveSession], [editSession],
      [cancelActiveSession] and the inactivity-timeout effect);
    - the offline profile store of App.tsx ([updateLocalProfile],
      [handleOfflinePasswordReset]).

    Conventions of the embedding.

    - React state is one record, [AppState]; an event handler is a function
      from the state of the render it closes over to the state of the next
      render.  Every [setX] call of a handler is batched, so the handler is
      modelled by the record it leaves behind.  [Date.now()] is an explicit
      argument [now] (epoch milliseconds); the clock reads of one handler
      run are taken to return the same value.
    - A JavaScript [Map] is an association list in insertion order:
      setting an existing key overwrites the value and keeps the position.
    - A timestamp is held as the epoch-millisecond value that
      [new Date(timestamp).getTime()] yields for it (ISO strings written by
      [toISOString] and epoch milliseconds determine each other); strings
      that do not parse as dates are outside the model.
    - Integral JavaScript numbers (sets, minutes, milliseconds) are [Z];
      fractional ones are canonical rationals [Qc].  The reps and the
      weight of an exercise row come from the number fields of the logger,
      which hand on NaN for a cleared field, and go through JSON, which
      writes NaN as [null]: they are [JsNumber]s, compared by [strictEq]
      as [===] compares them.  The other numbers are guarded where the
      forms read them and are never NaN.
    - The state holds values, not references.  The one write that the
      controller makes in place, on the sets of a row in
      [addExerciseToSession], reaches the stored session through the row
      objects that [editSession] shares with it; [writeShared] makes that
      write on the stored values.
    - A timer set by [window.setTimeout] fires after the delay that the
      32-bit argument holds ([timerDelay]), not earlier and, with no other
      event in between, not later.
    - Fire-and-forget network calls (Drive, Fit) do not write to the
      component state and are left out. *)

From Stdlib Require Import List String Ascii ZArith Lia Bool Permutation.
From Stdlib Require Import QArith Qcanon DecimalString.
Import ListNotations.

Local Open Scope string_scope.
Local Open Scope list_scope.
Local Open Scope Z_scope.

(** ** Entity model (types.ts) *)

Inductive WeightUnit : Type := kg | lbs.

Definition WeightUnit_eqb (a b : WeightUnit) : bool :=
  match a, b with
  | kg, kg | lbs, lbs => true
  | _, _ => false
  end.

(** A number as a field of the logger or a parsed file holds it:
    [parseInt] and [parseFloat] give NaN for a cleared field, which
    [Math.max(0, _)] hands on (WorkoutLogger.tsx 216, 221), and
    [JSON.stringify] writes NaN as [null]. *)
Inductive JsNumber (A : Type) : Type :=
  | NaN
  | Null
  | Finite (value : A).

Arguments NaN {A}.
Arguments Null {A}.
Arguments Finite {A} value.

(** [a === b] on such values: NaN equals nothing, itself included. *)
Definition strictEq {A : Type} (eqb : A -> A -> bool) (a b : JsNumber A) : bool :=
  match a, b with
  | Finite x, Finite y => eqb x y
  | Null, Null => true
  | _, _ => false
  end.

Record Exercise : Type := mkExercise {
  ex_id : string;
  ex_name : string;
  ex_sets : Z;
  ex_reps : JsNumber Z;
  ex_weight : JsNumber Qc;
  ex_unit : WeightUnit
}.

(** [Omit<Exercise, 'id'>]: what the logger hands to the controller. *)
Record ExerciseInput : Type := mkExerciseInput {
  in_name : string;
  in_sets : Z;
  in_reps : JsNumber Z;
  in_weight : JsNumber Qc;
  in_unit : WeightUnit
}.

Record WorkoutSession : Type := mkWorkoutSession {
  ws_id : string;
  ws_timestamp : Z;
  ws_name : option string;
  ws_warmup : bool;
  ws_equipment : string;
  ws_notes : string;
  ws_exercises : list Exercise;
  ws_durationMinutes : option Z
}.

(** [Omit<Exercise, 'id' | 'weight' | 'unit'>] *)
Record RoutineExercise : Type := mkRoutineExercise {
  re_name : string;
  re_sets : Z;
  re_reps : Z
}.

Record WorkoutRoutine : Type := mkWorkoutRoutine {
  wr_id : string;
  wr_name : string;
  wr_exercises : list RoutineExercise
}.

Record HealthStat : Type := mkHealthStat {
  hs_id : string;
  hs_timestamp : Z;
  hs_bodyweight : option Qc;
  hs_bodyweightUnit : option WeightUnit;
  hs_bodyFatPercentage : option Qc;
  hs_sleepHours : option Qc;
  hs_waterIntakeLiters : option Qc;
  hs_restingHeartRate : option Qc
}.

Record AppData : Type := mkAppData {
  sessions : list WorkoutSession;
  healthStats : list HealthStat;
  routines : list WorkoutRoutine
}.

Record DefaultSettings : Type := mkDefaultSettings {
  defaultWorkout : string;
  defaultReps : Z;
  defaultWeight : Qc;
  defaultUnit : WeightUnit;
  sessionTimeout : Z
}.

Record UserProfile : Type := mkUserProfile {
  up_id : string;
  up_name : string;
  up_passwordHash : string;
  up_securityCodeHash : option string;
  up_appData : AppData;
  up_settings : DefaultSettings
}.

(** [Number.prototype.toString] on an integer: its decimal numeral. *)
Definition toString (n : Z) : string := NilZero.string_of_int (Z.to_int n).

(** The id of a session that has not been saved yet. *)
Definition activeId : string := "active".

(** ** JavaScript library functions used by the engine *)

Module Js.
Section Arrays.
Context {A : Type}.

(** [Map.prototype.set] on an insertion-ordered map. *)
Fixpoint map_set (k : string) (v : A) (m : list (string * A))
: list (string * A) :=
match m with
| [] => [(k, v)]
| (k', v') :: m' =>
  if String.eqb k' k then (k, v) :: m' else (k', v') :: map_set k v m'
end.

(** [new Map(entries)]: the entries are set one after the other. *)
Definition new_Map (entries : list (string * A)) : list (string * A) :=
fold_left (fun m e => map_set (fst e) (snd e) m) entries [].

(** [Array.from(map.values())] *)
Definition map_values (m : list (string * A)) : list A := List.map snd m.

(** [Map.prototype.get] *)
Fixpoint map_get (k : string) (m : list (string * A)) : option A :=
match m with
| [] => None
| (k', v) :: m' => if String.eqb k' k then Some v else map_get k m'
end.

(** [Array.prototype.sort(cmp)]: a stable sort; [a] is placed before [b]
when [cmp a b < 0], and elements that compare as equal keep their
order.  Insertion from the right realises exactly that. *)
Fixpoint sort_insert (cmp : A -> A -> Z) (x : A) (l : list A) : list A :=
match l with
| [] => [x]
| y :: l' =>
  if cmp y x <? 0 then y :: sort_insert cmp x l' else x :: y :: l'
end.

Fixpoint sort (cmp : A -> A -> Z) (l : list A) : list A :=
match l with
| [] => []
| x :: l' => sort_insert cmp x (sort cmp l')
end.

(** [Array.prototype.findIndex]: index of the first match, or [-1]. *)
Fixpoint findIndexFrom (i : Z) (f : A -> bool) (l : list A) : Z :=
match l with
| [] => -1
| x :: l' => if f x then i else findIndexFrom (i + 1) f l'
end.

Definition findIndex (f : A -> bool) (l : list A) : Z := findIndexFrom 0 f l.

(** [arr[i] = upd(arr[i])] for an index inside the array. *)
Fixpoint updateAt (i : nat) (upd : A -> A) (l : list A) : list A :=
match l, i with
| [], _ => []
| x :: l', O => upd x :: l'
| x :: l', S j => x :: updateAt j upd l'
end.
End Arrays.
End Js.

(** ** Reconciliation engine (Settings.tsx, [mergeData]) *)

Section MergeByKey.
Context {A : Type}.
(** [item.id] *)
Variable item_id : A -> string.
(** [new Date(item.timestamp || 0).getTime()] *)
Variable item_time : A -> Z.

(** The comparator handed to [sort]: newest first. *)
Definition byTimestampDesc (a b : A) : Z := item_time b - item_time a.

(** [mergeByKey] (Settings.tsx 202-206).  [local[key] || []] is the array
    itself, every array being truthy. *)
Definition mergeByKey (local remote : list A) : list A :=
  let combined := local ++ remote in
  let map := Js.new_Map (List.map (fun item => (item_id item, item)) combined) in
  Js.sort byTimestampDesc (Js.map_values map).
End MergeByKey.

(** Routines carry no timestamp: [item.timestamp || 0] is [0]. *)
Definition routine_time (_ : WorkoutRoutine) : Z := 0.

(** [mergeData] (Settings.tsx 201-212). *)
Definition mergeData (local remote : AppData) : AppData :=
  {| sessions := mergeByKey ws_id ws_timestamp (sessions local) (sessions remote);
     healthStats := mergeByKey hs_id hs_timestamp (healthStats local) (healthStats remote);
     routines := mergeByKey wr_id routine_time (routines local) (routines remote) |}.

(** ** Component state of [App] (App.tsx) *)

Inductive View : Type :=
  | v_logger | v_history | v_dashboard | v_ai | v_routines | v_settings | v_health.

Record AppState : Type := mkAppState {
  view : View;
  profiles : list UserProfile;
  activeLocalProfileId : option string;
  isSignedIn : bool;
  appData : AppData;
  settings : DefaultSettings;
  activeSession : option WorkoutSession;
  lastActivityTime : option Z;
  editingSessionId : option string
}.

(** The state setters ([setView], [setProfiles], ...). *)
Definition setView (v : View) (st : AppState) : AppState :=
  mkAppState v (profiles st) (activeLocalProfileId st) (isSignedIn st)
    (appData st) (settings st) (activeSession st) (lastActivityTime st)
    (editingSessionId st).

Definition setProfiles (ps : list UserProfile) (st : AppState) : AppState :=
  mkAppState (view st) ps (activeLocalProfileId st) (isSignedIn st)
    (appData st) (settings st) (activeSession st) (lastActivityTime st)
    (editingSessionId st).

Definition setAppData (d : AppData) (st : AppState) : AppState :=
  mkAppState (view st) (profiles st) (activeLocalProfileId st) (isSignedIn st)
    d (settings st) (activeSession st) (lastActivityTime st)
    (editingSessionId st).

Definition setSettings (s : DefaultSettings) (st : AppState) : AppState :=
  mkAppState (view st) (profiles st) (activeLocalProfileId st) (isSignedIn st)
    (appData st) s (activeSession st) (lastActivityTime st)
    (editingSessionId st).

Definition setActiveSession (s : option WorkoutSession) (st : AppState) : AppState :=
  mkAppState (view st) (profiles st) (activeLocalProfileId st) (isSignedIn st)
    (appData st) (settings st) s (lastActivityTime st) (editingSessionId st).

Definition setLastActivityTime (t : option Z) (st : AppState) : AppState :=
  mkAppState (view st) (profiles st) (activeLocalProfileId st) (isSignedIn st)
    (appData st) (settings st) (activeSession st) t (editingSessionId st).

Definition setEditingSessionId (i : option string) (st : AppState) : AppState :=
  mkAppState (view st) (profiles st) (activeLocalProfileId st) (isSignedIn st)
    (appData st) (settings st) (activeSession st) (lastActivityTime st) i.

(** Truthiness of a [string | null | undefined]: [null], [undefined] and the
    empty string are falsy. *)
Definition truthy (o : option string) : option string :=
  match o with
  | Some s => if String.eqb s EmptyString then None else Some s
  | None => None
  end.

(** [a || b] on such values. *)
Definition orElse (a b : option string) : option string :=
  match truthy a with
  | Some s => Some s
  | None => b
  end.

(** [activeProfile] (useMemo, App.tsx 187-190). *)
Definition activeProfile (st : AppState) : option UserProfile :=
  match truthy (activeLocalProfileId st) with
  | None => None
  | Some pid => find (fun p => String.eqb (up_id p) pid) (profiles st)
  end.

(** [updateLocalProfile] (App.tsx 203-211). *)
Definition updateLocalProfile (updater : UserProfile -> UserProfile)
    (profileIdToUpdate : option string) (st : AppState) : AppState :=
  match truthy (orElse profileIdToUpdate (activeLocalProfileId st)) with
  | None => st
  | Some targetId =>
      setProfiles
        (List.map (fun p => if String.eqb (up_id p) targetId then updater p else p)
           (profiles st))
        st
  end.

(** ** Session lifecycle controller (App.tsx) *)

Definition withId (i : string) (s : WorkoutSession) : WorkoutSession :=
  mkWorkoutSession i (ws_timestamp s) (ws_name s) (ws_warmup s)
    (ws_equipment s) (ws_notes s) (ws_exercises s) (ws_durationMinutes s).

Definition withDuration (d : option Z) (s : WorkoutSession) : WorkoutSession :=
  mkWorkoutSession (ws_id s) (ws_timestamp s) (ws_name s) (ws_warmup s)
    (ws_equipment s) (ws_notes s) (ws_exercises s) d.

Definition withExercises (l : list Exercise) (s : WorkoutSession) : WorkoutSession :=
  mkWorkoutSession (ws_id s) (ws_timestamp s) (ws_name s) (ws_warmup s)
    (ws_equipment s) (ws_notes s) l (ws_durationMinutes s).

Definition withAppData (d : AppData) (p : UserProfile) : UserProfile :=
  mkUserProfile (up_id p) (up_name p) (up_passwordHash p)
    (up_securityCodeHash p) d (up_settings p).

Definition withPasswordHash (h : string) (p : UserProfile) : UserProfile :=
  mkUserProfile (up_id p) (up_name p) h (up_securityCodeHash p)
    (up_appData p) (up_settings p).

Definition withSessions (l : list WorkoutSession) (d : AppData) : AppData :=
  mkAppData l (healthStats d) (routines d).

(** [Math.round(n / d)] for integers [n] and [d > 0]: the nearest integer,
    halves going up, i.e. [floor (n/d + 1/2)]. *)
Definition roundDiv (n d : Z) : Z := (2 * n + d) / (2 * d).

(** [finalSession] of [finishSession] (App.tsx 225-229). *)
Definition finalSession (now : Z) (active : WorkoutSession) : WorkoutSession :=
  if String.eqb (ws_id active) activeId
  then withDuration (Some (roundDiv (now - ws_timestamp active) 60000)) active
  else active.

(** [newSessionId] (App.tsx 232). *)
Definition newSessionId (now : Z) (final : WorkoutSession) : string :=
  if String.eqb (ws_id final) activeId then toString now else ws_id final.

(** [finalSessionWithId] (App.tsx 233). *)
Definition finalSessionWithId (now : Z) (active : WorkoutSession) : WorkoutSession :=
  withId (newSessionId now (finalSession now active)) (finalSession now active).

(** [updateState] (App.tsx 236-240); the closure variables [finalSession]
    and [finalSessionWithId] are its first two arguments. *)
Definition updateState (final finalWithId : WorkoutSession)
    (currentData : AppData) : AppData :=
  let updatedSessions :=
    filter (fun s => negb (String.eqb (ws_id s) (ws_id final))) (sessions currentData) in
  let newSessions :=
    Js.sort (byTimestampDesc ws_timestamp) (updatedSessions ++ [finalWithId]) in
  withSessions newSessions currentData.

(** [finishSession] (App.tsx 218-256). *)
Definition finishSession (now : Z) (st : AppState) : AppState :=
  match activeSession st with
  | None => st
  | Some active =>
      match ws_exercises active with
      | [] => setEditingSessionId None (setActiveSession None st)
      | _ :: _ =>
          let final := finalSession now active in
          let finalWithId := finalSessionWithId now active in
          let st1 :=
            match truthy (activeLocalProfileId st) with
            | Some _ =>
                updateLocalProfile
                  (fun profile =>
                     withAppData (updateState final finalWithId (up_appData profile)) profile)
                  None st
            | None =>
                if isSignedIn st
                then setAppData (updateState final finalWithId (appData st)) st
                else st
            end in
          setView v_history (setEditingSessionId None (setActiveSession None st1))
      end
  end.

(** [{ sessions: [], healthStats: [], routines: [] }] *)
Definition emptyAppData : AppData := mkAppData [] [] [].

(** [DEFAULT_SETTINGS] (constants.ts). *)
Definition DEFAULT_SETTINGS : DefaultSettings :=
  mkDefaultSettings "Push-ups" 10 (Q2Qc 0) kg 60.

(** The effect that loads [appData] and [settings] when the
    authentication state changes (App.tsx 268-294).  For a signed-in user
    the Drive read completes later; its synchronous part leaves the data
    as it is. *)
Definition loadDataEffect (st : AppState) : AppState :=
  if isSignedIn st then st
  else match activeProfile st with
       | Some p => setSettings (up_settings p) (setAppData (up_appData p) st)
       | None => setSettings DEFAULT_SETTINGS (setAppData emptyAppData st)
       end.

(** What the inactivity effect (App.tsx 316-333) does when it runs at time
    [now]: nothing, an immediate [finishSession], or a timer that calls
    [finishSession] after the remaining milliseconds. *)
Inductive TimerAction : Type :=
  | NoTimer
  | FinishNow
  | FinishAfter (remainingTime : Z).

Definition timeoutEffect (now : Z) (st : AppState) : TimerAction :=
  match activeSession st, lastActivityTime st with
  | Some _, Some last =>
      if negb (last =? 0) && (0 <? sessionTimeout (settings st))
      then
        let timeoutMs := sessionTimeout (settings st) * 60 * 1000 in
        let timeSinceLastActivity := now - last in
        let remainingTime := timeoutMs - timeSinceLastActivity in
        if remainingTime <=? 0 then FinishNow else FinishAfter remainingTime
      else NoTimer
  | _, _ => NoTimer
  end.

(** ToInt32: the number modulo 2^32, in the signed 32-bit range. *)
Definition toInt32 (n : Z) : Z := (n + 2147483648) mod 4294967296 - 2147483648.

(** The milliseconds after which a timer set by
    [window.setTimeout(handler, timeout)] fires.  The argument is a WebIDL
    [long], so the number handed over is converted by ToInt32, and a
    negative delay counts as 0. *)
Definition timerDelay (timeout : Z) : Z := Z.max 0 (toInt32 timeout).

(** The state once the timer armed at [now] has fired with no other event
    in between. *)
Definition afterInactivity (now : Z) (st : AppState) : AppState :=
  match timeoutEffect now st with
  | NoTimer => st
  | FinishNow => finishSession now st
  | FinishAfter remainingTime => finishSession (now + timerDelay remainingTime) st
  end.

(** [Partial<WorkoutSession>] *)
Record SessionUpdate : Type := mkSessionUpdate {
  u_id : option string;
  u_timestamp : option Z;
  u_name : option string;
  u_warmup : option bool;
  u_equipment : option string;
  u_notes : option string;
  u_exercises : option (list Exercise);
  u_durationMinutes : option Z
}.

Definition orDefault {A : Type} (o : option A) (d : A) : A :=
  match o with Some x => x | None => d end.

Definition orKeep {A : Type} (o : option A) (d : option A) : option A :=
  match o with Some x => Some x | None => d end.

(** [{ ...prev, ...sessionUpdate }] *)
Definition applyUpdate (prev : WorkoutSession) (u : SessionUpdate) : WorkoutSession :=
  mkWorkoutSession
    (orDefault (u_id u) (ws_id prev))
    (orDefault (u_timestamp u) (ws_timestamp prev))
    (orKeep (u_name u) (ws_name prev))
    (orDefault (u_warmup u) (ws_warmup prev))
    (orDefault (u_equipment u) (ws_equipment prev))
    (orDefault (u_notes u) (ws_notes prev))
    (orDefault (u_exercises u) (ws_exercises prev))
    (orKeep (u_durationMinutes u) (ws_durationMinutes prev)).

(** [updateActiveSession] (App.tsx 339-343). *)
Definition updateActiveSession (sessionUpdate : SessionUpdate) (now : Z)
    (st : AppState) : AppState :=
  match activeSession st with
  | None => st
  | Some prev =>
      setLastActivityTime (Some now)
        (setActiveSession (Some (applyUpdate prev sessionUpdate)) st)
  end.

(** [startSession] (App.tsx 345-350). *)
Definition startSession (session : WorkoutSession) (now : Z) (st : AppState)
    : AppState :=
  let st1 := match activeSession st with
             | Some _ => finishSession now st
             | None => st
             end in
  setView v_logger (setLastActivityTime (Some now) (setActiveSession (Some session) st1)).

(** [startEmptySession] (App.tsx 352-359); [dateLabel] stands for
    [new Date().toLocaleDateString()]. *)
Definition startEmptySession (dateLabel : string) (now : Z) (st : AppState)
    : AppState :=
  startSession
    (mkWorkoutSession activeId now (Some (String.append "Workout - " dateLabel))
       false "Bodyweight" EmptyString [] None)
    now st.

(** [{ ...exercise, id: Date.now().toString() }] *)
Definition newExercise (now : Z) (exercise : ExerciseInput) : Exercise :=
  mkExercise (toString now) (in_name exercise) (in_sets exercise)
    (in_reps exercise) (in_weight exercise) (in_unit exercise).

(** The test of [findIndex] in [addExerciseToSession]. *)
Definition sameTuple (n : Exercise) (ex : Exercise) : bool :=
  String.eqb (ex_name ex) (ex_name n)
  && strictEq Qc_eq_bool (ex_weight ex) (ex_weight n)
  && WeightUnit_eqb (ex_unit ex) (ex_unit n)
  && strictEq Z.eqb (ex_reps ex) (ex_reps n).

(** The value of the row object after [ex.sets += 1]. *)
Definition addOneSet (ex : Exercise) : Exercise :=
  mkExercise (ex_id ex) (ex_name ex) (ex_sets ex + 1) (ex_reps ex)
    (ex_weight ex) (ex_unit ex).

(** The same value in every field, NaN included (unlike [strictEq]). *)
Definition sameNumber {A : Type} (eqb : A -> A -> bool) (a b : JsNumber A) : bool :=
  match a, b with
  | NaN, NaN | Null, Null => true
  | Finite x, Finite y => eqb x y
  | _, _ => false
  end.

Definition sameRow (a b : Exercise) : bool :=
  String.eqb (ex_id a) (ex_id b)
  && String.eqb (ex_name a) (ex_name b)
  && (ex_sets a =? ex_sets b)
  && sameNumber Z.eqb (ex_reps a) (ex_reps b)
  && sameNumber Qc_eq_bool (ex_weight a) (ex_weight b)
  && WeightUnit_eqb (ex_unit a) (ex_unit b).

(** The first element that passes [test], updated. *)
Fixpoint updateFirst {A : Type} (test : A -> bool) (upd : A -> A) (l : list A)
  : list A :=
  match l with
  | [] => []
  | x :: l' => if test x then upd x :: l' else x :: updateFirst test upd l'
  end.

(** What the write [updatedExercises[i].sets += 1] does to stored data.
    The write is made to the row object itself, and the array that is
    written to is a copy that holds the objects of the active session.
    [editSession] loads the stored session object as it is, so while a
    session is under edit its rows are the objects that the stored
    session holds, in [appData] and in the active profile from which
    [appData] was loaded -- until the logger replaces a row by a copy
    ([handleUpdateSet]) or a row is appended.  The state holds values, not
    references: in the session that [editSession] looked up (the first
    one under the id being edited), the first row with the value of the
    written row is taken to be that object. *)
Definition writtenSessions (sessionId : string) (row : Exercise)
    (l : list WorkoutSession) : list WorkoutSession :=
  updateFirst (fun s => String.eqb (ws_id s) sessionId)
    (fun s => withExercises (updateFirst (sameRow row) addOneSet (ws_exercises s)) s)
    l.

Definition writeShared (row : option Exercise) (st : AppState) : AppState :=
  match row, editingSessionId st with
  | Some row, Some sessionId =>
      let written d := withSessions (writtenSessions sessionId row (sessions d)) d in
      let st1 := setAppData (written (appData st)) st in
      match truthy (activeLocalProfileId st) with
      | Some pid =>
          setProfiles
            (updateFirst (fun p => String.eqb (up_id p) pid)
               (fun p => withAppData (written (up_appData p)) p)
               (profiles st))
            st1
      | None => st1
      end
  | _, _ => st
  end.

(** [addExerciseToSession] (App.tsx 361-384).  [written] is the state the
    handler closes over after the write in place, which React does not
    see; the setters then act on it. *)
Definition addExerciseToSession (exercise : ExerciseInput) (now : Z)
    (st : AppState) : AppState :=
  let newEx := newExercise now exercise in
  let st1 :=
    match activeSession st with
    | None =>
        startSession
          (mkWorkoutSession activeId now None false "Bodyweight" EmptyString [newEx] None)
          now st
    | Some active =>
        let existingExerciseIndex := Js.findIndex (sameTuple newEx) (ws_exercises active) in
        let updatedExercises :=
          if existingExerciseIndex >? -1
          then Js.updateAt (Z.to_nat existingExerciseIndex) addOneSet (ws_exercises active)
          else ws_exercises active ++ [newEx] in
        let written :=
          if existingExerciseIndex >? -1
          then writeShared
                 (nth_error (ws_exercises active) (Z.to_nat existingExerciseIndex)) st
          else st in
        setActiveSession (Some (withExercises updatedExercises active)) written
    end in
  setLastActivityTime (Some now) st1.

(** [handleAddExerciseClick] of the logger (WorkoutLogger.tsx): the only
    caller of [addExerciseToSession]; it always submits one set. *)
Definition handleAddExerciseClick (selectedWorkout : string) (reps : JsNumber Z)
    (exerciseWeight : JsNumber Qc) (unit : WeightUnit) (now : Z) (st : AppState)
    : AppState :=
  if String.eqb selectedWorkout EmptyString then st
  else addExerciseToSession
         (mkExerciseInput selectedWorkout 1 reps exerciseWeight unit) now st.

(** [editSession] (App.tsx 408-417).  The lookup reads the [appData] of
    the render the handler closes over, not the one [finishSession] has
    just queued. *)
Definition editSession (sessionId : string) (now : Z) (st : AppState) : AppState :=
  let st1 := finishSession now st in
  match find (fun s => String.eqb (ws_id s) sessionId) (sessions (appData st)) with
  | Some sessionToEdit =>
      setView v_logger
        (setLastActivityTime None
           (setActiveSession (Some sessionToEdit)
              (setEditingSessionId (Some sessionId) st1)))
  | None => st1
  end.

(** [cancelActiveSession] (App.tsx 419-423). *)
Definition cancelActiveSession (st : AppState) : AppState :=
  let st1 := setEditingSessionId None (setActiveSession None st) in
  match view st with
  | v_logger => setView v_dashboard st1
  | _ => st1
  end.

(** The Dataset a commit writes to: the active offline profile's [appData],
    or the in-memory [appData] of a signed-in user ([finishSession],
    App.tsx 243-250). *)
Definition currentDataset (st : AppState) : option AppData :=
  match truthy (activeLocalProfileId st) with
  | Some _ => option_map up_appData (activeProfile st)
  | None => if isSignedIn st then Some (appData st) else None
  end.

(** ** Profile store (App.tsx) *)

Section ProfileStore.
(** [hashPassword]: the hex SHA-256 digest computed by SubtleCrypto, an
    opaque function of the text. *)
Variable hashPassword : string -> string.
(** [String.prototype.toLowerCase] *)
Variable toLowerCase : string -> string.

(** [verifyPassword] (App.tsx 50-53). *)
Definition verifyPassword (password hash : string) : bool :=
  String.eqb (hashPassword password) hash.

(** The lookup shared by login, registration and reset:
    [profiles.find(p => p.name.toLowerCase() === username.toLowerCase())]. *)
Definition findByName (username : string) (ps : list UserProfile)
  : option UserProfile :=
  find (fun p => String.eqb (toLowerCase (up_name p)) (toLowerCase username)) ps.

(** [handleOfflinePasswordReset] (App.tsx 572-590): the boolean the
    promise resolves to, and the state it leaves.  The awaits are
    modelled as running to completion without another event in
    between. *)
Definition handleOfflinePasswordReset (username securityCode newPassword : string)
    (st : AppState) : bool * AppState :=
  match findByName username (profiles st) with
  | None => (false, st)
  | Some profile =>
      match truthy (up_securityCodeHash profile) with
      | None => (false, st)
      | Some securityCodeHash =>
          if verifyPassword securityCode securityCodeHash
          then
            let newPasswordHash := hashPassword newPassword in
            (true,
             updateLocalProfile (fun p => withPasswordHash newPasswordHash p)
               (Some (up_id profile)) st)
          else (false, st)
      end
  end.
End ProfileStore.

(** ** Dataset invariants and sample data *)

(** Ids are unique within each list of a Dataset. *)
Definition uniqueIds (d : AppData) : Prop :=
  NoDup (map ws_id (sessions d))
  /\ NoDup (map hs_id (healthStats d))
  /\ NoDup (map wr_id (routines d)).

(** The record that a list holds last for an id: the one that wins when
    the list is read into a map. *)
Fixpoint lastWithId {A : Type} (item_id : A -> string) (x : string) (l : list A)
  : option A :=
  match l with
  | [] => None
  | r :: l' =>
      match lastWithId item_id x l' with
      | Some r' => Some r'
      | None => if String.eqb (item_id r) x then Some r else None
      end
  end.

(** Two lists agree on the ids they share: records with the same id on
    both sides are the same record. *)
Definition agreeOnSharedIds {A : Type} (item_id : A -> string) (a b : list A) : Prop :=
  forall ra rb, In ra a -> In rb b -> item_id ra = item_id rb -> ra = rb.

Definition agreeingData (a b : AppData) : Prop :=
  agreeOnSharedIds ws_id (sessions a) (sessions b)
  /\ agreeOnSharedIds hs_id (healthStats a) (healthStats b)
  /\ agreeOnSharedIds wr_id (routines a) (routines b).

Module Sample.
Definition pushUps : Exercise :=
  mkExercise "1700000000001" "Push-ups" 3 (Finite 10) (Finite (Q2Qc 0)) kg.

(** Session "100" as the local side holds it, and as the remote side
    holds it after an edit of its notes. *)
Definition S1_local : WorkoutSession :=
  mkWorkoutSession "100" 1000 None false "Bodyweight" "local notes" [pushUps] (Some 30).
Definition S1_remote : WorkoutSession :=
  mkWorkoutSession "100" 1000 None false "Bodyweight" "remote notes" [pushUps] (Some 30).
Definition S2 : WorkoutSession :=
  mkWorkoutSession "200" 2000 None true "Dumbbells" EmptyString [pushUps] (Some 45).
Definition S3 : WorkoutSession :=
  mkWorkoutSession "300" 3000 None false "Barbell" EmptyString [pushUps] (Some 20).

Definition H1 : HealthStat :=
  mkHealthStat "h1" 1500 (Some (Q2Qc (80 # 1))) (Some kg) None None None None.
Definition R1 : WorkoutRoutine :=
  mkWorkoutRoutine "r1" "Upper body" [mkRoutineExercise "Push-ups" 3 10].
Definition R2 : WorkoutRoutine :=
  mkWorkoutRoutine "r2" "Legs" [mkRoutineExercise "Squats" 4 8].

Definition localData : AppData := mkAppData [S1_local] [H1] [R1].
Definition remoteData : AppData := mkAppData [S1_remote; S2] [] [R2; R1].
(** A local side that agrees with [remoteData] on the shared ids. *)
Definition syncedData : AppData := mkAppData [S3; S1_remote] [H1] [R1].
(** Sessions stored oldest first. *)
Definition ascendingData : AppData := mkAppData [S1_local; S2] [] [].
End Sample.

(** Sample controller states. *)
Module SampleState.
Import Sample.

(** A signed-in user with two saved sessions and nothing being logged. *)
Definition idle : AppState :=
  mkAppState v_history [] None true (mkAppData [S2; S1_remote] [] [])
    DEFAULT_SETTINGS None None None.


(** A new session with one exercise, started at 1 000 000 ms. *)
Definition newSession : WorkoutSession :=
  mkWorkoutSession activeId 1000000 None false "Bodyweight" EmptyString [pushUps] None.

Definition logging : AppState :=
  mkAppState v_logger [] None true (mkAppData [S2; S1_remote] [] [])
    DEFAULT_SETTINGS (Some newSession) (Some 1000000) None.

(** A new session without exercises. *)
Definition emptySession : WorkoutSession :=
  mkWorkoutSession activeId 1000000 (Some "Workout - 1/1/2024") false
    "Bodyweight" EmptyString [] None.

(** The same session under a timeout of 40 000 minutes. *)
Definition loggingLongTimeout : AppState :=
  mkAppState v_logger [] None true (mkAppData [S2; S1_remote] [] [])
    (mkDefaultSettings "Push-ups" 10 (Q2Qc 0) kg 40000)
    (Some newSession) (Some 1000000) None.

Definition loggingEmpty : AppState :=
  mkAppState v_logger [] None true (mkAppData [S2; S1_remote] [] [])
    DEFAULT_SETTINGS (Some emptySession) (Some 1000000) None.

(** The list already holds a session whose id is the numeral of the
    commit time 1 060 000. *)
Definition S_clash : WorkoutSession :=
  mkWorkoutSession "1060000" 500 None false "Barbell" "imported" [pushUps] (Some 10).

Definition loggingClash : AppState :=
  mkAppState v_logger [] None true (mkAppData [S_clash] [] [])
    DEFAULT_SETTINGS (Some newSession) (Some 1000000) None.

Definition S_clash' : WorkoutSession :=
  mkWorkoutSession "1120000" 700 None false "Kettlebell" EmptyString [pushUps] (Some 15).

Definition loggingClash' : AppState :=
  mkAppState v_logger [] None true (mkAppData [S2; S_clash'] [] [])
    DEFAULT_SETTINGS (Some newSession) (Some 1000000) None.

(** A stand-in for the digest and ASCII lower-casing, to run the profile
    store on sample data; the theorems hold for every such function. *)
Definition sampleDigest (text : string) : string := String.append "digest:" text.

Definition lowerAscii (c : ascii) : ascii :=
  let n := nat_of_ascii c in
  if ((65 <=? n) && (n <=? 90))%nat then ascii_of_nat (n + 32) else c.

Fixpoint lowerString (text : string) : string :=
  match text with
  | EmptyString => EmptyString
  | String c rest => String (lowerAscii c) (lowerString rest)
  end.

(** [String.prototype.trim], on spaces. *)
Fixpoint trimStart (text : string) : string :=
  match text with
  | String " " rest => trimStart rest
  | _ => text
  end.

Fixpoint reverseOnto (text acc : string) : string :=
  match text with
  | EmptyString => acc
  | String c rest => reverseOnto rest (String c acc)
  end.

Definition trimSpaces (text : string) : string :=
  reverseOnto (trimStart (reverseOnto (trimStart text) EmptyString)) EmptyString.

(** The same, for an offline profile. *)
Definition alice : UserProfile :=
  mkUserProfile "p1" "Alice" (sampleDigest "old-pw")
    (Some (sampleDigest "ABCD-EFGH-JKLM"))
    (mkAppData [S2; S1_remote] [] []) DEFAULT_SETTINGS.

Definition bob : UserProfile :=
  mkUserProfile "p2" "Bob" (sampleDigest "bob-pw")
    (Some (sampleDigest "WXYZ-2345-6789")) emptyAppData DEFAULT_SETTINGS.

(** A second profile stored under the id of [alice]. *)
Definition bobTwin : UserProfile :=
  mkUserProfile "p1" "Bob" (sampleDigest "bob-pw")
    (Some (sampleDigest "WXYZ-2345-6789")) emptyAppData DEFAULT_SETTINGS.

(** A profile stored without an id. *)
Definition aliceNoId : UserProfile :=
  mkUserProfile EmptyString "Alice" (sampleDigest "old-pw")
    (Some (sampleDigest "ABCD-EFGH-JKLM")) emptyAppData DEFAULT_SETTINGS.

(** The profile that registering " alice" at 1 700 ms adds. *)
Definition aliceAgain : UserProfile :=
  mkUserProfile "1700" "alice" (sampleDigest "pw2")
    (Some (sampleDigest "QRST-2345-6789")) emptyAppData DEFAULT_SETTINGS.

(** The login screen: nobody is signed in. *)
Definition loginScreen : AppState :=
  mkAppState v_dashboard [alice; bob] None false emptyAppData
    DEFAULT_SETTINGS None None None.

Definition loginScreenTwin : AppState :=
  mkAppState v_dashboard [alice; bobTwin] None false emptyAppData
    DEFAULT_SETTINGS None None None.

Definition loginScreenNamesake : AppState :=
  mkAppState v_dashboard [alice; bob; aliceAgain] None false emptyAppData
    DEFAULT_SETTINGS None None None.

Definition loginScreenNoId : AppState :=
  mkAppState v_dashboard [aliceNoId] None false emptyAppData
    DEFAULT_SETTINGS None None None.

(** A list that holds a session under the sentinel id. *)
Definition S_stale : WorkoutSession :=
  mkWorkoutSession activeId 300 None false "Bodyweight" "stale" [pushUps] None.

Definition loggingStale : AppState :=
  mkAppState v_logger [] None true (mkAppData [S2; S_stale] [] [])
    DEFAULT_SETTINGS (Some newSession) (Some 1000000) None.

Definition loggingOffline : AppState :=
  mkAppState v_logger [alice] (Some "p1") false (up_appData alice)
    DEFAULT_SETTINGS (Some newSession) (Some 1000000) None.

(** The edit of the notes of a session. *)
Definition editNotes : SessionUpdate :=
  mkSessionUpdate None None None None None (Some "edited") None None.

Definition pushUpsInput : ExerciseInput :=
  mkExerciseInput "Push-ups" 1 (Finite 10) (Finite (Q2Qc 0)) kg.
Definition squatsInput : ExerciseInput :=
  mkExerciseInput "Squats" 1 (Finite 8) (Finite (Q2Qc (40 # 1))) kg.
End SampleState.

(** ** Further handlers of [App] (App.tsx) *)

Definition setActiveLocalProfileId (i : option string) (st : AppState) : AppState :=
  mkAppState (view st) (profiles st) i (isSignedIn st)
    (appData st) (settings st) (activeSession st) (lastActivityTime st)
    (editingSessionId st).

Definition setIsSignedIn (b : bool) (st : AppState) : AppState :=
  mkAppState (view st) (profiles st) (activeLocalProfileId st) b
    (appData st) (settings st) (activeSession st) (lastActivityTime st)
    (editingSessionId st).

Definition withHealthStats (l : list HealthStat) (d : AppData) : AppData :=
  mkAppData (sessions d) l (routines d).

Definition withRoutines (l : list WorkoutRoutine) (d : AppData) : AppData :=
  mkAppData (sessions d) (healthStats d) l.

Definition withSettings (s : DefaultSettings) (p : UserProfile) : UserProfile :=
  mkUserProfile (up_id p) (up_name p) (up_passwordHash p)
    (up_securityCodeHash p) (up_appData p) s.

(** The branch on which the data handlers end (App.tsx 396-405, 440-446,
    455-464, 489-496, 506-515): the update is applied to the active
    offline profile, or else to [appData] of a signed-in user. *)
Definition applyDataUpdate (updateFunc : AppData -> AppData) (st : AppState)
    : AppState :=
  match truthy (activeLocalProfileId st) with
  | Some _ =>
      updateLocalProfile
        (fun profile => withAppData (updateFunc (up_appData profile)) profile)
        None st
  | None =>
      if isSignedIn st then setAppData (updateFunc (appData st)) st else st
  end.

(** [deleteSession] (App.tsx 386-406); [confirmed] is the answer to
    [window.confirm]. *)
Definition deleteSession (sessionId : string) (confirmed : bool) (st : AppState)
    : AppState :=
  if negb confirmed then st
  else applyDataUpdate
         (fun currentData =>
            withSessions
              (filter (fun s => negb (String.eqb (ws_id s) sessionId))
                 (sessions currentData))
              currentData)
         st.

(** The [updateFunc] of [saveRoutine] (App.tsx 426-438). *)
Definition saveRoutineUpdate (routine : WorkoutRoutine) (currentData : AppData)
    : AppData :=
  let existingIndex :=
    Js.findIndex (fun r => String.eqb (wr_id r) (wr_id routine)) (routines currentData) in
  let newRoutines :=
    if existingIndex >? -1
    then Js.updateAt (Z.to_nat existingIndex) (fun _ => routine) (routines currentData)
    else routines currentData ++ [routine] in
  withRoutines newRoutines currentData.

(** [saveRoutine] (App.tsx 425-447). *)
Definition saveRoutine (routine : WorkoutRoutine) (st : AppState) : AppState :=
  applyDataUpdate (saveRoutineUpdate routine) st.

(** [`${ex.name}-${Date.now()}`] *)
Definition routineExerciseId (name : string) (now : Z) : string :=
  String.append name (String.append "-" (toString now)).

(** [startRoutine] (App.tsx 467-480).  The write of [lastRoutineId] to
    local storage does not touch the component state. *)
Definition startRoutine (routine : WorkoutRoutine) (now : Z) (st : AppState)
    : AppState :=
  let newSession :=
    mkWorkoutSession activeId now
      (Some (String.append "Routine: " (wr_name routine)))
      false "Bodyweight" EmptyString
      (List.map
         (fun ex =>
            mkExercise (routineExerciseId (re_name ex) now) (re_name ex)
              (re_sets ex) (Finite (re_reps ex))
              (Finite (defaultWeight (settings st))) (defaultUnit (settings st)))
         (wr_exercises routine))
      None in
  startSession newSession now st.

(** [Omit<HealthStat, 'id' | 'timestamp'>] *)
Record HealthStatInput : Type := mkHealthStatInput {
  hi_bodyweight : option Qc;
  hi_bodyweightUnit : option WeightUnit;
  hi_bodyFatPercentage : option Qc;
  hi_sleepHours : option Qc;
  hi_waterIntakeLiters : option Qc;
  hi_restingHeartRate : option Qc
}.

(** [{ ...stat, id: Date.now().toString(), timestamp: new Date().toISOString() }] *)
Definition newHealthStat (stat : HealthStatInput) (now : Z) : HealthStat :=
  mkHealthStat (toString now) now (hi_bodyweight stat) (hi_bodyweightUnit stat)
    (hi_bodyFatPercentage stat) (hi_sleepHours stat)
    (hi_waterIntakeLiters stat) (hi_restingHeartRate stat).

(** [addHealthStat] (App.tsx 482-497). *)
Definition addHealthStat (stat : HealthStatInput) (now : Z) (st : AppState)
    : AppState :=
  applyDataUpdate
    (fun currentData =>
       withHealthStats (healthStats currentData ++ [newHealthStat stat now]) currentData)
    st.

(** [deleteHealthStat] (App.tsx 499-516). *)
Definition deleteHealthStat (statId : string) (confirmed : bool) (st : AppState)
    : AppState :=
  if negb confirmed then st
  else applyDataUpdate
         (fun currentData =>
            withHealthStats
              (filter (fun stat => negb (String.eqb (hs_id stat) statId))
                 (healthStats currentData))
              currentData)
         st.

(** [handlePersistSettings] (App.tsx 518-523). *)
Definition handlePersistSettings (newSettings : DefaultSettings) (st : AppState)
    : AppState :=
  let st1 := setSettings newSettings st in
  match truthy (activeLocalProfileId st) with
  | Some _ => updateLocalProfile (fun profile => withSettings newSettings profile) None st1
  | None => st1
  end.

(** [Partial<AppData>] *)
Record AppDataUpdate : Type := mkAppDataUpdate {
  d_sessions : option (list WorkoutSession);
  d_healthStats : option (list HealthStat);
  d_routines : option (list WorkoutRoutine)
}.

(** [onUpdateProfileData]: [setAppData(prev => ({...prev, ...data}))]
    (App.tsx 659). *)
Definition onUpdateProfileData (data : AppDataUpdate) (st : AppState) : AppState :=
  setAppData
    (mkAppData
       (orDefault (d_sessions data) (sessions (appData st)))
       (orDefault (d_healthStats data) (healthStats (appData st)))
       (orDefault (d_routines data) (routines (appData st))))
    st.

(** [handleLogOut] (App.tsx 600-606), on the fields kept here. *)
Definition handleLogOut (st : AppState) : AppState :=
  setIsSignedIn false (setActiveLocalProfileId None st).

(** [handleDeleteActiveProfile] (App.tsx 592-598). *)
Definition handleDeleteActiveProfile (confirmed : bool) (st : AppState) : AppState :=
  match truthy (activeLocalProfileId st), activeProfile st with
  | Some pid, Some _ =>
      if confirmed
      then setActiveLocalProfileId None
             (setProfiles
                (filter (fun p => negb (String.eqb (up_id p) pid)) (profiles st)) st)
      else st
  | _, _ => st
  end.

(** ** Handlers of the logger (WorkoutLogger.tsx) *)

Definition exercisesOnly (l : list Exercise) : SessionUpdate :=
  mkSessionUpdate None None None None None None (Some l) None.

Definition withSets (n : Z) (ex : Exercise) : Exercise :=
  mkExercise (ex_id ex) (ex_name ex) n (ex_reps ex) (ex_weight ex) (ex_unit ex).

(** The list [handleUpdateSet] hands to [onUpdateSession]. *)
Definition updatedSets (exerciseId : string) (delta : Z) (exercises : list Exercise)
    : list Exercise :=
  filter (fun ex => 0 <? ex_sets ex)
    (List.map
       (fun ex =>
          if String.eqb (ex_id ex) exerciseId
          then withSets (Z.max 1 (ex_sets ex + delta)) ex
          else ex)
       exercises).

(** [handleUpdateSet]; [exercises] is [activeSession?.exercises || []]. *)
Definition handleUpdateSet (exerciseId : string) (delta : Z) (now : Z)
    (st : AppState) : AppState :=
  let exercises := match activeSession st with
                   | Some s => ws_exercises s
                   | None => []
                   end in
  updateActiveSession (exercisesOnly (updatedSets exerciseId delta exercises)) now st.

(** ** Import, export and sync (Settings.tsx) *)

(** [DataKey] and [DATA_KEYS] (Settings.tsx 11-13). *)
Inductive DataKey : Type := k_sessions | k_healthStats | k_routines | k_settings.

Definition DataKey_eqb (a b : DataKey) : bool :=
  match a, b with
  | k_sessions, k_sessions | k_healthStats, k_healthStats
  | k_routines, k_routines | k_settings, k_settings => true
  | _, _ => false
  end.

Definition DATA_KEYS : list DataKey := [k_sessions; k_healthStats; k_routines; k_settings].

(** [Array.prototype.includes] on keys. *)
Definition includesKey (keys : list DataKey) (key : DataKey) : bool :=
  existsb (DataKey_eqb key) keys.

(** [handleKeyToggle] (Settings.tsx 41-43). *)
Definition handleKeyToggle (key : DataKey) (prev : list DataKey) : list DataKey :=
  if includesKey prev key
  then filter (fun k => negb (DataKey_eqb k key)) prev
  else prev ++ [key].

(** The object written to, and parsed from, a backup file; an absent key
    is [None]. *)
Record BackupFile : Type := mkBackupFile {
  b_sessions : option (list WorkoutSession);
  b_healthStats : option (list HealthStat);
  b_routines : option (list WorkoutRoutine);
  b_settings : option DefaultSettings
}.

(** [JSON.parse(JSON.stringify(x))] gives back the plain data held here,
    but for NaN, which is written as [null]. *)
Definition jsonNumber {A : Type} (x : JsNumber A) : JsNumber A :=
  match x with
  | NaN => Null
  | _ => x
  end.

Definition jsonExercise (ex : Exercise) : Exercise :=
  mkExercise (ex_id ex) (ex_name ex) (ex_sets ex) (jsonNumber (ex_reps ex))
    (jsonNumber (ex_weight ex)) (ex_unit ex).



(** One key of [dataToExport]: present when it is selected and the array
    is not empty (Settings.tsx 52-57). *)
Definition exportedList {A : Type} (selectedKeys : list DataKey) (key : DataKey)
    (l : list A) : option (list A) :=
  if includesKey selectedKeys key
  then match l with
       | [] => None
       | _ :: _ => Some l
       end
  else None.





(** What [handleImport] (Settings.tsx 91-109) hands to [onImport]:
    the lists and the settings that are selected and present in the
    file; [None] when no file is loaded or the user declines. *)
Definition handleImport (selectedKeys : list DataKey)
    (importFileData : option BackupFile) (confirmed : bool)
    : option (AppDataUpdate * option DefaultSettings) :=
  match importFileData with
  | None => None
  | Some file =>
      if negb confirmed then None
      else
        let settingsToImport :=
          if includesKey selectedKeys k_settings then b_settings file else None in
        let pick {A : Type} (key : DataKey) (field : option (list A)) :=
          if includesKey selectedKeys key then field else None in
        Some (mkAppDataUpdate
                (pick k_sessions (b_sessions file))
                (pick k_healthStats (b_healthStats file))
                (pick k_routines (b_routines file)),
              settingsToImport)
  end.

(** [handleDataImport] (Settings.tsx 185-191); the [setSettings] prop of
    the component is [handlePersistSettings]. *)
Definition handleDataImport (data : AppDataUpdate) (newSettings : option DefaultSettings)
    (st : AppState) : AppState :=
  let st1 := onUpdateProfileData data st in
  match newSettings with
  | Some s => handlePersistSettings s st1
  | None => st1
  end.

(** The import button: [handleImport] followed by [onImport]. *)
Definition importBackup (selectedKeys : list DataKey)
    (importFileData : option BackupFile) (confirmed : bool) (st : AppState)
    : AppState :=
  match handleImport selectedKeys importFileData confirmed with
  | Some (data, newSettings) => handleDataImport data newSettings st
  | None => st
  end.

Inductive SyncStatus : Type := sync_idle | sync_syncing | sync_success | sync_error.

(** The outcome of [readDataFromDrive]: it throws, resolves to nothing,
    or resolves to the stored Dataset. *)
Inductive DriveRead : Type :=
  | ReadFails
  | NoBackup
  | Backup (remoteData : AppData).

(** What a run of [handleSync] leaves: the component state, the Dataset
    handed to [saveDataToDrive] if any, and the status it ends on before
    the timer resets it to idle ([None]: the status was not touched). *)
Record SyncOutcome : Type := mkSyncOutcome {
  sync_state : AppState;
  sync_saved : option AppData;
  sync_status : option SyncStatus
}.

Definition allOf (d : AppData) : AppDataUpdate :=
  mkAppDataUpdate (Some (sessions d)) (Some (healthStats d)) (Some (routines d)).

Definition nonEmpty {A : Type} (l : list A) : bool :=
  match l with [] => false | _ :: _ => true end.

(** [handleSync] (Settings.tsx 219-250).  [read] is the outcome of the
    Drive read, [confirmMerge] the answer to the merge question, asked
    only on an initial sync with local sessions or health entries, and
    [saveOk] tells whether [saveDataToDrive] resolves. *)
Definition handleSync (isInitialSync : bool) (read : DriveRead)
    (confirmMerge saveOk : bool) (st : AppState) : SyncOutcome :=
  if negb (isSignedIn st) then mkSyncOutcome st None None
  else
    let localData := appData st in
    let settled := if saveOk then Some sync_success else Some sync_error in
    match read with
    | ReadFails => mkSyncOutcome st None (Some sync_error)
    | NoBackup => mkSyncOutcome st (Some localData) settled
    | Backup remoteData =>
        let st1 :=
          if isInitialSync
             && (nonEmpty (sessions localData) || nonEmpty (healthStats localData))
             && negb confirmMerge
          then onUpdateProfileData (allOf remoteData) st
          else st in
        let mergedData := mergeData localData remoteData in
        mkSyncOutcome (onUpdateProfileData (allOf mergedData) st1)
          (Some mergedData) settled
    end.

(** [handleSignIn] of the settings page (Settings.tsx 193).  The
    [handleSync] it calls is the one of the render in which the button was
    shown, so it runs on the state [st] of that render. *)
Definition settingsSignIn (success : bool) (read : DriveRead)
    (confirmMerge saveOk : bool) (st : AppState) : SyncOutcome :=
  if success
  then
    let outcome := handleSync true read confirmMerge saveOk st in
    mkSyncOutcome (setIsSignedIn true (sync_state outcome))
      (sync_saved outcome) (sync_status outcome)
  else mkSyncOutcome (setIsSignedIn false st) None None.

(** ** Fit sync of a finished session (googleFitService.ts) *)

Record FitSessionRequest : Type := mkFitSessionRequest {
  fit_id : string;
  fit_name : string;
  fit_description : string;
  fit_startTimeMillis : Z;
  fit_endTimeMillis : Z;
  fit_activityType : Z
}.

(** [a || b] on strings. *)
Definition orText (a b : string) : string :=
  if String.eqb a EmptyString then b else a.

(** The body of the request [saveWorkoutSessionToFit] issues
    (googleFitService.ts 76-108), or [None] when it skips the session.
    The wrapper [gapiCallWrapper] that runs it is not modelled. *)
Definition fitSessionRequest (session : WorkoutSession) : option FitSessionRequest :=
  match ws_durationMinutes session with
  | None => None
  | Some durationMinutes =>
      if (durationMinutes =? 0) || (durationMinutes <=? 0) then None
      else
        let startTime := ws_timestamp session in
        let endTime := startTime + durationMinutes * 60 * 1000 in
        let sessionId :=
          String.append "veridian-workout-tracker-session:" (toString startTime) in
        Some (mkFitSessionRequest sessionId
                (orText (orDefault (ws_name session) EmptyString) "Workout")
                (orText (ws_notes session)
                   (String.append "Completed "
                      (String.append
                         (toString (Z.of_nat (List.length (ws_exercises session))))
                         (String.append " exercises. Equipment: "
                            (String.append (ws_equipment session) ".")))))
                startTime endTime 75)
  end.

(** ** Recovery code and offline accounts (App.tsx) *)

Definition securityCodeChars : string := "ABCDEFGHJKLMNPQRSTUVWXYZ23456789".

(** [String.prototype.charAt] *)
Definition charAt (text : string) (i : nat) : string :=
  match String.get i text with
  | Some c => String c EmptyString
  | None => EmptyString
  end.

(** [String.prototype.slice(a, b)] for [0 <= a <= b]. *)
Definition slice (a b : nat) (text : string) : string :=
  String.substring a (b - a) text.

(** [generateSecurityCode] (App.tsx 60-68); [draw i] is the value of
    [Math.floor(Math.random() * chars.length)] in round [i] of the loop. *)
Definition generateSecurityCode (draw : nat -> nat) : string :=
  let result :=
    fold_left (fun acc i => String.append acc (charAt securityCodeChars (draw i)))
      (seq 0 12) EmptyString in
  String.append (slice 0 4 result)
    (String.append "-"
       (String.append (slice 4 8 result)
          (String.append "-" (slice 8 12 result)))).

Inductive AuthMode : Type := mode_login | mode_register.

(** The state of the login screen, around the state of the data. *)
Record AuthState : Type := mkAuthState {
  app : AppState;
  offlineAuthError : option string;
  securityCodeForNewUser : option (string * string);
  authMode : AuthMode
}.

Definition setOfflineAuthError (e : option string) (a : AuthState) : AuthState :=
  mkAuthState (app a) e (securityCodeForNewUser a) (authMode a).

Section OfflineAccounts.
Variable hashPassword : string -> string.
Variable toLowerCase : string -> string.
(** [String.prototype.trim] *)
Variable trim : string -> string.

(** [handleOfflineLogin] (App.tsx 534-548). *)
Definition handleOfflineLogin (username password : string) (a : AuthState)
    : AuthState :=
  let failed := setOfflineAuthError (Some "Invalid username or password.") a in
  match findByName toLowerCase username (profiles (app a)) with
  | None => failed
  | Some profile =>
      if String.eqb (up_passwordHash profile) EmptyString then failed
      else if verifyPassword hashPassword password (up_passwordHash profile)
      then mkAuthState
             (setIsSignedIn false
                (setActiveLocalProfileId (Some (up_id profile)) (app a)))
             None (securityCodeForNewUser a) (authMode a)
      else failed
  end.

(** [handleOfflineRegister] (App.tsx 550-570); [securityCode] is the code
    [generateSecurityCode] returned. *)
Definition handleOfflineRegister (username password securityCode : string)
    (now : Z) (a : AuthState) : AuthState :=
  if existsb
       (fun p => String.eqb (toLowerCase (up_name p)) (toLowerCase username))
       (profiles (app a))
  then setOfflineAuthError (Some "Username already taken.") a
  else
    let newProfile :=
      mkUserProfile (toString now) (trim username) (hashPassword password)
        (Some (hashPassword securityCode)) emptyAppData DEFAULT_SETTINGS in
    mkAuthState (setProfiles (profiles (app a) ++ [newProfile]) (app a))
      None (Some (up_name newProfile, securityCode)) (authMode a).
End OfflineAccounts.

(** ** Further vocabulary and sample data *)

(** A list is ordered newest first. *)
Fixpoint newestFirst {A : Type} (item_time : A -> Z) (l : list A) : bool :=
  match l with
  | [] => true
  | x :: l' =>
      match l' with
      | [] => true
      | y :: _ => (item_time y <=? item_time x) && newestFirst item_time l'
      end
  end.

(** Every list of a Dataset is ordered newest first (routines, which carry
    no timestamp, always are). *)
Definition newestFirstData (d : AppData) : Prop :=
  newestFirst ws_timestamp (sessions d) = true
  /\ newestFirst hs_timestamp (healthStats d) = true.

(** Every record of [b] is a record of [a]. *)
Definition holdsAllOf (a b : AppData) : Prop :=
  incl (sessions b) (sessions a)
  /\ incl (healthStats b) (healthStats a)
  /\ incl (routines b) (routines a).



(** A character of the recovery-code alphabet. *)
Definition isCodeChar (c : ascii) : bool :=
  existsb (Ascii.eqb c) (list_ascii_of_string securityCodeChars).

(** The login screen of the sample, with no error shown. *)
Definition sampleLoginPage : AuthState :=
  mkAuthState SampleState.loginScreen None None mode_login.

(** Names are unique without regard to case. *)
Definition uniqueNames (toLowerCase : string -> string) (ps : list UserProfile) : Prop :=
  NoDup (map (fun p => toLowerCase (up_name p)) ps).

(** * Properties *)

(** ** The JavaScript library model *)

Section JsFacts.
Context {A : Type}.

Lemma sort_insert_perm (cmp : A -> A -> Z) (x : A) (l : list A) :
  Permutation (Js.sort_insert cmp x l) (x :: l).
Proof.
  induction l as [|y l IH]; simpl.
  - apply Permutation_refl.
  - destruct (cmp y x <? 0).
    + rewrite IH. apply perm_swap.
    + apply Permutation_refl.
Qed.

Lemma sort_perm (cmp : A -> A -> Z) (l : list A) :
  Permutation (Js.sort cmp l) l.
Proof.
  induction l as [|x l IH]; simpl.
  - apply perm_nil.
  - rewrite sort_insert_perm. now apply perm_skip.
Qed.

Lemma map_get_set (k k' : string) (v : A) (m : list (string * A)) :
  Js.map_get k' (Js.map_set k v m)
  = if String.eqb k k' then Some v else Js.map_get k' m.
Proof.
  induction m as [|[k0 v0] m IH]; simpl.
  - reflexivity.
  - destruct (String.eqb_spec k0 k) as [->|Hne]; simpl.
    + destruct (String.eqb k k'); reflexivity.
    + destruct (String.eqb_spec k0 k') as [->|Hne'].
      * destruct (String.eqb_spec k k'); [congruence | reflexivity].
      * exact IH.
Qed.

Lemma map_set_keys (k k' : string) (v : A) (m : list (string * A)) :
  In k' (map fst (Js.map_set k v m)) <-> k' = k \/ In k' (map fst m).
Proof.
  induction m as [|[k0 v0] m IH]; simpl.
  - intuition congruence.
  - destruct (String.eqb_spec k0 k) as [->|Hne]; simpl.
    + intuition congruence.
    + rewrite IH. intuition congruence.
Qed.

Lemma map_set_NoDup (k : string) (v : A) (m : list (string * A)) :
  NoDup (map fst m) -> NoDup (map fst (Js.map_set k v m)).
Proof.
  induction m as [|[k0 v0] m IH]; simpl; intros Hnd.
  - constructor; [intros [] | constructor].
  - inversion Hnd as [|? ? Hnotin Hnd']; subst.
    destruct (String.eqb_spec k0 k) as [->|Hne]; simpl.
    + now constructor.
    + constructor; [|now apply IH].
      rewrite map_set_keys. intuition congruence.
Qed.

Lemma map_set_Forall (P : string * A -> Prop) (k : string) (v : A)
    (m : list (string * A)) :
  P (k, v) -> Forall P m -> Forall P (Js.map_set k v m).
Proof.
  intros Hkv. induction m as [|[k0 v0] m IH]; simpl; intros Hall.
  - now constructor.
  - inversion Hall; subst.
    destruct (String.eqb k0 k); constructor; auto.
Qed.

Lemma map_get_In (k : string) (v : A) (m : list (string * A)) :
  Js.map_get k m = Some v -> In (k, v) m.
Proof.
  induction m as [|[k0 v0] m IH]; simpl; [discriminate|].
  destruct (String.eqb_spec k0 k) as [->|Hne].
  - intros [= ->]. now left.
  - intros H. right. now apply IH.
Qed.

Lemma In_map_get (k : string) (v : A) (m : list (string * A)) :
  NoDup (map fst m) -> In (k, v) m -> Js.map_get k m = Some v.
Proof.
  induction m as [|[k0 v0] m IH]; simpl; intros Hnd Hin; [contradiction|].
  inversion Hnd as [|? ? Hnotin Hnd']; subst.
  destruct Hin as [[= -> ->]|Hin].
  - now rewrite String.eqb_refl.
  - destruct (String.eqb_spec k0 k) as [->|Hne].
    + exfalso. apply Hnotin. now apply (in_map fst) in Hin.
    + now apply IH.
Qed.

(** [findIndex] when no element passes the test. *)
Lemma findIndex_none (f : A -> bool) (l : list A) :
  forallb (fun x => negb (f x)) l = true -> Js.findIndex f l = -1.
Proof.
  unfold Js.findIndex. generalize 0.
  induction l as [|x l IH]; intros i; simpl; [reflexivity|].
  destruct (f x); simpl; [discriminate|]. apply IH.
Qed.

(** [findIndex] when the first element to pass the test follows [l1]. *)
Lemma findIndex_first (f : A -> bool) (l1 l2 : list A) (x : A) :
  forallb (fun y => negb (f y)) l1 = true -> f x = true ->
  Js.findIndex f (l1 ++ x :: l2) = Z.of_nat (List.length l1).
Proof.
  unfold Js.findIndex. intros H1 Hx.
  assert (G : forall i, Js.findIndexFrom i f (l1 ++ x :: l2) = i + Z.of_nat (List.length l1)).
  { induction l1 as [|y l1 IH]; intros i; simpl.
    - rewrite Hx. lia.
    - simpl in H1. destruct (f y); simpl in H1; [discriminate|].
      rewrite IH by exact H1. lia. }
  rewrite G. lia.
Qed.

(** Every list either has no element passing the test or splits at the
    first one that does. *)
Lemma first_match_split (f : A -> bool) (l : list A) :
  forallb (fun y => negb (f y)) l = true
  \/ exists l1 x l2, l = l1 ++ x :: l2 /\ f x = true
                     /\ forallb (fun y => negb (f y)) l1 = true.
Proof.
  induction l as [|y l IH]; simpl.
  - now left.
  - destruct (f y) eqn:Hy; simpl.
    + right. exists [], y, l. auto.
    + destruct IH as [H|(l1 & x & l2 & -> & Hx & H1)]; [now left|].
      right. exists (y :: l1), x, l2. simpl. rewrite Hy. auto.
Qed.

Lemma updateAt_middle (upd : A -> A) (l1 l2 : list A) (x : A) :
  Js.updateAt (List.length l1) upd (l1 ++ x :: l2) = l1 ++ upd x :: l2.
Proof.
  induction l1 as [|y l1 IH]; simpl; [reflexivity | now rewrite IH].
Qed.
End JsFacts.

(** ** Reconciliation: what [mergeByKey] keeps *)

Section MergeFacts.
Context {A : Type}.
Variable item_id : A -> string.
Variable item_time : A -> Z.

Local Abbreviation entries := (List.map (fun item : A => (item_id item, item))).
Local Abbreviation step := (fun (m : list (string * A)) (e : string * A) =>
                          Js.map_set (fst e) (snd e) m).
Local Abbreviation keyed := (fun e : string * A => fst e = item_id (snd e)).

Lemma lastWithId_app (x : string) (a b : list A) :
  lastWithId item_id x (a ++ b)
  = match lastWithId item_id x b with
    | Some r => Some r
    | None => lastWithId item_id x a
    end.
Proof.
  induction a as [|r a IH]; simpl.
  - now destruct (lastWithId item_id x b).
  - rewrite IH. now destruct (lastWithId item_id x b).
Qed.

Lemma lastWithId_Some (x : string) (l : list A) (r : A) :
  lastWithId item_id x l = Some r -> In r l /\ item_id r = x.
Proof.
  induction l as [|r0 l IH]; simpl; [discriminate|].
  destruct (lastWithId item_id x l) as [r'|].
  - intros [= ->]. destruct (IH eq_refl). auto.
  - destruct (String.eqb_spec (item_id r0) x); [|discriminate].
    intros [= ->]. auto.
Qed.

Lemma lastWithId_None (x : string) (l : list A) :
  lastWithId item_id x l = None <-> ~ In x (map item_id l).
Proof.
  induction l as [|r0 l IH]; simpl.
  - intuition.
  - destruct (lastWithId item_id x l) as [r'|].
    + split; [discriminate|]. intros H. exfalso. apply H. right.
      apply Decidable.not_not.
      * destruct (in_dec string_dec x (map item_id l)); [now left | now right].
      * intros Hn. apply IH in Hn. discriminate.
    + destruct (String.eqb_spec (item_id r0) x) as [->|Hne].
      * split; [discriminate|]. intros H. exfalso. apply H. now left.
      * split; [|reflexivity]. intros _ [H|H]; [congruence|].
        now apply IH in H.
Qed.

Lemma lastWithId_In (x : string) (l : list A) :
  In x (map item_id l) -> exists r, lastWithId item_id x l = Some r.
Proof.
  intros Hin. destruct (lastWithId item_id x l) as [r|] eqn:E.
  - now exists r.
  - apply lastWithId_None in E. contradiction.
Qed.

(** With unique ids, the record a list holds last for an id is the only
    one it holds. *)
Lemma lastWithId_unique (l : list A) (r : A) :
  NoDup (map item_id l) -> In r l -> lastWithId item_id (item_id r) l = Some r.
Proof.
  induction l as [|r0 l IH]; simpl; intros Hnd Hin; [contradiction|].
  inversion Hnd as [|? ? Hnotin Hnd']; subst.
  destruct Hin as [->|Hin].
  - destruct (lastWithId item_id (item_id r) l) as [r'|] eqn:E.
    + apply lastWithId_Some in E. destruct E as [Hin' Hid].
      exfalso. apply Hnotin. rewrite <- Hid. now apply in_map.
    + now rewrite String.eqb_refl.
  - now rewrite (IH Hnd' Hin).
Qed.

(** The map built from a list: unique keys, every entry keyed by its own
    id, and each key bound to the last record listed for it. *)
Lemma fold_map_set (l : list A) (m : list (string * A)) :
  NoDup (map fst m) -> Forall keyed m ->
  let M := fold_left step (entries l) m in
  NoDup (map fst M) /\ Forall keyed M
  /\ (forall k, Js.map_get k M
                = match lastWithId item_id k l with
                  | Some r => Some r
                  | None => Js.map_get k m
                  end)
  /\ (forall k, In k (map fst M) <-> In k (map item_id l) \/ In k (map fst m)).
Proof.
  revert m. induction l as [|r l IH]; intros m Hnd Hk; simpl.
  - repeat split; auto; intuition.
  - destruct (IH (Js.map_set (item_id r) r m)) as (H1 & H2 & H3 & H4).
    + now apply map_set_NoDup.
    + now apply map_set_Forall.
    + repeat split; auto.
      * intros k. rewrite H3, map_get_set.
        destruct (lastWithId item_id k l); [reflexivity|].
        now destruct (String.eqb (item_id r) k).
      * rewrite H4, map_set_keys. intuition.
      * rewrite H4, map_set_keys. intuition.
Qed.

Lemma new_Map_spec (l : list A) :
  let M := Js.new_Map (entries l) in
  NoDup (map fst M) /\ Forall keyed M
  /\ (forall k, Js.map_get k M = lastWithId item_id k l)
  /\ (forall k, In k (map fst M) <-> In k (map item_id l)).
Proof.
  destruct (fold_map_set l []) as (H1 & H2 & H3 & H4); simpl; auto using NoDup_nil.
  repeat split; auto.
  - intros k. rewrite H3. now destruct (lastWithId item_id k l).
  - intros H. apply H4 in H. simpl in H. intuition.
  - intros H. apply H4. now left.
Qed.

Lemma keyed_values_ids (m : list (string * A)) :
  Forall keyed m -> map item_id (Js.map_values m) = map fst m.
Proof.
  induction 1 as [|[k v] m Hkv _ IH]; simpl in *; [reflexivity|].
  now rewrite IH, Hkv.
Qed.

Lemma keyed_In_values (m : list (string * A)) (r : A) :
  NoDup (map fst m) -> Forall keyed m ->
  (In r (Js.map_values m) <-> Js.map_get (item_id r) m = Some r).
Proof.
  intros Hnd Hk. unfold Js.map_values. split.
  - intros Hin. apply in_map_iff in Hin. destruct Hin as ([k v] & Hv & Hin).
    simpl in Hv. subst v. apply In_map_get; [exact Hnd|].
    rewrite Forall_forall in Hk. specialize (Hk _ Hin). simpl in Hk. now subst k.
  - intros Hget. apply map_get_In in Hget.
    apply in_map_iff. now exists (item_id r, r).
Qed.

(** A record survives the merge exactly when it is the last one listed
    for its id in local followed by remote. *)
Lemma mergeByKey_In (a b : list A) (r : A) :
  In r (mergeByKey item_id item_time a b)
  <-> lastWithId item_id (item_id r) (a ++ b) = Some r.
Proof.
  unfold mergeByKey.
  destruct (new_Map_spec (a ++ b)) as (H1 & H2 & H3 & _).
  rewrite <- H3, <- keyed_In_values by assumption.
  split; apply Permutation_in; [|symmetry]; apply sort_perm.
Qed.

Lemma mergeByKey_ids_perm (a b : list A) :
  Permutation (map item_id (mergeByKey item_id item_time a b))
              (map fst (Js.new_Map (entries (a ++ b)))).
Proof.
  unfold mergeByKey.
  destruct (new_Map_spec (a ++ b)) as (_ & H2 & _).
  rewrite <- (keyed_values_ids _ H2).
  apply Permutation_map, sort_perm.
Qed.

(** The merged list never carries an id twice. *)
Lemma mergeByKey_NoDup (a b : list A) :
  NoDup (map item_id (mergeByKey item_id item_time a b)).
Proof.
  destruct (new_Map_spec (a ++ b)) as (H1 & _).
  eapply Permutation_NoDup; [symmetry; apply mergeByKey_ids_perm | exact H1].
Qed.

(** The merged list carries exactly the ids of the two sides. *)
Lemma mergeByKey_ids (a b : list A) (x : string) :
  In x (map item_id (mergeByKey item_id item_time a b))
  <-> In x (map item_id a) \/ In x (map item_id b).
Proof.
  destruct (new_Map_spec (a ++ b)) as (_ & _ & _ & H4).
  rewrite <- in_app_iff, <- map_app, <- H4.
  split; apply Permutation_in; [|symmetry]; apply mergeByKey_ids_perm.
Qed.

Lemma NoDup_records (l : list A) : NoDup (map item_id l) -> NoDup l.
Proof. apply NoDup_map_inv. Qed.

(** In a list with unique ids, selecting by the id of a member yields
    that member alone. *)
Lemma filter_id_unique (l : list A) (r : A) :
  NoDup (map item_id l) -> In r l ->
  filter (fun s => String.eqb (item_id s) (item_id r)) l = [r].
Proof.
  induction l as [|r0 l IH]; simpl; intros Hnd Hin; [contradiction|].
  inversion Hnd as [|? ? Hnotin Hnd']; subst.
  destruct Hin as [->|Hin].
  - rewrite String.eqb_refl. f_equal.
    clear IH Hnd Hnd'. induction l as [|s l IHl]; simpl; [reflexivity|].
    destruct (String.eqb_spec (item_id s) (item_id r)) as [E|].
    + exfalso. apply Hnotin. left. now rewrite E.
    + apply IHl. intros H. apply Hnotin. now right.
  - destruct (String.eqb_spec (item_id r0) (item_id r)) as [E|].
    + exfalso. apply Hnotin. rewrite E. now apply in_map.
    + now apply IH.
Qed.

Lemma count_occ_ids_one (l : list string) (x : string) :
  NoDup l -> In x l -> count_occ string_dec l x = 1%nat.
Proof.
  intros Hnd Hin. apply NoDup_count_occ' with (decA := string_dec); assumption.
Qed.
End MergeFacts.

Section MergeLaws.
Context {A : Type}.
Variable item_id : A -> string.
Variable item_time : A -> Z.

Lemma lastWithId_of_unique (l : list A) (x : string) (r : A) :
  NoDup (map item_id l) -> In r l -> item_id r = x ->
  lastWithId item_id x l = Some r.
Proof. intros Hnd Hin <-. now apply lastWithId_unique. Qed.

(** Looking an id up in the merged list is looking it up in local
    followed by remote. *)
Lemma mergeByKey_lookup (a b : list A) (x : string) :
  lastWithId item_id x (mergeByKey item_id item_time a b)
  = lastWithId item_id x (a ++ b).
Proof.
  destruct (lastWithId item_id x (a ++ b)) as [r|] eqn:E.
  - destruct (lastWithId_Some _ _ _ _ E) as [_ Hid].
    apply lastWithId_of_unique; [apply mergeByKey_NoDup | | exact Hid].
    apply mergeByKey_In. now rewrite Hid.
  - apply lastWithId_None. apply lastWithId_None in E.
    rewrite mergeByKey_ids, <- in_app_iff, <- map_app. exact E.
Qed.

Lemma mergeByKey_exactly_once (a b : list A) (x : string) :
  In x (map item_id a) \/ In x (map item_id b) ->
  count_occ string_dec (map item_id (mergeByKey item_id item_time a b)) x = 1%nat.
Proof.
  intros H. apply count_occ_ids_one.
  - apply mergeByKey_NoDup.
  - now apply mergeByKey_ids.
Qed.

Lemma mergeByKey_remote_wins (a b : list A) (x : string) :
  In x (map item_id b) ->
  exists r, lastWithId item_id x b = Some r /\ In r b /\ item_id r = x
            /\ filter (fun s => String.eqb (item_id s) x)
                 (mergeByKey item_id item_time a b) = [r].
Proof.
  intros Hb. destruct (lastWithId_In item_id x b Hb) as [r Hr].
  destruct (lastWithId_Some _ _ _ _ Hr) as [Hin Hid].
  exists r. repeat split; auto.
  rewrite <- Hid. apply filter_id_unique; [apply mergeByKey_NoDup|].
  apply mergeByKey_In. now rewrite lastWithId_app, Hid, Hr.
Qed.

Lemma mergeByKey_comm_ids (a b : list A) (x : string) :
  In x (map item_id (mergeByKey item_id item_time a b))
  <-> In x (map item_id (mergeByKey item_id item_time b a)).
Proof. rewrite !mergeByKey_ids. tauto. Qed.

Lemma mergeByKey_comm_perm (a b : list A) :
  agreeOnSharedIds item_id a b ->
  Permutation (mergeByKey item_id item_time a b) (mergeByKey item_id item_time b a).
Proof.
  intros Hag.
  apply NoDup_Permutation;
    try (apply (NoDup_records item_id), mergeByKey_NoDup).
  intros r. rewrite !mergeByKey_In, !lastWithId_app.
  destruct (lastWithId item_id (item_id r) a) as [ra|] eqn:Ea;
    destruct (lastWithId item_id (item_id r) b) as [rb|] eqn:Eb; try tauto.
  destruct (lastWithId_Some _ _ _ _ Ea) as [Ha Hida].
  destruct (lastWithId_Some _ _ _ _ Eb) as [Hb Hidb].
  assert (ra = rb) by (apply Hag; congruence).
  subst. tauto.
Qed.

Lemma mergeByKey_self_lookup (a : list A) (x : string) :
  lastWithId item_id x (mergeByKey item_id item_time a a)
  = lastWithId item_id x a.
Proof.
  rewrite mergeByKey_lookup, lastWithId_app.
  now destruct (lastWithId item_id x a).
Qed.

Lemma mergeByKey_self_perm (a : list A) :
  NoDup (map item_id a) -> Permutation (mergeByKey item_id item_time a a) a.
Proof.
  intros Hnd.
  apply NoDup_Permutation.
  - apply (NoDup_records item_id), mergeByKey_NoDup.
  - now apply (NoDup_records item_id).
  - intros r. rewrite mergeByKey_In, lastWithId_app. split.
    + destruct (lastWithId item_id (item_id r) a) as [r'|] eqn:E; [|discriminate].
      intros [= ->]. now apply lastWithId_Some in E.
    + intros Hin. now rewrite (lastWithId_unique item_id a r Hnd Hin).
Qed.
End MergeLaws.

(** ** Reconciliation: the claims on [mergeData] *)

(** The scenario of the specification: local holds session "100", remote
    holds an edited "100" and a new "200"; the merge holds two sessions,
    newest first, and "100" carries the remote notes. *)
Example mergeData_scenario :
  sessions (mergeData Sample.localData Sample.remoteData)
  = [Sample.S2; Sample.S1_remote].
Proof. reflexivity. Qed.

(** Routines all compare as equal, so they stay in insertion order. *)
Example mergeData_routines_order :
  routines (mergeData Sample.localData Sample.remoteData) = [Sample.R1; Sample.R2]
  /\ routines (mergeData Sample.remoteData Sample.localData) = [Sample.R2; Sample.R1].
Proof. split; reflexivity. Qed.

(** C1. For Datasets A and B whose lists have unique ids within each side,
    every id found in a list of A or of B occurs exactly once in the
    corresponding list of [mergeData A B], and no id occurs twice there:
    nothing is dropped, nothing is duplicated. *)
Theorem mergeData_ids_exactly_once (A B : AppData) :
  uniqueIds A -> uniqueIds B ->
  (NoDup (map ws_id (sessions (mergeData A B)))
   /\ forall x, In x (map ws_id (sessions A)) \/ In x (map ws_id (sessions B)) ->
        count_occ string_dec (map ws_id (sessions (mergeData A B))) x = 1%nat)
  /\ (NoDup (map hs_id (healthStats (mergeData A B)))
      /\ forall x, In x (map hs_id (healthStats A)) \/ In x (map hs_id (healthStats B)) ->
           count_occ string_dec (map hs_id (healthStats (mergeData A B))) x = 1%nat)
  /\ (NoDup (map wr_id (routines (mergeData A B)))
      /\ forall x, In x (map wr_id (routines A)) \/ In x (map wr_id (routines B)) ->
           count_occ string_dec (map wr_id (routines (mergeData A B))) x = 1%nat).
Proof.
  intros _ _. unfold mergeData; simpl.
  repeat split;
    solve [apply mergeByKey_NoDup | intros x; apply mergeByKey_exactly_once].
Qed.

Lemma sample_uniqueIds_local : uniqueIds Sample.localData.
Proof.
  repeat split; simpl; repeat constructor; simpl; intuition discriminate.
Qed.

Lemma sample_uniqueIds_remote : uniqueIds Sample.remoteData.
Proof.
  repeat split; simpl; repeat constructor; simpl; intuition discriminate.
Qed.

Lemma mergeData_ids_exactly_once_witness :
  uniqueIds Sample.localData /\ uniqueIds Sample.remoteData
  /\ count_occ string_dec
       (map ws_id (sessions (mergeData Sample.localData Sample.remoteData))) "100"
     = 1%nat.
Proof.
  split; [exact sample_uniqueIds_local|].
  split; [exact sample_uniqueIds_remote|].
  apply (mergeData_ids_exactly_once Sample.localData Sample.remoteData
           sample_uniqueIds_local sample_uniqueIds_remote).
  simpl. auto.
Defined.

(** C2. For every id found in the same list of both sides, the merged list
    holds exactly one record with that id, and it is the remote side's
    record for it (the last one, should the remote side list several):
    remote wins on every collision. *)
Theorem mergeData_remote_wins (A B : AppData) :
  (forall x, In x (map ws_id (sessions A)) -> In x (map ws_id (sessions B)) ->
     exists r, lastWithId ws_id x (sessions B) = Some r
               /\ In r (sessions B) /\ ws_id r = x
               /\ filter (fun s => String.eqb (ws_id s) x) (sessions (mergeData A B)) = [r])
  /\ (forall x, In x (map hs_id (healthStats A)) -> In x (map hs_id (healthStats B)) ->
        exists r, lastWithId hs_id x (healthStats B) = Some r
                  /\ In r (healthStats B) /\ hs_id r = x
                  /\ filter (fun s => String.eqb (hs_id s) x) (healthStats (mergeData A B)) = [r])
  /\ (forall x, In x (map wr_id (routines A)) -> In x (map wr_id (routines B)) ->
        exists r, lastWithId wr_id x (routines B) = Some r
                  /\ In r (routines B) /\ wr_id r = x
                  /\ filter (fun s => String.eqb (wr_id s) x) (routines (mergeData A B)) = [r]).
Proof.
  unfold mergeData; simpl.
  repeat split; intros x _ Hb; now apply mergeByKey_remote_wins.
Qed.

Lemma mergeData_remote_wins_witness :
  In "100" (map ws_id (sessions Sample.localData))
  /\ In "100" (map ws_id (sessions Sample.remoteData))
  /\ exists r, lastWithId ws_id "100" (sessions Sample.remoteData) = Some r
               /\ In r (sessions Sample.remoteData) /\ ws_id r = "100"
               /\ filter (fun s => String.eqb (ws_id s) "100")
                    (sessions (mergeData Sample.localData Sample.remoteData)) = [r].
Proof.
  split; [simpl; auto|]. split; [simpl; auto|].
  apply (proj1 (mergeData_remote_wins Sample.localData Sample.remoteData));
    simpl; auto.
Defined.

(** C3, as stated, fails: on an id held by both sides with different
    content, [mergeData a b] keeps b's record and [mergeData b a] keeps
    a's, so the two results do not hold the same records. *)
Lemma mergeData_not_commutative :
  In Sample.S1_remote (sessions (mergeData Sample.localData Sample.remoteData))
  /\ ~ In Sample.S1_remote (sessions (mergeData Sample.remoteData Sample.localData)).
Proof.
  split.
  - simpl. auto.
  - simpl. intros [E|[E|[]]]; discriminate E.
Qed.

(** C3, amended. [mergeData a b] and [mergeData b a] always hold the same
    ids; they hold the same records, up to order, whenever the two sides
    agree on the content of every id they share. *)
Theorem mergeData_commutative_on_agreement (a b : AppData) :
  ((forall x, In x (map ws_id (sessions (mergeData a b)))
              <-> In x (map ws_id (sessions (mergeData b a))))
   /\ (forall x, In x (map hs_id (healthStats (mergeData a b)))
                 <-> In x (map hs_id (healthStats (mergeData b a))))
   /\ (forall x, In x (map wr_id (routines (mergeData a b)))
                 <-> In x (map wr_id (routines (mergeData b a)))))
  /\ (agreeingData a b ->
      Permutation (sessions (mergeData a b)) (sessions (mergeData b a))
      /\ Permutation (healthStats (mergeData a b)) (healthStats (mergeData b a))
      /\ Permutation (routines (mergeData a b)) (routines (mergeData b a))).
Proof.
  unfold mergeData; simpl. split.
  - repeat split; apply mergeByKey_comm_ids.
  - intros (Hs & Hh & Hr).
    repeat split; now apply mergeByKey_comm_perm.
Qed.

Lemma sample_agreeing : agreeingData Sample.syncedData Sample.remoteData.
Proof.
  repeat split; intros ra rb Ha Hb E; simpl in Ha, Hb;
    repeat match goal with
           | H : _ \/ _ |- _ => destruct H
           | H : False |- _ => destruct H
           end; subst; try reflexivity; discriminate E.
Qed.

Lemma mergeData_commutative_on_agreement_witness :
  agreeingData Sample.syncedData Sample.remoteData
  /\ Permutation (sessions (mergeData Sample.syncedData Sample.remoteData))
                 (sessions (mergeData Sample.remoteData Sample.syncedData)).
Proof.
  split; [exact sample_agreeing|].
  apply (proj2 (mergeData_commutative_on_agreement Sample.syncedData Sample.remoteData)
           sample_agreeing).
Defined.

(** C4. Merging a Dataset with itself gives the Dataset back as a set of
    ids with remote-wins content: each merged list has unique ids and
    binds every id to the record the original list binds it to (the last
    one listed); when the original ids are unique the merged list is the
    original list up to order. *)
Theorem mergeData_idempotent (A : AppData) :
  (NoDup (map ws_id (sessions (mergeData A A)))
   /\ (forall x, lastWithId ws_id x (sessions (mergeData A A))
                 = lastWithId ws_id x (sessions A))
   /\ (NoDup (map ws_id (sessions A)) ->
       Permutation (sessions (mergeData A A)) (sessions A)))
  /\ (NoDup (map hs_id (healthStats (mergeData A A)))
      /\ (forall x, lastWithId hs_id x (healthStats (mergeData A A))
                    = lastWithId hs_id x (healthStats A))
      /\ (NoDup (map hs_id (healthStats A)) ->
          Permutation (healthStats (mergeData A A)) (healthStats A)))
  /\ (NoDup (map wr_id (routines (mergeData A A)))
      /\ (forall x, lastWithId wr_id x (routines (mergeData A A))
                    = lastWithId wr_id x (routines A))
      /\ (NoDup (map wr_id (routines A)) ->
          Permutation (routines (mergeData A A)) (routines A))).
Proof.
  unfold mergeData; simpl.
  repeat split;
    solve [ apply mergeByKey_NoDup
          | intros x; apply mergeByKey_self_lookup
          | apply mergeByKey_self_perm ].
Qed.

Lemma mergeData_idempotent_witness :
  NoDup (map ws_id (sessions Sample.remoteData))
  /\ Permutation (sessions (mergeData Sample.remoteData Sample.remoteData))
                 (sessions Sample.remoteData).
Proof.
  split; [exact (proj1 sample_uniqueIds_remote)|].
  apply (proj2 (proj2 (proj1 (mergeData_idempotent Sample.remoteData)))).
  exact (proj1 sample_uniqueIds_remote).
Defined.

(** The merged list is sorted, so it need not be the original list. *)
Remark mergeData_self_reorders :
  sessions (mergeData Sample.ascendingData Sample.ascendingData)
  = [Sample.S2; Sample.S1_local]
  /\ sessions Sample.ascendingData = [Sample.S1_local; Sample.S2].
Proof. split; reflexivity. Qed.

(** ** Session lifecycle: committing *)

Lemma toString_not_active (n : Z) : toString n <> activeId.
Proof.
  unfold toString, activeId.
  destruct (Z.to_int n) as [u|u]; destruct u; simpl; discriminate.
Qed.

(** [roundDiv n d] is the integer nearest to [n/d], halves going up. *)
Lemma roundDiv_nearest (n d : Z) :
  0 < d ->
  2 * d * roundDiv n d <= 2 * n + d < 2 * d * (roundDiv n d + 1).
Proof.
  intros Hd. unfold roundDiv.
  pose proof (Z.div_mod (2 * n + d) (2 * d) ltac:(lia)) as E.
  pose proof (Z.mod_pos_bound (2 * n + d) (2 * d) ltac:(lia)) as B.
  lia.
Qed.

Lemma roundDiv_nonneg (n d : Z) : 0 < d -> 0 <= 2 * n + d -> 0 <= roundDiv n d.
Proof. intros Hd Hn. unfold roundDiv. apply Z.div_pos; lia. Qed.

Lemma finalSession_id (now : Z) (s : WorkoutSession) :
  ws_id (finalSession now s) = ws_id s.
Proof. unfold finalSession. now destruct (String.eqb (ws_id s) activeId). Qed.

Lemma finalSession_exercises (now : Z) (s : WorkoutSession) :
  ws_exercises (finalSession now s) = ws_exercises s.
Proof. unfold finalSession. now destruct (String.eqb (ws_id s) activeId). Qed.

(** The id under which a session is saved. *)
Lemma finalSessionWithId_id (now : Z) (s : WorkoutSession) :
  ws_id (finalSessionWithId now s)
  = if String.eqb (ws_id s) activeId then toString now else ws_id s.
Proof.
  unfold finalSessionWithId, newSessionId. simpl. now rewrite finalSession_id.
Qed.

Lemma updateState_perm (final finalWithId : WorkoutSession) (d : AppData) :
  Permutation (sessions (updateState final finalWithId d))
    (filter (fun s => negb (String.eqb (ws_id s) (ws_id final))) (sessions d)
     ++ [finalWithId]).
Proof. unfold updateState. simpl. apply sort_perm. Qed.

Lemma filter_other_ids (x : string) (l : list WorkoutSession) :
  ~ In x (map ws_id l) ->
  filter (fun s => negb (String.eqb (ws_id s) x)) l = l.
Proof.
  induction l as [|s l IH]; simpl; intros H; [reflexivity|].
  destruct (String.eqb_spec (ws_id s) x) as [E|_]; simpl.
  - exfalso. apply H. now left.
  - f_equal. apply IH. intros Hin. apply H. now right.
Qed.

Lemma filter_ids_subset (f : WorkoutSession -> bool) (l : list WorkoutSession) (x : string) :
  In x (map ws_id (filter f l)) -> In x (map ws_id l).
Proof.
  rewrite !in_map_iff. intros (s & E & Hin).
  apply filter_In in Hin. exists s. tauto.
Qed.

Lemma filter_removes_id (x : string) (l : list WorkoutSession) :
  ~ In x (map ws_id (filter (fun s => negb (String.eqb (ws_id s) x)) l)).
Proof.
  rewrite in_map_iff. intros (s & E & Hin).
  apply filter_In in Hin. destruct Hin as [_ Hne].
  rewrite E, String.eqb_refl in Hne. discriminate.
Qed.

Lemma filter_ids_NoDup (f : WorkoutSession -> bool) (l : list WorkoutSession) :
  NoDup (map ws_id l) -> NoDup (map ws_id (filter f l)).
Proof.
  induction l as [|s l IH]; simpl; intros Hnd; [constructor|].
  inversion Hnd as [|? ? Hnotin Hnd']; subst.
  destruct (f s); simpl; [|now apply IH].
  constructor; [|now apply IH].
  intros Hin. apply Hnotin. now apply filter_ids_subset in Hin.
Qed.

(** Looking a profile up by id after a map that rewrites exactly the
    profiles with that id and keeps their id. *)
Lemma find_profile_map (pid : string) (f : UserProfile -> UserProfile)
    (ps : list UserProfile) :
  (forall p, up_id (f p) = up_id p) ->
  find (fun p => String.eqb (up_id p) pid)
    (map (fun p => if String.eqb (up_id p) pid then f p else p) ps)
  = option_map f (find (fun p => String.eqb (up_id p) pid) ps).
Proof.
  intros Hid. induction ps as [|p ps IH]; simpl; [reflexivity|].
  destruct (String.eqb (up_id p) pid) eqn:E.
  - now rewrite Hid, E.
  - now rewrite E.
Qed.

(** A commit applies [updateState] to the current Dataset. *)
Lemma finishSession_commits (now : Z) (st : AppState) (s : WorkoutSession) (d : AppData) :
  activeSession st = Some s -> ws_exercises s <> [] ->
  currentDataset st = Some d ->
  currentDataset (finishSession now st)
  = Some (updateState (finalSession now s) (finalSessionWithId now s) d)
  /\ activeSession (finishSession now st) = None
  /\ editingSessionId (finishSession now st) = None.
Proof.
  intros Hact Hex Hd. unfold finishSession. rewrite Hact.
  destruct (ws_exercises s) as [|e es] eqn:Ees; [congruence|].
  unfold currentDataset in *.
  destruct (truthy (activeLocalProfileId st)) as [pid|] eqn:Et.
  - unfold updateLocalProfile, orElse. simpl. rewrite Et.
    unfold activeProfile in *. simpl. rewrite Et in *.
    rewrite find_profile_map by reflexivity.
    destruct (find (fun p => String.eqb (up_id p) pid) (profiles st)) as [p|];
      simpl in *; [|discriminate].
    injection Hd as <-. auto.
  - simpl. destruct (isSignedIn st) eqn:Es; [|discriminate].
    simpl. rewrite Et, Es. injection Hd as <-. auto.
Qed.

(** C5, as stated, fails: a new session is saved under the numeral of the
    commit time, and the entry it replaces is looked for under the
    sentinel id.  When the list already holds that numeral as an id, the
    commit leaves two sessions with the same id; when the list holds an
    entry under the sentinel id, the commit drops it although the
    committed session has another id. *)
Lemma commit_is_not_always_an_upsert :
  (NoDup (map ws_id (sessions (appData SampleState.loggingClash)))
   /\ currentDataset SampleState.loggingClash = Some (appData SampleState.loggingClash)
   /\ exists d',
        currentDataset (finishSession 1060000 SampleState.loggingClash) = Some d'
        /\ map ws_id (sessions d') = ["1060000"; "1060000"]
        /\ ~ NoDup (map ws_id (sessions d')))
  /\ (NoDup (map ws_id (sessions (appData SampleState.loggingStale)))
      /\ currentDataset SampleState.loggingStale = Some (appData SampleState.loggingStale)
      /\ In SampleState.S_stale (sessions (appData SampleState.loggingStale))
      /\ ws_id SampleState.S_stale <> ws_id (finalSessionWithId 1060000 SampleState.newSession)
      /\ exists d',
           currentDataset (finishSession 1060000 SampleState.loggingStale) = Some d'
           /\ sessions d' = [finalSessionWithId 1060000 SampleState.newSession; Sample.S2]
           /\ ~ In SampleState.S_stale (sessions d')).
Proof.
  split.
  - split; [simpl; repeat constructor; simpl; tauto|].
    split; [reflexivity|].
    eexists. split; [reflexivity|]. split; [reflexivity|].
    simpl. intros H. inversion H as [|? ? Hnotin _]. apply Hnotin. now left.
  - split; [simpl; repeat constructor; simpl; intuition discriminate|].
    split; [reflexivity|]. split; [simpl; auto|]. split; [discriminate|].
    eexists. split; [reflexivity|]. split; [reflexivity|].
    simpl. intros [E|[E|[]]]; discriminate E.
Qed.

(** C5, amended. For a Dataset whose session list has unique ids and an
    active session with at least one exercise -- where, for a new session,
    the list holds neither the numeral of the commit time nor the sentinel
    as an id -- the commit leaves the current Dataset with the committed
    session in place of any entry with its id, all other entries kept (the
    list is re-sorted, newest first), and the ids are still unique. *)
Theorem commit_upserts (now : Z) (st : AppState) (s : WorkoutSession) (d : AppData) :
  activeSession st = Some s ->
  ws_exercises s <> [] ->
  currentDataset st = Some d ->
  NoDup (map ws_id (sessions d)) ->
  (ws_id s = activeId ->
   ~ In (toString now) (map ws_id (sessions d)) /\ ~ In activeId (map ws_id (sessions d))) ->
  exists d',
    currentDataset (finishSession now st) = Some d'
    /\ Permutation (sessions d')
         (filter (fun x => negb (String.eqb (ws_id x) (ws_id (finalSessionWithId now s))))
            (sessions d)
          ++ [finalSessionWithId now s])
    /\ NoDup (map ws_id (sessions d'))
    /\ healthStats d' = healthStats d /\ routines d' = routines d.
Proof.
  intros Hact Hex Hd Hnd Hfresh.
  destruct (finishSession_commits now st s d Hact Hex Hd) as (Hd' & _ & _).
  eexists. split; [exact Hd'|].
  assert (Hfilter :
    filter (fun x => negb (String.eqb (ws_id x) (ws_id (finalSession now s)))) (sessions d)
    = filter (fun x => negb (String.eqb (ws_id x) (ws_id (finalSessionWithId now s)))) (sessions d)).
  { rewrite finalSession_id, finalSessionWithId_id.
    destruct (String.eqb_spec (ws_id s) activeId) as [E|_]; [|reflexivity].
    destruct (Hfresh E) as [Hn Ha].
    rewrite E, !filter_other_ids by assumption. reflexivity. }
  assert (Hperm := updateState_perm (finalSession now s) (finalSessionWithId now s) d).
  rewrite Hfilter in Hperm.
  split; [exact Hperm|]. split; [|split; reflexivity].
  eapply Permutation_NoDup; [symmetry; apply Permutation_map, Hperm|].
  rewrite map_app. simpl.
  apply NoDup_app; [now apply filter_ids_NoDup | repeat constructor; simpl; tauto |].
  intros x Hin [<-|[]]. now apply filter_removes_id in Hin.
Qed.

Lemma commit_upserts_witness :
  exists d',
    currentDataset (finishSession 1060000 SampleState.loggingOffline) = Some d'
    /\ Permutation (sessions d')
         (filter (fun x => negb (String.eqb (ws_id x)
                                   (ws_id (finalSessionWithId 1060000 SampleState.newSession))))
            (sessions (up_appData SampleState.alice))
          ++ [finalSessionWithId 1060000 SampleState.newSession])
    /\ NoDup (map ws_id (sessions d'))
    /\ healthStats d' = healthStats (up_appData SampleState.alice)
    /\ routines d' = routines (up_appData SampleState.alice).
Proof.
  apply (commit_upserts 1060000 SampleState.loggingOffline SampleState.newSession
           (up_appData SampleState.alice)).
  - reflexivity.
  - discriminate.
  - reflexivity.
  - simpl. repeat constructor; simpl; intuition discriminate.
  - intros _. simpl. split; intuition discriminate.
Defined.

(** For an offline profile the commit is written to the profile, and the
    loading effect then brings it into [appData]. *)
Example commit_offline_then_load :
  map ws_id (sessions (appData (finishSession 1060000 SampleState.loggingOffline)))
  = ["200"; "100"]
  /\ map ws_id
       (sessions (appData (loadDataEffect (finishSession 1060000 SampleState.loggingOffline))))
     = ["1060000"; "200"; "100"].
Proof. split; reflexivity. Qed.

(** C6, as stated, fails twice over: the minutes are negative when the
    clock at commit reads more than half a minute before the recorded
    start, and the new id is the numeral of the commit time, which the
    list may already hold. *)
Lemma negative_minutes_and_reused_id :
  (ws_id SampleState.newSession = activeId
   /\ ws_exercises SampleState.newSession <> []
   /\ exists d',
        currentDataset (finishSession 900000 SampleState.logging) = Some d'
        /\ In (finalSessionWithId 900000 SampleState.newSession) (sessions d')
        /\ ws_durationMinutes (finalSessionWithId 900000 SampleState.newSession)
           = Some (-2))
  /\ (exists d',
        currentDataset (finishSession 1120000 SampleState.loggingClash') = Some d'
        /\ filter (fun x => String.eqb (ws_id x)
                              (ws_id (finalSessionWithId 1120000 SampleState.newSession)))
             (sessions d')
           = [finalSessionWithId 1120000 SampleState.newSession; SampleState.S_clash']).
Proof.
  split.
  - split; [reflexivity|]. split; [discriminate|].
    eexists. split; [reflexivity|]. split; [simpl; auto | reflexivity].
  - eexists. split; reflexivity.
Qed.

(** C6, amended. Committing a new session (sentinel id) with at least one
    exercise saves it with [durationMinutes = round((now - start)/60000)]
    and with the numeral of the commit time as id, which is never the
    sentinel.  The minutes are non-negative whenever the commit time is no
    more than 30 000 ms before the recorded start; the id is carried by no
    other session of the resulting list whenever the list did not hold it
    before. *)
Theorem commit_new_session (now : Z) (st : AppState) (s : WorkoutSession) (d : AppData) :
  activeSession st = Some s ->
  ws_id s = activeId ->
  ws_exercises s <> [] ->
  currentDataset st = Some d ->
  exists d',
    currentDataset (finishSession now st) = Some d'
    /\ In (finalSessionWithId now s) (sessions d')
    /\ ws_durationMinutes (finalSessionWithId now s)
       = Some (roundDiv (now - ws_timestamp s) 60000)
    /\ ws_id (finalSessionWithId now s) = toString now
    /\ ws_id (finalSessionWithId now s) <> activeId
    /\ (ws_timestamp s <= now + 30000 ->
        0 <= roundDiv (now - ws_timestamp s) 60000)
    /\ (~ In (toString now) (map ws_id (sessions d)) ->
        forall x, In x (sessions d') ->
                  ws_id x = ws_id (finalSessionWithId now s) ->
                  x = finalSessionWithId now s).
Proof.
  intros Hact Hid Hex Hd.
  destruct (finishSession_commits now st s d Hact Hex Hd) as (Hd' & _ & _).
  eexists. split; [exact Hd'|].
  assert (Hperm := updateState_perm (finalSession now s) (finalSessionWithId now s) d).
  assert (Hcid : ws_id (finalSessionWithId now s) = toString now).
  { rewrite finalSessionWithId_id, Hid. reflexivity. }
  split; [|split; [|split; [exact Hcid|split; [|split]]]].
  - eapply Permutation_in; [symmetry; exact Hperm|].
    apply in_or_app. right. now left.
  - unfold finalSessionWithId, finalSession. rewrite Hid. reflexivity.
  - rewrite Hcid. apply toString_not_active.
  - intros Hle. apply roundDiv_nonneg; lia.
  - intros Hfresh x Hin Hx.
    apply (Permutation_in _ Hperm) in Hin.
    apply in_app_or in Hin. destruct Hin as [Hin|[<-|[]]]; [|reflexivity].
    exfalso. apply Hfresh. rewrite <- Hcid, <- Hx.
    apply filter_In in Hin. apply in_map. tauto.
Qed.

Lemma commit_new_session_witness :
  ws_timestamp SampleState.newSession <= 1060000 + 30000
  /\ ~ In (toString 1060000) (map ws_id (sessions (appData SampleState.logging)))
  /\ exists d',
       currentDataset (finishSession 1060000 SampleState.logging) = Some d'
       /\ In (finalSessionWithId 1060000 SampleState.newSession) (sessions d')
       /\ 0 <= roundDiv (1060000 - ws_timestamp SampleState.newSession) 60000
       /\ forall x, In x (sessions d') ->
                    ws_id x = ws_id (finalSessionWithId 1060000 SampleState.newSession) ->
                    x = finalSessionWithId 1060000 SampleState.newSession.
Proof.
  assert (Hle : ws_timestamp SampleState.newSession <= 1060000 + 30000)
    by (simpl; lia).
  assert (Hfresh : ~ In (toString 1060000)
                       (map ws_id (sessions (appData SampleState.logging))))
    by (simpl; intuition discriminate).
  split; [exact Hle|]. split; [exact Hfresh|].
  destruct (commit_new_session 1060000 SampleState.logging SampleState.newSession
              (appData SampleState.logging) eq_refl eq_refl
              ltac:(discriminate) eq_refl)
    as (d' & Hd' & Hin & _ & _ & _ & Hnonneg & Huniq).
  exists d'. split; [exact Hd'|]. split; [exact Hin|].
  split; [exact (Hnonneg Hle) | exact (Huniq Hfresh)].
Defined.

(** On the sample the session is saved with one minute and an id of its
    own. *)
Example sample_new_session_commit :
  ws_timestamp SampleState.newSession <= 1060000 + 30000
  /\ ~ In (toString 1060000) (map ws_id (sessions (appData SampleState.logging)))
  /\ option_map (fun d => map ws_id (sessions d))
       (currentDataset (finishSession 1060000 SampleState.logging))
     = Some ["1060000"; "200"; "100"]
  /\ ws_durationMinutes (finalSessionWithId 1060000 SampleState.newSession) = Some 1.
Proof.
  split; [simpl; lia|]. split; [simpl; intuition discriminate|].
  split; reflexivity.
Qed.

(** C8. Committing an active session without exercises only clears the
    active session and the edit marker: profiles, the in-memory Dataset
    and hence the current Dataset are left as they were, nothing is
    saved, and the controller is idle. *)
Theorem commit_empty_session (now : Z) (st : AppState) (s : WorkoutSession) :
  activeSession st = Some s ->
  ws_exercises s = [] ->
  finishSession now st = setEditingSessionId None (setActiveSession None st)
  /\ activeSession (finishSession now st) = None
  /\ editingSessionId (finishSession now st) = None
  /\ profiles (finishSession now st) = profiles st
  /\ appData (finishSession now st) = appData st
  /\ currentDataset (finishSession now st) = currentDataset st.
Proof.
  intros Hact Hex.
  assert (E : finishSession now st = setEditingSessionId None (setActiveSession None st)).
  { unfold finishSession. now rewrite Hact, Hex. }
  rewrite E. repeat split.
Qed.

Lemma commit_empty_session_witness :
  activeSession SampleState.loggingEmpty = Some SampleState.emptySession
  /\ ws_exercises SampleState.emptySession = []
  /\ activeSession (finishSession 1060000 SampleState.loggingEmpty) = None
  /\ currentDataset (finishSession 1060000 SampleState.loggingEmpty)
     = currentDataset SampleState.loggingEmpty.
Proof.
  split; [reflexivity|]. split; [reflexivity|].
  destruct (commit_empty_session 1060000 SampleState.loggingEmpty
              SampleState.emptySession eq_refl eq_refl)
    as (_ & Ha & _ & _ & _ & Hd).
  split; [exact Ha | exact Hd].
Defined.

(** ** Session lifecycle: adding exercises *)

Lemma Qc_eq_bool_refl (q : Qc) : Qc_eq_bool q q = true.
Proof. unfold Qc_eq_bool. destruct (Qc_eq_dec q q); [reflexivity | contradiction]. Qed.

Lemma WeightUnit_eqb_eq (u v : WeightUnit) : WeightUnit_eqb u v = true <-> u = v.
Proof. destruct u, v; simpl; split; intros H; try reflexivity; discriminate. Qed.

(** On a number that is not NaN, [===] is equality. *)
Lemma strictEq_eq {A : Type} (eqb : A -> A -> bool) (a b : JsNumber A) :
  (forall x y, eqb x y = true <-> x = y) ->
  b <> NaN ->
  strictEq eqb a b = true <-> a = b.
Proof.
  intros Heqb Hb. destruct a as [| |x], b as [| |y]; simpl;
    try (split; [discriminate | intros E; first [discriminate E | contradiction]]);
    try (split; reflexivity).
  rewrite Heqb. split; [now intros -> | now intros [= ->]].
Qed.

Lemma Qc_eq_bool_eq (x y : Qc) : Qc_eq_bool x y = true <-> x = y.
Proof.
  split; [apply Qc_eq_bool_correct | intros ->; apply Qc_eq_bool_refl].
Qed.

(** The test of [findIndex], spelled out for a submission whose reps and
    weight are not NaN. *)
Lemma sameTuple_spec (now : Z) (e : ExerciseInput) (x : Exercise) :
  in_reps e <> NaN -> in_weight e <> NaN ->
  sameTuple (newExercise now e) x = true
  <-> ex_name x = in_name e /\ ex_weight x = in_weight e
      /\ ex_unit x = in_unit e /\ ex_reps x = in_reps e.
Proof.
  intros Hr Hw. unfold sameTuple, newExercise. simpl.
  rewrite !andb_true_iff, String.eqb_eq, WeightUnit_eqb_eq.
  rewrite (strictEq_eq Qc_eq_bool _ _ Qc_eq_bool_eq Hw).
  rewrite (strictEq_eq Z.eqb _ _ Z.eqb_eq Hr).
  tauto.
Qed.

Lemma none_sameTuple (now : Z) (e : ExerciseInput) (l : list Exercise) :
  in_reps e <> NaN -> in_weight e <> NaN ->
  forallb (fun y => negb (sameTuple (newExercise now e) y)) l = true ->
  Forall (fun y => ~ (ex_name y = in_name e /\ ex_weight y = in_weight e
                      /\ ex_unit y = in_unit e /\ ex_reps y = in_reps e)) l.
Proof.
  intros Hr Hw Hall. apply Forall_forall. intros y Hin Hsame.
  rewrite forallb_forall in Hall. specialize (Hall y Hin).
  apply (sameTuple_spec now e y Hr Hw) in Hsame.
  rewrite Hsame in Hall. discriminate.
Qed.

(** One call on an active session whose first matching row follows [l1]:
    what the next render holds as active session. *)
Lemma addExercise_matching (e : ExerciseInput) (now : Z) (st : AppState)
    (s : WorkoutSession) (l1 l2 : list Exercise) (x : Exercise) :
  activeSession st = Some s ->
  ws_exercises s = l1 ++ x :: l2 ->
  sameTuple (newExercise now e) x = true ->
  forallb (fun y => negb (sameTuple (newExercise now e) y)) l1 = true ->
  activeSession (addExerciseToSession e now st)
  = Some (withExercises (l1 ++ addOneSet x :: l2) s)
  /\ lastActivityTime (addExerciseToSession e now st) = Some now.
Proof.
  intros Hact Hex Hx Hl1. unfold addExerciseToSession. rewrite Hact, Hex.
  rewrite (findIndex_first _ l1 l2 x Hl1 Hx).
  assert (G : (Z.of_nat (List.length l1) >? -1) = true) by (apply Z.gtb_lt; lia).
  rewrite G, Nat2Z.id, updateAt_middle. split; reflexivity.
Qed.

(** One call on an active session without a matching row. *)
Lemma addExercise_fresh (e : ExerciseInput) (now : Z) (st : AppState)
    (s : WorkoutSession) :
  activeSession st = Some s ->
  forallb (fun y => negb (sameTuple (newExercise now e) y)) (ws_exercises s) = true ->
  addExerciseToSession e now st
  = setLastActivityTime (Some now)
      (setActiveSession
         (Some (withExercises (ws_exercises s ++ [newExercise now e]) s)) st).
Proof.
  intros Hact Hnone. unfold addExerciseToSession. rewrite Hact.
  now rewrite (findIndex_none _ _ Hnone).
Qed.

(** C7, as stated, fails.  The rows are compared with [===], under which
    NaN equals nothing, and the logger submits NaN for a cleared reps or
    weight field: two clicks with the same cleared field leave two rows of
    one set each.  The id of an appended row is the numeral of the clock
    reading and is not checked against the rows held: two different
    exercises logged under one reading share their id.  And a matching row
    gains one set whatever set count is submitted: there is no default set
    count. *)
Lemma cleared_field_makes_two_rows :
  option_map ws_exercises
    (activeSession
       (handleAddExerciseClick "Squats" NaN (Finite (Q2Qc (40 # 1))) kg 1030000
          (handleAddExerciseClick "Squats" NaN (Finite (Q2Qc (40 # 1))) kg 1020000
             SampleState.loggingEmpty)))
  = Some [mkExercise "1020000" "Squats" 1 NaN (Finite (Q2Qc (40 # 1))) kg;
          mkExercise "1030000" "Squats" 1 NaN (Finite (Q2Qc (40 # 1))) kg]
  /\ option_map (fun s => map (fun x => (ex_id x, ex_name x)) (ws_exercises s))
       (activeSession
          (addExerciseToSession SampleState.squatsInput 1020000
             (addExerciseToSession SampleState.pushUpsInput 1020000
                SampleState.loggingEmpty)))
     = Some [("1020000", "Push-ups"); ("1020000", "Squats")]
  /\ option_map (fun s => map ex_sets (ws_exercises s))
       (activeSession
          (addExerciseToSession
             (mkExerciseInput "Squats" 3 (Finite 8) (Finite (Q2Qc (40 # 1))) kg) 1030000
             (addExerciseToSession
                (mkExerciseInput "Squats" 3 (Finite 8) (Finite (Q2Qc (40 # 1))) kg) 1020000
                SampleState.loggingEmpty)))
     = Some [4].
Proof. repeat split. Qed.

(** C7, amended.  On an active session, for a submission whose reps and
    weight are not NaN, two calls with the same (name, weight, unit, reps)
    leave one row for the tuple, not two, and each call that finds the row
    adds one set to it.  Either a row carried the tuple already: then no
    row is added, and the first such row has gained one set after the
    first call and two after the second, nothing else changing.  Or none
    did: then the first call appends a row with the submitted name, sets,
    reps, weight and unit under the numeral of its clock reading as id,
    and the second call adds one set to that row.  The other fields of the
    active session are as before, and the activity time is that of the
    last call. *)
Theorem addExercise_twice (e : ExerciseInput) (now1 now2 : Z) (st : AppState)
    (s : WorkoutSession) :
  activeSession st = Some s ->
  in_reps e <> NaN ->
  in_weight e <> NaN ->
  let sameAs := fun x : Exercise =>
    ex_name x = in_name e /\ ex_weight x = in_weight e
    /\ ex_unit x = in_unit e /\ ex_reps x = in_reps e in
  let withRows := fun rows : list Exercise =>
    mkWorkoutSession (ws_id s) (ws_timestamp s) (ws_name s) (ws_warmup s)
      (ws_equipment s) (ws_notes s) rows (ws_durationMinutes s) in
  let once := addExerciseToSession e now1 st in
  let twice := addExerciseToSession e now2 once in
  lastActivityTime twice = Some now2
  /\ ((exists l1 x l2,
         ws_exercises s = l1 ++ x :: l2
         /\ sameAs x
         /\ Forall (fun y => ~ sameAs y) l1
         /\ activeSession once
            = Some (withRows
                      (l1 ++ mkExercise (ex_id x) (ex_name x) (ex_sets x + 1)
                               (ex_reps x) (ex_weight x) (ex_unit x) :: l2))
         /\ activeSession twice
            = Some (withRows
                      (l1 ++ mkExercise (ex_id x) (ex_name x) (ex_sets x + 2)
                               (ex_reps x) (ex_weight x) (ex_unit x) :: l2)))
      \/ (Forall (fun y => ~ sameAs y) (ws_exercises s)
          /\ activeSession once
             = Some (withRows
                       (ws_exercises s
                        ++ [mkExercise (toString now1) (in_name e) (in_sets e)
                              (in_reps e) (in_weight e) (in_unit e)]))
          /\ activeSession twice
             = Some (withRows
                       (ws_exercises s
                        ++ [mkExercise (toString now1) (in_name e) (in_sets e + 1)
                              (in_reps e) (in_weight e) (in_unit e)])))).
Proof.
  intros Hact Hr Hw sameAs withRows once twice.
  destruct (first_match_split (sameTuple (newExercise now1 e)) (ws_exercises s))
    as [Hnone | (l1 & x & l2 & Hex & Hx & Hl1)].
  - assert (Honce : activeSession once
                    = Some (withExercises (ws_exercises s ++ [newExercise now1 e]) s)).
    { unfold once. now rewrite (addExercise_fresh e now1 st s Hact Hnone). }
    assert (Hnew : sameTuple (newExercise now2 e) (newExercise now1 e) = true).
    { apply (sameTuple_spec now2 e _ Hr Hw). repeat split. }
    destruct (addExercise_matching e now2 once
                (withExercises (ws_exercises s ++ [newExercise now1 e]) s)
                (ws_exercises s) [] (newExercise now1 e) Honce eq_refl Hnew Hnone)
      as [Htwice Hlast].
    split; [exact Hlast|]. right.
    split; [exact (none_sameTuple now1 e _ Hr Hw Hnone)|].
    split; [exact Honce | exact Htwice].
  - destruct (addExercise_matching e now1 st s l1 l2 x Hact Hex Hx Hl1)
      as [Honce _].
    destruct (addExercise_matching e now2 once
                (withExercises (l1 ++ addOneSet x :: l2) s) l1 l2 (addOneSet x)
                Honce eq_refl Hx Hl1)
      as [Htwice Hlast].
    split; [exact Hlast|]. left. exists l1, x, l2.
    split; [exact Hex|].
    split; [exact (proj1 (sameTuple_spec now1 e x Hr Hw) Hx)|].
    split; [exact (none_sameTuple now1 e _ Hr Hw Hl1)|].
    split; [exact Honce|].
    unfold twice. rewrite Htwice. unfold addOneSet, withExercises, withRows. simpl.
    now replace (ex_sets x + 1 + 1) with (ex_sets x + 2) by lia.
Qed.

Lemma addExercise_twice_witness :
  activeSession SampleState.logging = Some SampleState.newSession
  /\ in_reps SampleState.pushUpsInput <> NaN
  /\ in_weight SampleState.pushUpsInput <> NaN
  /\ let e := SampleState.pushUpsInput in
     let s := SampleState.newSession in
     let sameAs := fun x : Exercise =>
       ex_name x = in_name e /\ ex_weight x = in_weight e
       /\ ex_unit x = in_unit e /\ ex_reps x = in_reps e in
     let withRows := fun rows : list Exercise =>
       mkWorkoutSession (ws_id s) (ws_timestamp s) (ws_name s) (ws_warmup s)
         (ws_equipment s) (ws_notes s) rows (ws_durationMinutes s) in
     let once := addExerciseToSession e 1020000 SampleState.logging in
     let twice := addExerciseToSession e 1030000 once in
     lastActivityTime twice = Some 1030000
     /\ ((exists l1 x l2,
            ws_exercises s = l1 ++ x :: l2
            /\ sameAs x
            /\ Forall (fun y => ~ sameAs y) l1
            /\ activeSession once
               = Some (withRows
                         (l1 ++ mkExercise (ex_id x) (ex_name x) (ex_sets x + 1)
                                  (ex_reps x) (ex_weight x) (ex_unit x) :: l2))
            /\ activeSession twice
               = Some (withRows
                         (l1 ++ mkExercise (ex_id x) (ex_name x) (ex_sets x + 2)
                                  (ex_reps x) (ex_weight x) (ex_unit x) :: l2)))
         \/ (Forall (fun y => ~ sameAs y) (ws_exercises s)
             /\ activeSession once
                = Some (withRows
                          (ws_exercises s
                           ++ [mkExercise (toString 1020000) (in_name e) (in_sets e)
                                 (in_reps e) (in_weight e) (in_unit e)]))
             /\ activeSession twice
                = Some (withRows
                          (ws_exercises s
                           ++ [mkExercise (toString 1020000) (in_name e) (in_sets e + 1)
                                 (in_reps e) (in_weight e) (in_unit e)])))).
Proof.
  split; [reflexivity|]. split; [discriminate|]. split; [discriminate|].
  exact (addExercise_twice SampleState.pushUpsInput 1020000 1030000
           SampleState.logging SampleState.newSession eq_refl
           ltac:(discriminate) ltac:(discriminate)).
Defined.

(** The two cases on the sample session, which holds one row of push-ups:
    push-ups twice leave that one row with two sets more, squats twice
    leave one new row with two sets. *)
Example addExercise_sample :
  option_map (fun r => map (fun x => (ex_name x, ex_sets x)) (ws_exercises r))
    (activeSession
       (addExerciseToSession SampleState.pushUpsInput 1030000
          (addExerciseToSession SampleState.pushUpsInput 1020000 SampleState.logging)))
  = Some [("Push-ups", 5)]
  /\ option_map (fun r => map (fun x => (ex_name x, ex_sets x)) (ws_exercises r))
       (activeSession
          (addExerciseToSession SampleState.squatsInput 1030000
             (addExerciseToSession SampleState.squatsInput 1020000 SampleState.logging)))
     = Some [("Push-ups", 3); ("Squats", 2)].
Proof. split; reflexivity. Qed.

(** Through the logger every row starts with one set and gains one set per
    repeated click: after two clicks on an empty session the row has two
    sets. *)
Example logger_two_clicks :
  option_map (fun s => map ex_sets (ws_exercises s))
    (activeSession
       (handleAddExerciseClick "Squats" (Finite 8) (Finite (Q2Qc (40 # 1))) kg 1030000
          (handleAddExerciseClick "Squats" (Finite 8) (Finite (Q2Qc (40 # 1))) kg 1020000
             SampleState.loggingEmpty)))
  = Some [2].
Proof. reflexivity. Qed.

(** The write in place reaches the stored session while it is under edit:
    session "100" is opened for editing, push-ups are logged once more and
    the edit is cancelled; the stored row has four sets instead of
    three. *)
Example edit_add_cancel_changes_stored :
  let editing := editSession "100" 5000000 SampleState.idle in
  let cancelled :=
    cancelActiveSession
      (addExerciseToSession SampleState.pushUpsInput 5000100 editing) in
  map (fun s => (ws_id s, map ex_sets (ws_exercises s))) (sessions (appData SampleState.idle))
  = [("200", [3]); ("100", [3])]
  /\ activeSession cancelled = None
  /\ map (fun s => (ws_id s, map ex_sets (ws_exercises s))) (sessions (appData cancelled))
     = [("200", [3]); ("100", [4])].
Proof. repeat split. Qed.

(** ** Session lifecycle: the inactivity clock while editing *)

(** Right after [editSession] no timer is armed, whatever the time. *)
Lemma editSession_disarms (sessionId : string) (now t : Z) (st : AppState)
    (s : WorkoutSession) :
  find (fun x => String.eqb (ws_id x) sessionId) (sessions (appData st)) = Some s ->
  activeSession (editSession sessionId now st) = Some s
  /\ editingSessionId (editSession sessionId now st) = Some sessionId
  /\ timeoutEffect t (editSession sessionId now st) = NoTimer.
Proof.
  intros Hfind. unfold editSession. rewrite Hfind. repeat split.
Qed.

(** Every field update stamps the activity time, in edit mode as in any
    other, and with it the timer is armed again. *)
Lemma updateActiveSession_rearms (u : SessionUpdate) (now : Z) (st : AppState)
    (s : WorkoutSession) :
  activeSession st = Some s -> now <> 0 -> 0 < sessionTimeout (settings st) ->
  editingSessionId (updateActiveSession u now st) = editingSessionId st
  /\ timeoutEffect now (updateActiveSession u now st)
     = FinishAfter (sessionTimeout (settings st) * 60 * 1000).
Proof.
  intros Hact Hnow Hto. unfold updateActiveSession. rewrite Hact.
  split; [reflexivity|].
  unfold timeoutEffect. simpl.
  assert (E1 : (now =? 0) = false) by now apply Z.eqb_neq.
  assert (E2 : (0 <? sessionTimeout (settings st)) = true) by now apply Z.ltb_lt.
  rewrite E1, E2. simpl.
  replace (sessionTimeout (settings st) * 60 * 1000 - (now - now))
    with (sessionTimeout (settings st) * 60 * 1000) by lia.
  assert (E3 : (sessionTimeout (settings st) * 60 * 1000 <=? 0) = false)
    by (apply Z.leb_gt; lia).
  now rewrite E3.
Qed.

(** The write in place touches stored rows only. *)
Lemma writeShared_frame (row : option Exercise) (st : AppState) :
  editingSessionId (writeShared row st) = editingSessionId st
  /\ settings (writeShared row st) = settings st
  /\ activeLocalProfileId (writeShared row st) = activeLocalProfileId st
  /\ isSignedIn (writeShared row st) = isSignedIn st
  /\ view (writeShared row st) = view st.
Proof.
  unfold writeShared.
  destruct row as [row|]; [|repeat split].
  destruct (editingSessionId st) as [sessionId|] eqn:E; [|now rewrite E].
  destruct (truthy (activeLocalProfileId st)); simpl; now rewrite E.
Qed.

(** So does every added exercise. *)
Lemma addExerciseToSession_rearms (e : ExerciseInput) (now : Z) (st : AppState)
    (s : WorkoutSession) :
  activeSession st = Some s -> now <> 0 -> 0 < sessionTimeout (settings st) ->
  editingSessionId (addExerciseToSession e now st) = editingSessionId st
  /\ timeoutEffect now (addExerciseToSession e now st)
     = FinishAfter (sessionTimeout (settings st) * 60 * 1000).
Proof.
  intros Hact Hnow Hto. unfold addExerciseToSession. rewrite Hact.
  set (index := Js.findIndex (sameTuple (newExercise now e)) (ws_exercises s)).
  assert (F : editingSessionId
                (if index >? -1
                 then writeShared (nth_error (ws_exercises s) (Z.to_nat index)) st
                 else st) = editingSessionId st
              /\ settings
                   (if index >? -1
                    then writeShared (nth_error (ws_exercises s) (Z.to_nat index)) st
                    else st) = settings st).
  { destruct (index >? -1); [|now split].
    split; apply writeShared_frame. }
  destruct F as [Fe Fs].
  split; [exact Fe|].
  unfold timeoutEffect. simpl. rewrite Fs.
  assert (E1 : (now =? 0) = false) by now apply Z.eqb_neq.
  assert (E2 : (0 <? sessionTimeout (settings st)) = true) by now apply Z.ltb_lt.
  rewrite E1, E2. simpl.
  replace (sessionTimeout (settings st) * 60 * 1000 - (now - now))
    with (sessionTimeout (settings st) * 60 * 1000) by lia.
  assert (E3 : (sessionTimeout (settings st) * 60 * 1000 <=? 0) = false)
    by (apply Z.leb_gt; lia).
  now rewrite E3.
Qed.

(** C9 does not hold of the code.  Session "100" is opened for editing at
    5 000 000 ms and its notes are edited 100 ms later; the edit stamps the
    activity time, the 60-minute timer is armed, and when it runs out the
    session under edit is committed without the user: the controller is
    idle and the list holds the edited session.  Adding an exercise instead
    of editing the notes arms the timer in the same way. *)
Theorem editing_session_times_out :
  let editing := editSession "100" 5000000 SampleState.idle in
  let edited := updateActiveSession SampleState.editNotes 5000100 editing in
  let added := addExerciseToSession SampleState.pushUpsInput 5000100 editing in
  activeSession editing = Some Sample.S1_remote
  /\ timeoutEffect 5000100 editing = NoTimer
  /\ editingSessionId edited = Some "100"
  /\ timeoutEffect 5000100 edited = FinishAfter 3600000
  /\ activeSession (afterInactivity 5000100 edited) = None
  /\ map (fun x => (ws_id x, ws_notes x))
       (sessions (appData (afterInactivity 5000100 edited)))
     = [("200", EmptyString); ("100", "edited")]
  /\ editingSessionId added = Some "100"
  /\ timeoutEffect 5000100 added = FinishAfter 3600000
  /\ activeSession (afterInactivity 5000100 added) = None.
Proof. repeat split. Qed.

(** ** Profile store: password reset *)

Lemma find_split {A : Type} (f : A -> bool) (l : list A) (x : A) :
  find f l = Some x ->
  exists l1 l2, l = l1 ++ x :: l2 /\ f x = true
                /\ forallb (fun y => negb (f y)) l1 = true.
Proof.
  induction l as [|y l IH]; simpl; [discriminate|].
  destruct (f y) eqn:Hy.
  - intros [= ->]. exists [], l. auto.
  - intros H. destruct (IH H) as (l1 & l2 & -> & Hx & H1).
    exists (y :: l1), l2. simpl. rewrite Hy. auto.
Qed.

Lemma find_first {A : Type} (f : A -> bool) (l1 l2 : list A) (x : A) :
  forallb (fun y => negb (f y)) l1 = true -> f x = true ->
  find f (l1 ++ x :: l2) = Some x.
Proof.
  induction l1 as [|y l1 IH]; simpl; intros H1 Hx.
  - now rewrite Hx.
  - destruct (f y); simpl in H1; [discriminate|]. now apply IH.
Qed.

Lemma truthy_nonempty (text : string) : text <> EmptyString -> truthy (Some text) = Some text.
Proof.
  intros H. unfold truthy.
  now destruct (String.eqb_spec text EmptyString).
Qed.

(** With unique ids, rewriting the profiles that carry the id of [p]
    rewrites [p] alone. *)
Lemma map_update_unique (upd : UserProfile -> UserProfile)
    (l1 l2 : list UserProfile) (p : UserProfile) :
  NoDup (map up_id (l1 ++ p :: l2)) ->
  map (fun q => if String.eqb (up_id q) (up_id p) then upd q else q) (l1 ++ p :: l2)
  = l1 ++ upd p :: l2.
Proof.
  intros Hnd.
  assert (Hkeep : forall l, ~ In (up_id p) (map up_id l) ->
            map (fun q => if String.eqb (up_id q) (up_id p) then upd q else q) l = l).
  { induction l as [|q l IH]; simpl; intros Hn; [reflexivity|].
    destruct (String.eqb_spec (up_id q) (up_id p)) as [E|_].
    - exfalso. apply Hn. now left.
    - f_equal. apply IH. intros Hin. apply Hn. now right. }
  rewrite map_app in Hnd. simpl in Hnd.
  pose proof (NoDup_remove_2 _ _ _ Hnd) as Hnotin.
  rewrite map_app. simpl. rewrite String.eqb_refl.
  rewrite !Hkeep; [reflexivity | |];
    intros Hin; apply Hnotin, in_or_app; auto.
Qed.

(** C10, as stated, fails.  The profile is the first one that the name
    finds, and the new digest is written to every profile that carries
    its id, and to none when that id is empty.  Where a second profile is
    stored under the same id, a successful reset for "alice" replaces that
    profile's password digest as well; where the profile found has the
    empty id, the reset returns true and replaces nothing.  And where two
    profiles carry the same name but for case -- registration compares the
    name as typed and stores it trimmed, so " alice" is accepted beside
    "Alice" -- a reset for "alice" with the recovery code of the second
    profile is refused. *)
Lemma reset_goes_by_first_name_and_by_id :
  (handleOfflinePasswordReset SampleState.sampleDigest SampleState.lowerString
     "ALICE" "ABCD-EFGH-JKLM" "new-pw" SampleState.loginScreenTwin
   = (true,
      setProfiles
        [withPasswordHash (SampleState.sampleDigest "new-pw") SampleState.alice;
         withPasswordHash (SampleState.sampleDigest "new-pw") SampleState.bobTwin]
        SampleState.loginScreenTwin)
   /\ up_passwordHash (withPasswordHash (SampleState.sampleDigest "new-pw") SampleState.bobTwin)
      <> up_passwordHash SampleState.bobTwin)
  /\ handleOfflinePasswordReset SampleState.sampleDigest SampleState.lowerString
       "ALICE" "ABCD-EFGH-JKLM" "new-pw" SampleState.loginScreenNoId
     = (true, SampleState.loginScreenNoId)
  /\ (profiles
        (app (handleOfflineRegister SampleState.sampleDigest SampleState.lowerString
                SampleState.trimSpaces " alice" "pw2" "QRST-2345-6789" 1700
                sampleLoginPage))
      = profiles SampleState.loginScreenNamesake
      /\ up_securityCodeHash SampleState.aliceAgain
         = Some (SampleState.sampleDigest "QRST-2345-6789")
      /\ handleOfflinePasswordReset SampleState.sampleDigest SampleState.lowerString
           "alice" "QRST-2345-6789" "new-pw" SampleState.loginScreenNamesake
         = (false, SampleState.loginScreenNamesake)).
Proof.
  split; [split; [reflexivity | discriminate]|].
  split; [reflexivity|]. repeat split.
Qed.

Section ProfileStoreFacts.
Variable hashPassword : string -> string.
Variable toLowerCase : string -> string.

Local Abbreviation reset := (handleOfflinePasswordReset hashPassword toLowerCase).
Local Abbreviation byName := (findByName toLowerCase).

(** A failed lookup or a failed verification leaves the state alone. *)
Lemma reset_rejected (username code newPassword : string) (st : AppState) :
  (byName username (profiles st) = None
   \/ exists p, byName username (profiles st) = Some p
                /\ forall h, up_securityCodeHash p = Some h -> hashPassword code <> h) ->
  reset username code newPassword st = (false, st).
Proof.
  unfold handleOfflinePasswordReset.
  intros [Hnone | (p & Hp & Hbad)].
  - now rewrite Hnone.
  - rewrite Hp. destruct (up_securityCodeHash p) as [h|] eqn:Eh; [|reflexivity].
    simpl. destruct (String.eqb h EmptyString); [reflexivity|].
    unfold verifyPassword.
    destruct (String.eqb_spec (hashPassword code) h) as [E|_]; [|reflexivity].
    exfalso. now apply (Hbad h).
Qed.

(** A verified reset, on a list with unique non-empty ids. *)
Lemma reset_accepted (username code newPassword : string) (st : AppState)
    (p : UserProfile) (h : string) (l1 l2 : list UserProfile) :
  NoDup (map up_id (profiles st)) ->
  up_id p <> EmptyString ->
  byName username (profiles st) = Some p ->
  profiles st = l1 ++ p :: l2 ->
  up_securityCodeHash p = Some h -> h <> EmptyString -> hashPassword code = h ->
  reset username code newPassword st
  = (true,
     setProfiles (l1 ++ withPasswordHash (hashPassword newPassword) p :: l2) st).
Proof.
  intros Hnd Hid Hp Hsplit Hh Hne Hcode.
  unfold handleOfflinePasswordReset. rewrite Hp, Hh, (truthy_nonempty h Hne).
  unfold verifyPassword. rewrite Hcode, String.eqb_refl.
  unfold updateLocalProfile, orElse.
  rewrite (truthy_nonempty _ Hid), (truthy_nonempty _ Hid).
  rewrite Hsplit in *. now rewrite map_update_unique.
Qed.

(** Where names are unique without regard to case, the lookup by name
    finds every profile that carries the name. *)
Lemma findByName_unique (username : string) (ps : list UserProfile) (p : UserProfile) :
  uniqueNames toLowerCase ps ->
  In p ps ->
  toLowerCase (up_name p) = toLowerCase username ->
  byName username ps = Some p.
Proof.
  unfold uniqueNames, findByName.
  induction ps as [|q ps IH]; simpl; intros Hnd Hin Hname; [contradiction|].
  inversion Hnd as [|? ? Hnotin Hnd']; subst.
  destruct (String.eqb_spec (toLowerCase (up_name q)) (toLowerCase username)) as [E|E].
  - destruct Hin as [->|Hin]; [reflexivity|].
    exfalso. apply Hnotin. rewrite E, <- Hname.
    now apply (in_map (fun r => toLowerCase (up_name r))).
  - destruct Hin as [->|Hin]; [contradiction|]. now apply IH.
Qed.

Lemma findByName_none (username : string) (ps : list UserProfile) :
  (forall p, In p ps -> toLowerCase (up_name p) <> toLowerCase username) ->
  byName username ps = None.
Proof.
  unfold findByName. induction ps as [|q ps IH]; simpl; intros Hnone; [reflexivity|].
  destruct (String.eqb_spec (toLowerCase (up_name q)) (toLowerCase username)) as [E|_].
  - exfalso. apply (Hnone q); [now left | exact E].
  - apply IH. intros p Hin. apply Hnone. now right.
Qed.

(** C10, amended.  On a profile list whose ids are non-empty and pairwise
    distinct and whose names are pairwise distinct without regard to
    case: for every profile of the list that carries the user name
    (compared in lower case), when the digest of the recovery code is the
    non-empty one stored for it, the reset returns true and rewrites that
    one profile in place, only its password digest changing -- its id,
    name, recovery-code digest, data and settings and all other profiles
    are as before -- and the same recovery code is accepted again
    afterwards; when no profile carries the name, or the digest of the
    code is not the one stored for the profile that does, it returns false
    and the state is unchanged. *)
Theorem reset_password (username code newPassword : string) (st : AppState) :
  NoDup (map up_id (profiles st)) ->
  Forall (fun p => up_id p <> EmptyString) (profiles st) ->
  uniqueNames toLowerCase (profiles st) ->
  (forall p h,
      In p (profiles st) ->
      toLowerCase (up_name p) = toLowerCase username ->
      up_securityCodeHash p = Some h -> h <> EmptyString -> hashPassword code = h ->
      exists l1 l2,
        profiles st = l1 ++ p :: l2
        /\ reset username code newPassword st
           = (true,
              setProfiles
                (l1 ++ mkUserProfile (up_id p) (up_name p) (hashPassword newPassword)
                         (up_securityCodeHash p) (up_appData p) (up_settings p)
                    :: l2)
                st)
        /\ forall laterPassword,
             fst (reset username code laterPassword
                    (snd (reset username code newPassword st))) = true)
  /\ ((forall p, In p (profiles st) ->
                 toLowerCase (up_name p) <> toLowerCase username) ->
      reset username code newPassword st = (false, st))
  /\ (forall p,
        In p (profiles st) ->
        toLowerCase (up_name p) = toLowerCase username ->
        (forall h, up_securityCodeHash p = Some h -> hashPassword code <> h) ->
        reset username code newPassword st = (false, st)).
Proof.
  intros Hnd Hids Hnames. split; [|split].
  - intros p h Hin Hname Hh Hne Hcode.
    pose proof (findByName_unique username (profiles st) p Hnames Hin Hname) as Hp.
    destruct (find_split _ _ _ Hp) as (l1 & l2 & Hsplit & Hmatch & Hbefore).
    assert (Hid : up_id p <> EmptyString).
    { rewrite Forall_forall in Hids. now apply Hids. }
    pose proof (reset_accepted username code newPassword st p h l1 l2
                  Hnd Hid Hp Hsplit Hh Hne Hcode) as Hreset.
    exists l1, l2.
    split; [exact Hsplit|]. split; [exact Hreset|].
    intros laterPassword. rewrite Hreset. simpl.
    erewrite reset_accepted with (p := withPasswordHash (hashPassword newPassword) p)
                                 (h := h) (l1 := l1) (l2 := l2);
      try reflexivity; try assumption.
    + simpl. rewrite Hsplit in Hnd. rewrite map_app in *. simpl in *. exact Hnd.
    + simpl. unfold findByName. now apply find_first.
  - intros Hnone. apply reset_rejected. left. now apply findByName_none.
  - intros p Hin Hname Hbad. apply reset_rejected. right. exists p.
    split; [now apply findByName_unique | exact Hbad].
Qed.
End ProfileStoreFacts.

Lemma reset_password_witness :
  NoDup (map up_id (profiles SampleState.loginScreen))
  /\ Forall (fun p => up_id p <> EmptyString) (profiles SampleState.loginScreen)
  /\ uniqueNames SampleState.lowerString (profiles SampleState.loginScreen)
  /\ In SampleState.bob (profiles SampleState.loginScreen)
  /\ (exists l1 l2,
        profiles SampleState.loginScreen = l1 ++ SampleState.bob :: l2
        /\ handleOfflinePasswordReset SampleState.sampleDigest SampleState.lowerString
             "BOB" "WXYZ-2345-6789" "new-pw" SampleState.loginScreen
           = (true,
              setProfiles
                (l1 ++ mkUserProfile "p2" "Bob" (SampleState.sampleDigest "new-pw")
                         (Some (SampleState.sampleDigest "WXYZ-2345-6789"))
                         emptyAppData DEFAULT_SETTINGS
                    :: l2)
                SampleState.loginScreen))
  /\ handleOfflinePasswordReset SampleState.sampleDigest SampleState.lowerString
       "carol" "ABCD-EFGH-JKLM" "new-pw" SampleState.loginScreen
     = (false, SampleState.loginScreen)
  /\ handleOfflinePasswordReset SampleState.sampleDigest SampleState.lowerString
       "alice" "WXYZ-2345-6789" "new-pw" SampleState.loginScreen
     = (false, SampleState.loginScreen).
Proof.
  assert (Hnd : NoDup (map up_id (profiles SampleState.loginScreen)))
    by (simpl; repeat constructor; simpl; intuition discriminate).
  assert (Hids : Forall (fun p => up_id p <> EmptyString) (profiles SampleState.loginScreen))
    by (simpl; repeat constructor; discriminate).
  assert (Hnames : uniqueNames SampleState.lowerString (profiles SampleState.loginScreen))
    by (unfold uniqueNames; simpl; repeat constructor; simpl; intuition discriminate).
  assert (Hbob : In SampleState.bob (profiles SampleState.loginScreen))
    by (simpl; auto).
  assert (Halice : In SampleState.alice (profiles SampleState.loginScreen))
    by (simpl; auto).
  split; [exact Hnd|]. split; [exact Hids|]. split; [exact Hnames|].
  split; [exact Hbob|]. split; [|split].
  - destruct (proj1 (reset_password SampleState.sampleDigest SampleState.lowerString
                       "BOB" "WXYZ-2345-6789" "new-pw" SampleState.loginScreen
                       Hnd Hids Hnames)
                SampleState.bob (SampleState.sampleDigest "WXYZ-2345-6789")
                Hbob eq_refl eq_refl ltac:(discriminate) eq_refl)
      as (l1 & l2 & Hsplit & Hreset & _).
    exists l1, l2. split; [exact Hsplit | exact Hreset].
  - apply (proj1 (proj2 (reset_password SampleState.sampleDigest SampleState.lowerString
                           "carol" "ABCD-EFGH-JKLM" "new-pw" SampleState.loginScreen
                           Hnd Hids Hnames))).
    intros p [<-|[<-|[]]]; discriminate.
  - apply (proj2 (proj2 (reset_password SampleState.sampleDigest SampleState.lowerString
                           "alice" "WXYZ-2345-6789" "new-pw" SampleState.loginScreen
                           Hnd Hids Hnames))
             SampleState.alice Halice eq_refl).
    intros h [= <-]. discriminate.
Defined.

(** The reset on the sample login screen: the password digest of "Alice"
    is replaced, "Bob" is untouched, and the code works a second time. *)
Example sample_reset :
  let first := handleOfflinePasswordReset SampleState.sampleDigest SampleState.lowerString
                 "ALICE" "ABCD-EFGH-JKLM" "new-pw" SampleState.loginScreen in
  first = (true,
           setProfiles
             [withPasswordHash (SampleState.sampleDigest "new-pw") SampleState.alice;
              SampleState.bob]
             SampleState.loginScreen)
  /\ fst (handleOfflinePasswordReset SampleState.sampleDigest SampleState.lowerString
            "alice" "ABCD-EFGH-JKLM" "newer-pw" (snd first)) = true.
Proof. split; reflexivity. Qed.

(** * Further properties *)

(** ** The order of merged lists *)

Section SortFacts.
Context {A : Type}.
Variable item_time : A -> Z.

Lemma sort_insert_newestFirst (x : A) (l : list A) :
  newestFirst item_time l = true ->
  newestFirst item_time (Js.sort_insert (byTimestampDesc item_time) x l) = true.
Proof.
  induction l as [|y l IH]; intros Hl; [reflexivity|].
  simpl Js.sort_insert. unfold byTimestampDesc at 1.
  destruct (item_time x - item_time y <? 0) eqn:E.
  - apply Z.ltb_lt in E.
    assert (Htail : newestFirst item_time l = true).
    { destruct l as [|z l]; [reflexivity|]. simpl in Hl.
      apply andb_prop in Hl. tauto. }
    specialize (IH Htail).
    destruct l as [|z l].
    + simpl. rewrite andb_true_r. apply Z.leb_le. lia.
    + simpl in Hl. apply andb_prop in Hl. destruct Hl as [Hzy _].
      simpl Js.sort_insert in *. unfold byTimestampDesc in IH at 1.
      unfold byTimestampDesc at 1.
      destruct (item_time x - item_time z <? 0) eqn:E2.
      * change (((item_time z <=? item_time y)
                 && newestFirst item_time
                      (z :: Js.sort_insert (byTimestampDesc item_time) x l)) = true).
        now rewrite Hzy.
      * change (((item_time x <=? item_time y)
                 && newestFirst item_time (x :: z :: l)) = true).
        rewrite IH, andb_true_r. apply Z.leb_le. lia.
  - apply Z.ltb_ge in E.
    change (((item_time y <=? item_time x) && newestFirst item_time (y :: l)) = true).
    rewrite Hl, andb_true_r. apply Z.leb_le. lia.
Qed.

(** The sort leaves its list newest first. *)
Lemma sort_newestFirst (l : list A) :
  newestFirst item_time (Js.sort (byTimestampDesc item_time) l) = true.
Proof.
  induction l as [|x l IH]; [reflexivity|].
  simpl. now apply sort_insert_newestFirst.
Qed.

(** The sort does not move anything in a list that is newest first. *)
Lemma sort_of_newestFirst (l : list A) :
  newestFirst item_time l = true -> Js.sort (byTimestampDesc item_time) l = l.
Proof.
  induction l as [|x l IH]; intros Hl; [reflexivity|].
  assert (Htail : newestFirst item_time l = true).
  { destruct l as [|z l]; [reflexivity|]. simpl in Hl.
    apply andb_prop in Hl. tauto. }
  simpl. rewrite (IH Htail).
  destruct l as [|y l]; [reflexivity|].
  simpl in Hl. apply andb_prop in Hl. destruct Hl as [Hyx _].
  apply Z.leb_le in Hyx. simpl. unfold byTimestampDesc at 1.
  assert (E : (item_time x - item_time y <? 0) = false) by (apply Z.ltb_ge; lia).
  now rewrite E.
Qed.
End SortFacts.

Section MergeFixedPoint.
Context {A : Type}.
Variable item_id : A -> string.
Variable item_time : A -> Z.

Local Abbreviation entries := (List.map (fun item : A => (item_id item, item))).
Local Abbreviation step := (fun (m : list (string * A)) (e : string * A) =>
                              Js.map_set (fst e) (snd e) m).

(** Setting a key the map does not hold appends the binding. *)
Lemma map_set_fresh (k : string) (v : A) (m : list (string * A)) :
  ~ In k (map fst m) -> Js.map_set k v m = m ++ [(k, v)].
Proof.
  induction m as [|[k0 v0] m IH]; simpl; intros Hn; [reflexivity|].
  destruct (String.eqb_spec k0 k) as [E|_].
  - exfalso. apply Hn. now left.
  - f_equal. apply IH. intros Hin. apply Hn. now right.
Qed.

(** Setting a binding the map holds already changes nothing. *)
Lemma map_set_same (k : string) (v : A) (m : list (string * A)) :
  NoDup (map fst m) -> In (k, v) m -> Js.map_set k v m = m.
Proof.
  induction m as [|[k0 v0] m IH]; simpl; intros Hnd Hin; [contradiction|].
  inversion Hnd as [|? ? Hnotin Hnd']; subst.
  destruct Hin as [[= -> ->]|Hin].
  - now rewrite String.eqb_refl.
  - destruct (String.eqb_spec k0 k) as [->|_].
    + exfalso. apply Hnotin. now apply (in_map fst) in Hin.
    + f_equal. now apply IH.
Qed.

Lemma fold_map_set_fresh (l : list A) (m : list (string * A)) :
  NoDup (map item_id l) ->
  (forall r, In r l -> ~ In (item_id r) (map fst m)) ->
  fold_left step (entries l) m = m ++ entries l.
Proof.
  revert m. induction l as [|r l IH]; intros m Hnd Hfresh; simpl.
  - now rewrite app_nil_r.
  - inversion Hnd as [|? ? Hnotin Hnd']; subst.
    rewrite map_set_fresh by (apply Hfresh; now left).
    rewrite IH; [now rewrite <- app_assoc | exact Hnd' |].
    intros r' Hr' Hin. rewrite map_app, in_app_iff in Hin. simpl in Hin.
    destruct Hin as [Hin|[E|[]]].
    + apply (Hfresh r'); [now right | exact Hin].
    + apply Hnotin. rewrite E. now apply in_map.
Qed.

Lemma fold_map_set_same (l : list A) (m : list (string * A)) :
  NoDup (map fst m) ->
  (forall r, In r l -> In (item_id r, r) m) ->
  fold_left step (entries l) m = m.
Proof.
  induction l as [|r l IH]; intros Hnd Hin; simpl; [reflexivity|].
  rewrite map_set_same; [|exact Hnd | apply Hin; now left].
  apply IH; [exact Hnd|]. intros r' Hr'. apply Hin. now right.
Qed.

(** Merging into a list with unique ids, ordered newest first, a list
    that holds none but records of it gives the list back. *)
Lemma mergeByKey_nothing_new (a b : list A) :
  NoDup (map item_id a) -> newestFirst item_time a = true -> incl b a ->
  mergeByKey item_id item_time a b = a.
Proof.
  intros Hnd Hsorted Hincl. unfold mergeByKey, Js.new_Map.
  rewrite map_app, fold_left_app.
  rewrite (fold_map_set_fresh a []) by (auto; intros r _ []).
  simpl. rewrite fold_map_set_same.
  - unfold Js.map_values. rewrite map_map. simpl. rewrite map_id.
    now apply sort_of_newestFirst.
  - rewrite map_map. simpl. exact Hnd.
  - intros r Hr. apply in_map_iff. exists r. split; [reflexivity|]. now apply Hincl.
Qed.

Lemma mergeByKey_newestFirst (a b : list A) :
  newestFirst item_time (mergeByKey item_id item_time a b) = true.
Proof. unfold mergeByKey. apply sort_newestFirst. Qed.
End MergeFixedPoint.

(** X1. Every list of a merged Dataset is ordered newest first, whatever
    the order of the two sides. *)
Theorem mergeData_newestFirst (a b : AppData) :
  newestFirst ws_timestamp (sessions (mergeData a b)) = true
  /\ newestFirst hs_timestamp (healthStats (mergeData a b)) = true.
Proof. split; apply mergeByKey_newestFirst. Qed.

Lemma mergeData_absorbs (a b : AppData) :
  uniqueIds a -> newestFirstData a -> holdsAllOf a b ->
  mergeData a b = a.
Proof.
  intros (Hs & Hh & Hr) (Ss & Sh) (Is & Ih & Ir).
  destruct a as [sa ha ra]. unfold mergeData. simpl in *.
  f_equal.
  - now apply mergeByKey_nothing_new.
  - now apply mergeByKey_nothing_new.
  - apply mergeByKey_nothing_new; auto.
    clear. induction ra as [|x [|y l] IH]; try reflexivity.
    change ((0 <=? 0) && newestFirst routine_time (y :: l) = true).
    now rewrite IH.
Qed.

(** X2. Merging into a Dataset with unique ids and newest-first lists a
    Dataset that holds none but records of it gives the Dataset back
    unchanged, list for list: an empty backup, or a backup that is a part
    of the local data, changes nothing. *)
Theorem mergeData_nothing_new (a b : AppData) :
  uniqueIds a -> newestFirstData a -> holdsAllOf a b ->
  mergeData a b = a.
Proof. apply mergeData_absorbs. Qed.

Lemma mergeData_nothing_new_witness :
  uniqueIds Sample.syncedData /\ newestFirstData Sample.syncedData
  /\ holdsAllOf Sample.syncedData emptyAppData
  /\ mergeData Sample.syncedData emptyAppData = Sample.syncedData.
Proof.
  assert (Hu : uniqueIds Sample.syncedData)
    by (repeat split; simpl; repeat constructor; simpl; intuition discriminate).
  assert (Hs : newestFirstData Sample.syncedData) by (split; reflexivity).
  assert (Hi : holdsAllOf Sample.syncedData emptyAppData)
    by (repeat split; intros x []).
  split; [exact Hu|]. split; [exact Hs|]. split; [exact Hi|].
  exact (mergeData_nothing_new Sample.syncedData emptyAppData Hu Hs Hi).
Defined.

(** X3. A Dataset that came out of a merge is a fixed point of the merge:
    syncing it against itself, as a second sync right after the first
    does, gives exactly the same Dataset. *)
Theorem mergeData_converges (a b : AppData) :
  mergeData (mergeData a b) (mergeData a b) = mergeData a b.
Proof.
  apply mergeData_absorbs.
  - unfold uniqueIds, mergeData; simpl. repeat split; apply mergeByKey_NoDup.
  - split; apply mergeByKey_newestFirst.
  - repeat split; apply incl_refl.
Qed.

(** ** Sync (Settings.tsx) *)

Lemma handleSync_backup (isInitialSync confirmMerge saveOk : bool)
    (remoteData : AppData) (st : AppState) :
  isSignedIn st = true ->
  handleSync isInitialSync (Backup remoteData) confirmMerge saveOk st
  = mkSyncOutcome (setAppData (mergeData (appData st) remoteData) st)
      (Some (mergeData (appData st) remoteData))
      (if saveOk then Some sync_success else Some sync_error).
Proof.
  intros Hs. unfold handleSync. rewrite Hs.
  destruct (isInitialSync
            && (nonEmpty (sessions (appData st)) || nonEmpty (healthStats (appData st)))
            && negb confirmMerge);
    reflexivity.
Qed.

(** X4. When a backup is read for a signed-in user, the sync always ends
    with the merge of the local data and the backup, in memory and in the
    Dataset handed to Drive -- also on an initial sync where the user
    answers the merge question with no: the overwrite with the backup
    that follows the answer is itself overwritten by the merge. *)
Theorem handleSync_always_merges (isInitialSync confirmMerge saveOk : bool)
    (remoteData : AppData) (st : AppState) :
  isSignedIn st = true ->
  let outcome := handleSync isInitialSync (Backup remoteData) confirmMerge saveOk st in
  appData (sync_state outcome) = mergeData (appData st) remoteData
  /\ sync_saved outcome = Some (mergeData (appData st) remoteData)
  /\ profiles (sync_state outcome) = profiles st
  /\ activeSession (sync_state outcome) = activeSession st.
Proof.
  intros Hs. simpl. rewrite (handleSync_backup _ _ _ _ _ Hs). repeat split.
Qed.

Lemma handleSync_always_merges_witness :
  isSignedIn SampleState.idle = true
  /\ appData (sync_state (handleSync true (Backup Sample.remoteData) false true
                            SampleState.idle))
     = mergeData (appData SampleState.idle) Sample.remoteData.
Proof.
  split; [reflexivity|].
  apply (handleSync_always_merges true false true Sample.remoteData
           SampleState.idle eq_refl).
Defined.

(** X5. Without a backup the sync leaves the state alone: a failed read
    saves nothing and ends in error, an empty Drive gets the local data as
    it is, and a user who is not signed in gets nothing done at all. *)
Theorem handleSync_without_backup (isInitialSync confirmMerge saveOk : bool)
    (st : AppState) :
  handleSync isInitialSync ReadFails confirmMerge saveOk st
  = mkSyncOutcome st None (if isSignedIn st then Some sync_error else None)
  /\ handleSync isInitialSync NoBackup confirmMerge saveOk st
     = (if isSignedIn st
        then mkSyncOutcome st (Some (appData st))
               (if saveOk then Some sync_success else Some sync_error)
        else mkSyncOutcome st None None)
  /\ (isSignedIn st = false ->
      forall read, handleSync isInitialSync read confirmMerge saveOk st
                   = mkSyncOutcome st None None).
Proof.
  unfold handleSync. destruct (isSignedIn st); simpl; repeat split.
  - discriminate.
Qed.

Lemma handleSync_without_backup_witness :
  isSignedIn SampleState.loginScreen = false
  /\ handleSync true (Backup Sample.remoteData) true true SampleState.loginScreen
     = mkSyncOutcome SampleState.loginScreen None None.
Proof.
  split; [reflexivity|].
  apply (proj2 (proj2 (handleSync_without_backup true true true SampleState.loginScreen))
           eq_refl).
Defined.

(** X6. Signing in from the settings page never syncs: the sync it asks
    for runs on the state in which the button was shown, where nobody is
    signed in, and is refused.  All that changes is the sign-in flag. *)
Theorem settingsSignIn_does_not_sync (success : bool) (read : DriveRead)
    (confirmMerge saveOk : bool) (st : AppState) :
  isSignedIn st = false ->
  settingsSignIn success read confirmMerge saveOk st
  = mkSyncOutcome (setIsSignedIn success st) None None.
Proof.
  intros Hs. unfold settingsSignIn, handleSync. rewrite Hs.
  destruct success; reflexivity.
Qed.

Lemma settingsSignIn_does_not_sync_witness :
  isSignedIn SampleState.loginScreen = false
  /\ settingsSignIn true (Backup Sample.remoteData) true true SampleState.loginScreen
     = mkSyncOutcome (setIsSignedIn true SampleState.loginScreen) None None.
Proof.
  split; [reflexivity|].
  apply (settingsSignIn_does_not_sync true (Backup Sample.remoteData) true true
           SampleState.loginScreen eq_refl).
Defined.



(** ** Export and import (Settings.tsx) *)

Lemma DataKey_eqb_eq (a b : DataKey) : DataKey_eqb a b = true <-> a = b.
Proof. destruct a, b; simpl; split; intros H; try reflexivity; discriminate. Qed.

Lemma includesKey_In (keys : list DataKey) (key : DataKey) :
  includesKey keys key = true <-> In key keys.
Proof.
  unfold includesKey. rewrite existsb_exists. split.
  - intros (k & Hk & E). apply DataKey_eqb_eq in E. now subst.
  - intros H. exists key. split; [exact H | now apply DataKey_eqb_eq].
Qed.

Lemma includesKey_app (l1 l2 : list DataKey) (key : DataKey) :
  includesKey (l1 ++ l2) key = includesKey l1 key || includesKey l2 key.
Proof. unfold includesKey. apply existsb_app. Qed.

Lemma includesKey_filter_other (key k : DataKey) (l : list DataKey) :
  includesKey (filter (fun x => negb (DataKey_eqb x key)) l) k
  = includesKey l k && negb (DataKey_eqb k key).
Proof.
  induction l as [|x l IH]; simpl; [reflexivity|].
  destruct (DataKey_eqb x key) eqn:Ex; simpl; rewrite IH.
  - apply DataKey_eqb_eq in Ex. subst x.
    destruct (DataKey_eqb k key) eqn:Ek; simpl.
    + now rewrite !andb_false_r.
    + now rewrite andb_true_r.
  - destruct (DataKey_eqb k x) eqn:Ekx; simpl; [|reflexivity].
    apply DataKey_eqb_eq in Ekx. subst x. now rewrite Ex.
Qed.

(** X8. A click on a key flips its selection and no other; two clicks on
    the same key leave every key selected exactly as before. *)
Theorem handleKeyToggle_flips (key : DataKey) (prev : list DataKey) :
  includesKey (handleKeyToggle key prev) key = negb (includesKey prev key)
  /\ (forall k, k <> key ->
        includesKey (handleKeyToggle key prev) k = includesKey prev k)
  /\ (forall k, includesKey (handleKeyToggle key (handleKeyToggle key prev)) k
                = includesKey prev k).
Proof.
  assert (Hself : forall l, includesKey (handleKeyToggle key l) key
                            = negb (includesKey l key)).
  { intros l. unfold handleKeyToggle.
    destruct (includesKey l key) eqn:E.
    - rewrite includesKey_filter_other, E.
      assert (R : DataKey_eqb key key = true) by now apply DataKey_eqb_eq.
      now rewrite R.
    - rewrite includesKey_app, E. simpl.
      assert (R : DataKey_eqb key key = true) by now apply DataKey_eqb_eq.
      now rewrite R. }
  assert (Hother : forall l k, k <> key ->
                     includesKey (handleKeyToggle key l) k = includesKey l k).
  { intros l k Hk. unfold handleKeyToggle.
    assert (R : DataKey_eqb k key = false).
    { destruct (DataKey_eqb k key) eqn:E; [|reflexivity].
      apply DataKey_eqb_eq in E. contradiction. }
    destruct (includesKey l key).
    - now rewrite includesKey_filter_other, R, andb_true_r.
    - rewrite includesKey_app. simpl. now rewrite R, orb_false_r. }
  split; [apply Hself|]. split; [apply Hother|].
  intros k. destruct (DataKey_eqb k key) eqn:E.
  - apply DataKey_eqb_eq in E. subst k. rewrite !Hself. apply negb_involutive.
  - assert (k <> key) by (intros ->; now rewrite (proj2 (DataKey_eqb_eq key key)) in E).
    now rewrite !Hother.
Qed.

Lemma handleKeyToggle_flips_witness :
  k_routines <> k_settings
  /\ includesKey (handleKeyToggle k_settings DATA_KEYS) k_routines
     = includesKey DATA_KEYS k_routines.
Proof.
  split; [discriminate|].
  apply (proj1 (proj2 (handleKeyToggle_flips k_settings DATA_KEYS))). discriminate.
Defined.

Lemma exportedList_all {A : Type} (key : DataKey) (l : list A) :
  In key DATA_KEYS ->
  orDefault (exportedList DATA_KEYS key l) [] = l.
Proof.
  intros Hin. unfold exportedList.
  rewrite (proj2 (includesKey_In DATA_KEYS key) Hin). now destruct l.
Qed.

(** [updateLocalProfile] writes to the profile list only. *)
Lemma updateLocalProfile_only_profiles (updater : UserProfile -> UserProfile)
    (target : option string) (st : AppState) :
  updateLocalProfile updater target st
  = setProfiles (profiles (updateLocalProfile updater target st)) st.
Proof.
  unfold updateLocalProfile.
  destruct (truthy (orElse target (activeLocalProfileId st)));
    [reflexivity | now destruct st].
Qed.

Lemma handlePersistSettings_fields (s : DefaultSettings) (st : AppState) :
  appData (handlePersistSettings s st) = appData st
  /\ settings (handlePersistSettings s st) = s
  /\ activeLocalProfileId (handlePersistSettings s st) = activeLocalProfileId st
  /\ isSignedIn (handlePersistSettings s st) = isSignedIn st.
Proof.
  unfold handlePersistSettings.
  destruct (truthy (activeLocalProfileId st)); [|repeat split].
  rewrite updateLocalProfile_only_profiles. repeat split.
Qed.


(** What JSON does to a number: NaN comes back as [null], everything
    else as it was. *)
Example jsonNumber_cases :
  jsonNumber (@NaN Z) = Null
  /\ jsonNumber (@Null Z) = Null
  /\ jsonNumber (Finite 8) = Finite 8
  /\ jsonExercise (mkExercise "1" "Squats" 1 NaN (Finite (Q2Qc (40 # 1))) kg)
     = mkExercise "1" "Squats" 1 Null (Finite (Q2Qc (40 # 1))) kg.
Proof. repeat split. Qed.





Lemma activeProfile_handlePersistSettings (s : DefaultSettings) (st : AppState) :
  activeProfile (handlePersistSettings s st)
  = option_map (withSettings s) (activeProfile st).
Proof.
  unfold handlePersistSettings, activeProfile.
  destruct (truthy (activeLocalProfileId st)) as [pid|] eqn:E; simpl.
  - unfold updateLocalProfile, orElse. simpl. rewrite E. simpl. rewrite E.
    now apply find_profile_map.
  - now rewrite E.
Qed.

(** X10. In offline-profile mode an import does not reach the stored
    profile: whatever is imported, the Dataset of the active profile is
    as before, and the data-loading effect, when it runs next, puts that
    stored Dataset back into memory in place of the imported one. *)
Theorem import_not_persisted_offline (keys : list DataKey)
    (file : option BackupFile) (confirmed : bool) (st : AppState) (p : UserProfile) :
  isSignedIn st = false ->
  activeProfile st = Some p ->
  option_map up_appData (activeProfile (importBackup keys file confirmed st))
  = Some (up_appData p)
  /\ appData (loadDataEffect (importBackup keys file confirmed st)) = up_appData p.
Proof.
  intros Hs Hp.
  assert (G : exists q, activeProfile (importBackup keys file confirmed st) = Some q
                        /\ up_appData q = up_appData p
                        /\ isSignedIn (importBackup keys file confirmed st) = false).
  { unfold importBackup.
    destruct (handleImport keys file confirmed) as [[data [s|]]|].
    - unfold handleDataImport. rewrite activeProfile_handlePersistSettings.
      exists (withSettings s p). split; [|split; [reflexivity|]].
      + change (activeProfile (onUpdateProfileData data st)) with (activeProfile st).
        now rewrite Hp.
      + destruct (handlePersistSettings_fields s (onUpdateProfileData data st))
          as (_ & _ & _ & E). now rewrite E.
    - exists p. auto.
    - exists p. auto. }
  destruct G as (q & Hq & Hdata & Hsigned).
  split.
  - now rewrite Hq, <- Hdata.
  - unfold loadDataEffect. now rewrite Hsigned, Hq.
Qed.

Lemma import_not_persisted_offline_witness :
  isSignedIn SampleState.loggingOffline = false
  /\ activeProfile SampleState.loggingOffline = Some SampleState.alice
  /\ appData (loadDataEffect
                (importBackup DATA_KEYS
                   (Some (mkBackupFile (Some [Sample.S3]) None None None)) true
                   SampleState.loggingOffline))
     = up_appData SampleState.alice.
Proof.
  split; [reflexivity|]. split; [reflexivity|].
  apply (import_not_persisted_offline DATA_KEYS
           (Some (mkBackupFile (Some [Sample.S3]) None None None)) true
           SampleState.loggingOffline SampleState.alice eq_refl eq_refl).
Defined.

(** ** Session lifecycle, continued *)

Lemma finishSession_idle (now : Z) (st : AppState) :
  activeSession (finishSession now st) = None.
Proof.
  unfold finishSession.
  destruct (activeSession st) as [s|] eqn:E; [|exact E].
  now destruct (ws_exercises s).
Qed.

(** X11. After a commit the controller is idle, whatever the state
    before, and a further commit -- a timer that fires after the user has
    finished by hand, say -- changes nothing: no session is saved twice. *)
Theorem finishSession_once (now1 now2 : Z) (st : AppState) :
  activeSession (finishSession now1 st) = None
  /\ finishSession now2 (finishSession now1 st) = finishSession now1 st.
Proof.
  split; [apply finishSession_idle|].
  unfold finishSession at 1. now rewrite finishSession_idle.
Qed.

Lemma currentDataset_session_fields (v : View) (s : option WorkoutSession)
    (t : option Z) (st : AppState) :
  currentDataset (setView v (setLastActivityTime t (setActiveSession s st)))
  = currentDataset st.
Proof. reflexivity. Qed.

(** X12. Starting a session while another one is active commits the old
    one first: with at least one exercise it is saved to the current
    Dataset, with none it is dropped and the Dataset is left as it is; in
    both cases the new session is the active one and the inactivity clock
    starts at the time of the call. *)
Theorem startSession_commits_previous (new old : WorkoutSession) (now : Z)
    (st : AppState) (d : AppData) :
  activeSession st = Some old ->
  currentDataset st = Some d ->
  activeSession (startSession new now st) = Some new
  /\ lastActivityTime (startSession new now st) = Some now
  /\ (ws_exercises old <> [] ->
      currentDataset (startSession new now st)
      = Some (updateState (finalSession now old) (finalSessionWithId now old) d)
      /\ In (finalSessionWithId now old)
           (sessions (updateState (finalSession now old) (finalSessionWithId now old) d)))
  /\ (ws_exercises old = [] -> currentDataset (startSession new now st) = Some d).
Proof.
  intros Hact Hd. unfold startSession. rewrite Hact.
  split; [reflexivity|]. split; [reflexivity|].
  rewrite currentDataset_session_fields. split.
  - intros Hex.
    destruct (finishSession_commits now st old d Hact Hex Hd) as (Hd' & _).
    split; [exact Hd'|].
    eapply Permutation_in; [symmetry; apply updateState_perm|].
    apply in_or_app. right. now left.
  - intros Hex. unfold finishSession. rewrite Hact, Hex. exact Hd.
Qed.

Lemma startSession_commits_previous_witness :
  activeSession SampleState.logging = Some SampleState.newSession
  /\ currentDataset SampleState.logging = Some (appData SampleState.logging)
  /\ ws_exercises SampleState.newSession <> []
  /\ In (finalSessionWithId 1060000 SampleState.newSession)
       (sessions (updateState (finalSession 1060000 SampleState.newSession)
                    (finalSessionWithId 1060000 SampleState.newSession)
                    (appData SampleState.logging))).
Proof.
  split; [reflexivity|]. split; [reflexivity|].
  assert (Hex : ws_exercises SampleState.newSession <> []) by discriminate.
  split; [exact Hex|].
  destruct (startSession_commits_previous SampleState.emptySession SampleState.newSession
              1060000 SampleState.logging (appData SampleState.logging) eq_refl eq_refl)
    as (_ & _ & Hsaved & _).
  exact (proj2 (Hsaved Hex)).
Defined.

(** X13. Logging an exercise while idle starts a session, and committing
    it saves a session with exactly that exercise: the saved session has
    the numeral of the commit time as id, the time of the first call as
    start, the rounded minutes in between as duration, and one row with
    the submitted values.  The other sessions stay, but for entries under
    the sentinel id. *)
Theorem log_then_commit (e : ExerciseInput) (now1 now2 : Z) (st : AppState)
    (d : AppData) :
  activeSession st = None ->
  currentDataset st = Some d ->
  let saved :=
    mkWorkoutSession (toString now2) now1 None false "Bodyweight" EmptyString
      [mkExercise (toString now1) (in_name e) (in_sets e) (in_reps e)
         (in_weight e) (in_unit e)]
      (Some (roundDiv (now2 - now1) 60000)) in
  exists d',
    currentDataset (finishSession now2 (addExerciseToSession e now1 st)) = Some d'
    /\ Permutation (sessions d')
         (filter (fun s => negb (String.eqb (ws_id s) activeId)) (sessions d) ++ [saved])
    /\ activeSession (finishSession now2 (addExerciseToSession e now1 st)) = None.
Proof.
  intros Hact Hd saved.
  change [mkExercise (toString now1) (in_name e) (in_sets e) (in_reps e)
            (in_weight e) (in_unit e)]
    with [newExercise now1 e] in saved.
  assert (Hadd : addExerciseToSession e now1 st
                 = setLastActivityTime (Some now1)
                     (setView v_logger
                        (setLastActivityTime (Some now1)
                           (setActiveSession
                              (Some (mkWorkoutSession activeId now1 None false "Bodyweight"
                                       EmptyString [newExercise now1 e] None)) st)))).
  { unfold addExerciseToSession, startSession. now rewrite Hact. }
  rewrite Hadd.
  destruct (finishSession_commits now2
              (setLastActivityTime (Some now1)
                 (setView v_logger
                    (setLastActivityTime (Some now1)
                       (setActiveSession
                          (Some (mkWorkoutSession activeId now1 None false "Bodyweight"
                                   EmptyString [newExercise now1 e] None)) st))))
              (mkWorkoutSession activeId now1 None false "Bodyweight"
                 EmptyString [newExercise now1 e] None) d eq_refl
              ltac:(discriminate) Hd)
    as (Hd' & Hidle & _).
  eexists. split; [exact Hd'|]. split; [|exact Hidle].
  apply updateState_perm.
Qed.

Lemma log_then_commit_witness :
  activeSession SampleState.idle = None
  /\ currentDataset SampleState.idle = Some (appData SampleState.idle)
  /\ exists d',
       currentDataset (finishSession 1060000
                         (addExerciseToSession SampleState.squatsInput 1000000
                            SampleState.idle)) = Some d'
       /\ Permutation (sessions d')
            (filter (fun s => negb (String.eqb (ws_id s) activeId))
               (sessions (appData SampleState.idle))
             ++ [mkWorkoutSession "1060000" 1000000 None false "Bodyweight"
                   EmptyString
                   [mkExercise "1000000" "Squats" 1 (Finite 8)
                      (Finite (Q2Qc (40 # 1))) kg]
                   (Some 1)]).
Proof.
  split; [reflexivity|]. split; [reflexivity|].
  destruct (log_then_commit SampleState.squatsInput 1000000 1060000 SampleState.idle
              (appData SampleState.idle) eq_refl eq_refl)
    as (d' & Hd' & Hperm & _).
  exists d'. split; [exact Hd' | exact Hperm].
Defined.

(** X14. With a session active, an activity time recorded and a positive
    timeout, the inactivity effect ends in a commit, at the latest
    2 147 483 647 ms after the effect has run.  While the remaining time
    fits the 32-bit delay of [setTimeout], the commit happens at the later
    of the time the effect runs and the recorded activity time plus the
    timeout: however often the effect is re-run meanwhile, the timer fires
    at the same instant.  A remaining time from 2^31 to 2^32 ms (a timeout
    of 35 792 minutes or more, which the settings accept) wraps to a
    negative delay, and the session is committed at once. *)
Theorem inactivity_commits (now last : Z) (st : AppState) (s : WorkoutSession) :
  activeSession st = Some s ->
  lastActivityTime st = Some last ->
  last <> 0 ->
  0 < sessionTimeout (settings st) ->
  let timeoutMs := sessionTimeout (settings st) * 60 * 1000 in
  let remainingTime := timeoutMs - (now - last) in
  activeSession (afterInactivity now st) = None
  /\ (exists fired,
        now <= fired <= now + 2147483647
        /\ afterInactivity now st = finishSession fired st)
  /\ (remainingTime <= 2147483647 ->
      afterInactivity now st = finishSession (Z.max now (last + timeoutMs)) st)
  /\ (2147483647 < remainingTime <= 4294967296 ->
      afterInactivity now st = finishSession now st).
Proof.
  intros Hact Hlast Hnz Hto timeoutMs remainingTime.
  assert (E : afterInactivity now st
              = if remainingTime <=? 0 then finishSession now st
                else finishSession (now + timerDelay remainingTime) st).
  { unfold afterInactivity, timeoutEffect. rewrite Hact, Hlast.
    assert (E1 : (last =? 0) = false) by now apply Z.eqb_neq.
    assert (E2 : (0 <? sessionTimeout (settings st)) = true) by now apply Z.ltb_lt.
    rewrite E1, E2. simpl. fold timeoutMs. fold remainingTime.
    now destruct (remainingTime <=? 0). }
  assert (Hbound : 0 <= timerDelay remainingTime <= 2147483647).
  { unfold timerDelay, toInt32.
    pose proof (Z.mod_pos_bound (remainingTime + 2147483648) 4294967296 eq_refl).
    lia. }
  split; [|split; [|split]].
  - rewrite E. destruct (remainingTime <=? 0); apply finishSession_idle.
  - rewrite E. destruct (remainingTime <=? 0).
    + exists now. split; [lia | reflexivity].
    + exists (now + timerDelay remainingTime). split; [lia | reflexivity].
  - intros Hfits. rewrite E.
    destruct (remainingTime <=? 0) eqn:E3.
    + apply Z.leb_le in E3. f_equal. unfold remainingTime in E3. lia.
    + apply Z.leb_gt in E3. f_equal.
      unfold timerDelay, toInt32. rewrite Z.mod_small by lia.
      unfold remainingTime in *. lia.
  - intros Hwraps. rewrite E.
    destruct (remainingTime <=? 0) eqn:E3; [reflexivity|].
    f_equal. unfold timerDelay, toInt32.
    replace (remainingTime + 2147483648)
      with (remainingTime - 2147483648 + 1 * 4294967296) by lia.
    rewrite Z.mod_add by discriminate.
    destruct (Z.eq_dec remainingTime 4294967296) as [Heq|Hlt].
    + rewrite Heq.
      replace (Z.max 0 ((4294967296 - 2147483648) mod 4294967296 - 2147483648))
        with 0 by reflexivity.
      lia.
    + rewrite Z.mod_small by lia. lia.
Qed.

Lemma inactivity_commits_witness :
  activeSession SampleState.logging = Some SampleState.newSession
  /\ lastActivityTime SampleState.logging = Some 1000000
  /\ afterInactivity 1000500 SampleState.logging
     = finishSession 4600000 SampleState.logging
  /\ sessionTimeout (settings SampleState.loggingLongTimeout) = 40000
  /\ afterInactivity 1000500 SampleState.loggingLongTimeout
     = finishSession 1000500 SampleState.loggingLongTimeout.
Proof.
  split; [reflexivity|]. split; [reflexivity|].
  split; [|split; [reflexivity|]].
  - apply (inactivity_commits 1000500 1000000 SampleState.logging SampleState.newSession
             eq_refl eq_refl ltac:(discriminate) ltac:(reflexivity)).
    vm_compute. discriminate.
  - apply (inactivity_commits 1000500 1000000 SampleState.loggingLongTimeout
             SampleState.newSession
             eq_refl eq_refl ltac:(discriminate) ltac:(reflexivity)).
    split; vm_compute; [reflexivity | discriminate].
Defined.

(** A session under edit is saved as it stands: same id, no new
    duration. *)
Lemma finalSessionWithId_editing (now : Z) (s : WorkoutSession) :
  ws_id s <> activeId -> finalSessionWithId now s = s.
Proof.
  intros Hid. unfold finalSessionWithId, newSessionId, finalSession.
  destruct (String.eqb_spec (ws_id s) activeId) as [E|_]; [contradiction|].
  destruct (String.eqb_spec (ws_id s) activeId) as [E|_]; [contradiction|].
  now destruct s.
Qed.

Lemma find_id_In (sid : string) (l : list WorkoutSession) (s : WorkoutSession) :
  find (fun x => String.eqb (ws_id x) sid) l = Some s -> In s l /\ ws_id s = sid.
Proof.
  intros H. apply find_some in H. destruct H as [Hin E].
  split; [exact Hin | now apply String.eqb_eq].
Qed.

(** Taking a member out of a list with unique ids and putting it back
    gives the same list up to order. *)
Lemma filter_out_and_back (l : list WorkoutSession) (s : WorkoutSession) :
  NoDup (map ws_id l) -> In s l ->
  Permutation (filter (fun x => negb (String.eqb (ws_id x) (ws_id s))) l ++ [s]) l.
Proof.
  induction l as [|y l IH]; simpl; intros Hnd Hin; [contradiction|].
  inversion Hnd as [|? ? Hnotin Hnd']; subst.
  destruct Hin as [->|Hin].
  - rewrite String.eqb_refl. simpl.
    rewrite filter_other_ids by exact Hnotin.
    symmetry. apply Permutation_cons_append.
  - destruct (String.eqb_spec (ws_id y) (ws_id s)) as [E|_]; simpl.
    + exfalso. apply Hnotin. rewrite E. now apply in_map.
    + apply perm_skip. now apply IH.
Qed.

(** X15. Opening a saved session for editing and committing it unchanged
    leaves the same sessions in the Dataset, up to order: the session
    keeps its id, duration and content, nothing is added or lost. *)
Theorem edit_commit_round_trip (sessionId : string) (now1 now2 : Z)
    (st : AppState) (s : WorkoutSession) :
  activeSession st = None ->
  currentDataset st = Some (appData st) ->
  NoDup (map ws_id (sessions (appData st))) ->
  find (fun x => String.eqb (ws_id x) sessionId) (sessions (appData st)) = Some s ->
  sessionId <> activeId ->
  ws_exercises s <> [] ->
  exists d',
    currentDataset (finishSession now2 (editSession sessionId now1 st)) = Some d'
    /\ Permutation (sessions d') (sessions (appData st))
    /\ In s (sessions d').
Proof.
  intros Hact Hd Hnd Hfind Hsid Hex.
  destruct (find_id_In _ _ _ Hfind) as [Hin Hid].
  assert (Hedit : editSession sessionId now1 st
                  = setView v_logger
                      (setLastActivityTime None
                         (setActiveSession (Some s)
                            (setEditingSessionId (Some sessionId) st)))).
  { unfold editSession. rewrite Hfind. unfold finishSession. now rewrite Hact. }
  rewrite Hedit.
  destruct (finishSession_commits now2
              (setView v_logger
                 (setLastActivityTime None
                    (setActiveSession (Some s)
                       (setEditingSessionId (Some sessionId) st))))
              s (appData st) eq_refl Hex Hd) as (Hd' & _).
  eexists. split; [exact Hd'|].
  rewrite (finalSessionWithId_editing now2 s) by congruence.
  assert (Hperm := updateState_perm (finalSession now2 s) s (appData st)).
  rewrite finalSession_id in Hperm.
  assert (P : Permutation
                (sessions (updateState (finalSession now2 s) s (appData st)))
                (sessions (appData st))).
  { rewrite Hperm. now apply filter_out_and_back. }
  split; [exact P|].
  eapply Permutation_in; [symmetry; exact P | exact Hin].
Qed.

Lemma edit_commit_round_trip_witness :
  exists d',
    currentDataset (finishSession 6000000 (editSession "100" 5000000 SampleState.idle))
    = Some d'
    /\ Permutation (sessions d') (sessions (appData SampleState.idle))
    /\ In Sample.S1_remote (sessions d').
Proof.
  apply (edit_commit_round_trip "100" 5000000 6000000 SampleState.idle Sample.S1_remote).
  - reflexivity.
  - reflexivity.
  - simpl. repeat constructor; simpl; intuition discriminate.
  - reflexivity.
  - discriminate.
  - discriminate.
Defined.

(** X16. Field edits stay in the active session until it is committed:
    opening a saved session, changing its fields and cancelling leaves the
    profiles, the Dataset in memory and the current Dataset as they were,
    and the controller idle. *)
Theorem edit_update_cancel (sessionId : string) (u : SessionUpdate)
    (now1 now2 : Z) (st : AppState) :
  activeSession st = None ->
  let st' := cancelActiveSession
               (updateActiveSession u now2 (editSession sessionId now1 st)) in
  profiles st' = profiles st
  /\ appData st' = appData st
  /\ currentDataset st' = currentDataset st
  /\ activeSession st' = None
  /\ editingSessionId st' = None.
Proof.
  intros Hact. simpl.
  unfold editSession, finishSession. rewrite Hact.
  destruct (find (fun x => String.eqb (ws_id x) sessionId) (sessions (appData st)))
    as [s|].
  - unfold updateActiveSession, cancelActiveSession. simpl. repeat split.
  - unfold updateActiveSession. rewrite Hact.
    unfold cancelActiveSession. destruct (view st); repeat split.
Qed.

Lemma edit_update_cancel_witness :
  activeSession SampleState.idle = None
  /\ appData (cancelActiveSession
                (updateActiveSession SampleState.editNotes 5000100
                   (editSession "100" 5000000 SampleState.idle)))
     = appData SampleState.idle.
Proof.
  split; [reflexivity|].
  apply (edit_update_cancel "100" SampleState.editNotes 5000000 5000100
           SampleState.idle eq_refl).
Defined.

(** ** Data handlers *)

(** A data handler applies its update to the current Dataset. *)
Lemma applyDataUpdate_current (updateFunc : AppData -> AppData) (st : AppState)
    (d : AppData) :
  currentDataset st = Some d ->
  currentDataset (applyDataUpdate updateFunc st) = Some (updateFunc d)
  /\ isSignedIn (applyDataUpdate updateFunc st) = isSignedIn st
  /\ activeLocalProfileId (applyDataUpdate updateFunc st) = activeLocalProfileId st.
Proof.
  intros Hd. unfold applyDataUpdate, currentDataset in *.
  destruct (truthy (activeLocalProfileId st)) as [pid|] eqn:Et.
  - unfold updateLocalProfile, orElse. simpl. rewrite Et.
    unfold activeProfile in *. simpl. rewrite Et in *.
    rewrite find_profile_map by reflexivity.
    destruct (find (fun p => String.eqb (up_id p) pid) (profiles st)) as [p|];
      simpl in *; [|discriminate].
    injection Hd as <-. auto.
  - destruct (isSignedIn st) eqn:Es; [|discriminate].
    simpl. rewrite Et, Es. injection Hd as <-. auto.
Qed.

(** X17. A confirmed deletion removes the sessions with the given id from
    the current Dataset and nothing else: the other sessions stay in
    their order, health entries and routines are untouched; a declined
    deletion changes nothing. *)
Theorem deleteSession_removes (sessionId : string) (st : AppState) (d : AppData) :
  currentDataset st = Some d ->
  deleteSession sessionId false st = st
  /\ exists d',
       currentDataset (deleteSession sessionId true st) = Some d'
       /\ sessions d'
          = filter (fun s => negb (String.eqb (ws_id s) sessionId)) (sessions d)
       /\ ~ In sessionId (map ws_id (sessions d'))
       /\ (forall s, In s (sessions d) -> ws_id s <> sessionId -> In s (sessions d'))
       /\ healthStats d' = healthStats d /\ routines d' = routines d.
Proof.
  intros Hd. split; [reflexivity|].
  unfold deleteSession. simpl.
  destruct (applyDataUpdate_current
              (fun currentData =>
                 withSessions
                   (filter (fun s => negb (String.eqb (ws_id s) sessionId))
                      (sessions currentData)) currentData) st d Hd) as (Hd' & _).
  eexists. split; [exact Hd'|]. simpl.
  split; [reflexivity|]. split; [apply filter_removes_id|].
  split; [|split; reflexivity].
  intros s Hin Hne. apply filter_In. split; [exact Hin|].
  now destruct (String.eqb_spec (ws_id s) sessionId).
Qed.

Lemma deleteSession_removes_witness :
  currentDataset SampleState.loggingOffline = Some (up_appData SampleState.alice)
  /\ exists d',
       currentDataset (deleteSession "100" true SampleState.loggingOffline) = Some d'
       /\ ~ In "100" (map ws_id (sessions d')).
Proof.
  split; [reflexivity|].
  destruct (proj2 (deleteSession_removes "100" SampleState.loggingOffline
                     (up_appData SampleState.alice) eq_refl))
    as (d' & Hd' & _ & Hgone & _).
  exists d'. split; [exact Hd' | exact Hgone].
Defined.

(** X18. Deletions are not remembered by the merge: when a signed-in user
    deletes a session and the next sync reads a backup that still holds
    a session with that id, the id is in the session list again. *)
Theorem deleted_session_returns (sessionId : string)
    (isInitialSync confirmMerge saveOk : bool) (remoteData : AppData) (st : AppState) :
  isSignedIn st = true ->
  truthy (activeLocalProfileId st) = None ->
  In sessionId (map ws_id (sessions remoteData)) ->
  ~ In sessionId (map ws_id (sessions (appData (deleteSession sessionId true st))))
  /\ In sessionId
       (map ws_id
          (sessions
             (appData
                (sync_state
                   (handleSync isInitialSync (Backup remoteData) confirmMerge saveOk
                      (deleteSession sessionId true st)))))).
Proof.
  intros Hs Ht Hin.
  assert (E : deleteSession sessionId true st
              = setAppData
                  (withSessions
                     (filter (fun s => negb (String.eqb (ws_id s) sessionId))
                        (sessions (appData st))) (appData st)) st).
  { unfold deleteSession, applyDataUpdate. simpl. now rewrite Ht, Hs. }
  rewrite E. split.
  - simpl. apply filter_removes_id.
  - rewrite handleSync_backup by exact Hs. simpl.
    apply mergeByKey_ids. now right.
Qed.

Lemma deleted_session_returns_witness :
  isSignedIn SampleState.idle = true
  /\ In "100" (map ws_id (sessions Sample.remoteData))
  /\ In "100"
       (map ws_id
          (sessions
             (appData
                (sync_state
                   (handleSync false (Backup Sample.remoteData) true false
                      (deleteSession "100" true SampleState.idle)))))).
Proof.
  split; [reflexivity|].
  assert (Hin : In "100" (map ws_id (sessions Sample.remoteData))) by (simpl; auto).
  split; [exact Hin|].
  exact (proj2 (deleted_session_returns "100" false true false Sample.remoteData
                  SampleState.idle eq_refl eq_refl Hin)).
Defined.

Lemma saveRoutineUpdate_cases (routine : WorkoutRoutine) (d : AppData) :
  (forallb (fun r => negb (String.eqb (wr_id r) (wr_id routine))) (routines d) = true
   /\ routines (saveRoutineUpdate routine d) = routines d ++ [routine])
  \/ (exists l1 x l2,
        routines d = l1 ++ x :: l2
        /\ wr_id x = wr_id routine
        /\ forallb (fun r => negb (String.eqb (wr_id r) (wr_id routine))) l1 = true
        /\ routines (saveRoutineUpdate routine d) = l1 ++ routine :: l2).
Proof.
  unfold saveRoutineUpdate. simpl.
  destruct (first_match_split (fun r => String.eqb (wr_id r) (wr_id routine)) (routines d))
    as [Hnone | (l1 & x & l2 & Hsplit & Hx & Hl1)].
  - left. split; [exact Hnone|]. now rewrite (findIndex_none _ _ Hnone).
  - right. exists l1, x, l2. rewrite Hsplit.
    rewrite (findIndex_first _ l1 l2 x Hl1 Hx).
    assert (G : (Z.of_nat (List.length l1) >? -1) = true) by (apply Z.gtb_lt; lia).
    rewrite G, Nat2Z.id, updateAt_middle.
    repeat split; auto. now apply String.eqb_eq.
Qed.

Lemma forallb_other_ids (x : string) (l : list WorkoutRoutine) :
  forallb (fun r => negb (String.eqb (wr_id r) x)) l = true <-> ~ In x (map wr_id l).
Proof.
  induction l as [|r l IH]; simpl; [intuition|].
  destruct (String.eqb_spec (wr_id r) x) as [E|Hne]; simpl.
  - split; [discriminate | intros H; exfalso; apply H; now left].
  - rewrite IH. intuition.
Qed.

(** Saving a routine that is already the first one under its id changes
    nothing. *)
Lemma saveRoutineUpdate_present (routine : WorkoutRoutine) (d : AppData)
    (l1 l2 : list WorkoutRoutine) :
  routines d = l1 ++ routine :: l2 ->
  forallb (fun r => negb (String.eqb (wr_id r) (wr_id routine))) l1 = true ->
  saveRoutineUpdate routine d = d.
Proof.
  intros Hsplit Hl1. unfold saveRoutineUpdate. rewrite Hsplit.
  rewrite (findIndex_first _ l1 l2 routine Hl1 (String.eqb_refl _)).
  assert (G : (Z.of_nat (List.length l1) >? -1) = true) by (apply Z.gtb_lt; lia).
  rewrite G, Nat2Z.id, updateAt_middle, <- Hsplit. now destruct d.
Qed.

Lemma saveRoutineUpdate_twice (routine : WorkoutRoutine) (d : AppData) :
  saveRoutineUpdate routine (saveRoutineUpdate routine d) = saveRoutineUpdate routine d.
Proof.
  destruct (saveRoutineUpdate_cases routine d)
    as [(Hnone & E) | (l1 & x & l2 & _ & _ & Hl1 & E)].
  - apply (saveRoutineUpdate_present routine _ (routines d) []); assumption.
  - apply (saveRoutineUpdate_present routine _ l1 l2); assumption.
Qed.

(** X19. Saving a routine is an upsert in place: afterwards a lookup by
    its id finds the saved routine; when the id was listed, the list keeps
    its length and the ids their positions, and when it was not, the
    routine is appended; unique ids stay unique, sessions and health
    entries are untouched, and saving the same routine again changes
    nothing. *)
Theorem saveRoutine_upserts (routine : WorkoutRoutine) (st : AppState) (d : AppData) :
  currentDataset st = Some d ->
  exists d',
    currentDataset (saveRoutine routine st) = Some d'
    /\ find (fun r => String.eqb (wr_id r) (wr_id routine)) (routines d') = Some routine
    /\ (In (wr_id routine) (map wr_id (routines d)) ->
        map wr_id (routines d') = map wr_id (routines d))
    /\ (~ In (wr_id routine) (map wr_id (routines d)) ->
        routines d' = routines d ++ [routine])
    /\ (NoDup (map wr_id (routines d)) -> NoDup (map wr_id (routines d')))
    /\ sessions d' = sessions d /\ healthStats d' = healthStats d
    /\ currentDataset (saveRoutine routine (saveRoutine routine st)) = Some d'.
Proof.
  intros Hd. unfold saveRoutine.
  destruct (applyDataUpdate_current (saveRoutineUpdate routine) st d Hd) as (Hd' & _).
  destruct (applyDataUpdate_current (saveRoutineUpdate routine) _ _ Hd') as (Hd'' & _).
  exists (saveRoutineUpdate routine d). split; [exact Hd'|].
  assert (Hfind : find (fun r => String.eqb (wr_id r) (wr_id routine))
                    (routines (saveRoutineUpdate routine d)) = Some routine).
  { destruct (saveRoutineUpdate_cases routine d)
      as [(Hnone & ->) | (l1 & x & l2 & _ & _ & Hl1 & ->)].
    - replace (routines d ++ [routine]) with (routines d ++ routine :: []) by reflexivity.
      apply find_first; [exact Hnone | apply String.eqb_refl].
    - apply find_first; [exact Hl1 | apply String.eqb_refl]. }
  split; [exact Hfind|].
  split; [|split; [|split; [|split; [reflexivity|split; [reflexivity|]]]]].
  - intros Hin.
    destruct (saveRoutineUpdate_cases routine d)
      as [(Hnone & _) | (l1 & x & l2 & Hsplit & Hx & _ & ->)].
    + apply forallb_other_ids in Hnone. contradiction.
    + rewrite Hsplit, !map_app. simpl. now rewrite Hx.
  - intros Hnotin.
    destruct (saveRoutineUpdate_cases routine d)
      as [(_ & ->) | (l1 & x & l2 & Hsplit & Hx & _ & _)]; [reflexivity|].
    exfalso. apply Hnotin. rewrite Hsplit, map_app. apply in_or_app. right.
    left. exact Hx.
  - intros Hnd.
    destruct (saveRoutineUpdate_cases routine d)
      as [(Hnone & ->) | (l1 & x & l2 & Hsplit & Hx & _ & ->)].
    + rewrite map_app. simpl. apply forallb_other_ids in Hnone.
      apply NoDup_app; [exact Hnd | repeat constructor; simpl; tauto |].
      intros y Hy [<-|[]]. contradiction.
    + rewrite Hsplit, map_app in Hnd. simpl in Hnd.
      rewrite map_app. simpl. now rewrite <- Hx.
  - rewrite Hd''. f_equal. apply saveRoutineUpdate_twice.
Qed.

Lemma saveRoutine_upserts_witness :
  currentDataset (setAppData Sample.remoteData SampleState.idle) = Some Sample.remoteData
  /\ exists d',
       currentDataset
         (saveRoutine (mkWorkoutRoutine "r1" "Upper body, heavy" [mkRoutineExercise "Dips" 5 5])
            (setAppData Sample.remoteData SampleState.idle)) = Some d'
       /\ map wr_id (routines d') = map wr_id (routines Sample.remoteData).
Proof.
  split; [reflexivity|].
  destruct (saveRoutine_upserts
              (mkWorkoutRoutine "r1" "Upper body, heavy" [mkRoutineExercise "Dips" 5 5])
              (setAppData Sample.remoteData SampleState.idle) Sample.remoteData eq_refl)
    as (d' & Hd' & _ & Hkeep & _).
  exists d'. split; [exact Hd'|]. apply Hkeep. simpl. auto.
Defined.

Lemma filter_other_stats (x : string) (l : list HealthStat) :
  ~ In x (map hs_id l) ->
  filter (fun s => negb (String.eqb (hs_id s) x)) l = l.
Proof.
  induction l as [|s l IH]; simpl; intros H; [reflexivity|].
  destruct (String.eqb_spec (hs_id s) x) as [E|_]; simpl.
  - exfalso. apply H. now left.
  - f_equal. apply IH. intros Hin. apply H. now right.
Qed.

(** X20. A health entry is added at the end of the list under the numeral
    of the clock reading, the entries before it untouched; deleting that
    id again gives back the Dataset as it was, provided no earlier entry
    carried the same id. *)
Theorem addHealthStat_then_delete (stat : HealthStatInput) (now : Z)
    (st : AppState) (d : AppData) :
  currentDataset st = Some d ->
  currentDataset (addHealthStat stat now st)
  = Some (withHealthStats (healthStats d ++ [newHealthStat stat now]) d)
  /\ hs_id (newHealthStat stat now) = toString now
  /\ (~ In (toString now) (map hs_id (healthStats d)) ->
      currentDataset (deleteHealthStat (toString now) true (addHealthStat stat now st))
      = Some d).
Proof.
  intros Hd. unfold addHealthStat.
  destruct (applyDataUpdate_current
              (fun currentData =>
                 withHealthStats (healthStats currentData ++ [newHealthStat stat now])
                   currentData) st d Hd) as (Hd' & _).
  split; [exact Hd'|]. split; [reflexivity|].
  intros Hfresh. unfold deleteHealthStat. simpl.
  destruct (applyDataUpdate_current
              (fun currentData =>
                 withHealthStats
                   (filter (fun s => negb (String.eqb (hs_id s) (toString now)))
                      (healthStats currentData)) currentData) _ _ Hd') as (Hd'' & _).
  rewrite Hd''. f_equal. simpl.
  rewrite filter_app, filter_other_stats by exact Hfresh.
  simpl. rewrite String.eqb_refl. simpl. rewrite app_nil_r. now destruct d.
Qed.

Lemma addHealthStat_then_delete_witness :
  currentDataset SampleState.idle = Some (appData SampleState.idle)
  /\ ~ In (toString 7000000) (map hs_id (healthStats (appData SampleState.idle)))
  /\ currentDataset
       (deleteHealthStat (toString 7000000) true
          (addHealthStat (mkHealthStatInput (Some (Q2Qc (80 # 1))) (Some kg) None None None None)
             7000000 SampleState.idle))
     = Some (appData SampleState.idle).
Proof.
  split; [reflexivity|].
  assert (Hfresh : ~ In (toString 7000000)
                       (map hs_id (healthStats (appData SampleState.idle))))
    by (simpl; tauto).
  split; [exact Hfresh|].
  exact (proj2 (proj2 (addHealthStat_then_delete
                         (mkHealthStatInput (Some (Q2Qc (80 # 1))) (Some kg) None None None None)
                         7000000 SampleState.idle (appData SampleState.idle) eq_refl))
           Hfresh).
Defined.

(** ** Routines and the logger *)

Lemma length_append (a b : string) :
  String.length (String.append a b) = (String.length a + String.length b)%nat.
Proof. induction a as [|c a IH]; simpl; [reflexivity | now rewrite IH]. Qed.

(** Strings with a common suffix differ in what comes before it. *)
Lemma append_suffix_inj (a b suffix : string) :
  String.append a suffix = String.append b suffix -> a = b.
Proof.
  revert b. induction a as [|c a IH]; intros [|c' b] H; simpl in H.
  - reflexivity.
  - apply (f_equal String.length) in H. simpl in H. rewrite length_append in H. lia.
  - apply (f_equal String.length) in H. simpl in H. rewrite length_append in H. lia.
  - injection H as -> H. f_equal. now apply IH.
Qed.

Lemma NoDup_map_injective {A B : Type} (f : A -> B) (l : list A) :
  (forall x y, f x = f y -> x = y) -> (NoDup (map f l) <-> NoDup l).
Proof.
  intros Hinj. split; [apply NoDup_map_inv|].
  induction 1 as [|x l Hnotin _ IH]; simpl; constructor; [|exact IH].
  intros Hin. apply in_map_iff in Hin. destruct Hin as (y & E & Hy).
  apply Hinj in E. now subst.
Qed.

(** X21. A routine started while idle becomes the active session under
    the sentinel id, one row per routine exercise with its name, sets and
    reps and the default weight and unit.  The row ids are built from the
    exercise names and one clock reading, so they are pairwise distinct
    exactly when the names of the routine's exercises are. *)
Theorem startRoutine_rows (routine : WorkoutRoutine) (now : Z) (st : AppState) :
  activeSession st = None ->
  exists s,
    activeSession (startRoutine routine now st) = Some s
    /\ ws_id s = activeId
    /\ map (fun ex => (ex_name ex, ex_sets ex, ex_reps ex)) (ws_exercises s)
       = map (fun ex => (re_name ex, re_sets ex, Finite (re_reps ex)))
           (wr_exercises routine)
    /\ Forall (fun ex => ex_weight ex = Finite (defaultWeight (settings st))
                         /\ ex_unit ex = defaultUnit (settings st)) (ws_exercises s)
    /\ (NoDup (map ex_id (ws_exercises s))
        <-> NoDup (map re_name (wr_exercises routine)))
    /\ profiles (startRoutine routine now st) = profiles st
    /\ appData (startRoutine routine now st) = appData st.
Proof.
  intros Hact. unfold startRoutine, startSession. rewrite Hact.
  eexists. split; [reflexivity|]. simpl.
  split; [reflexivity|].
  split; [now rewrite map_map|].
  split; [apply Forall_forall; intros ex Hin; apply in_map_iff in Hin;
          destruct Hin as (r & <- & _); now split|].
  split; [|split; reflexivity].
  rewrite map_map. simpl.
  rewrite <- (map_map re_name (fun name => routineExerciseId name now)).
  apply NoDup_map_injective. unfold routineExerciseId.
  intros x y. apply append_suffix_inj.
Qed.

Lemma startRoutine_rows_witness :
  activeSession SampleState.idle = None
  /\ exists s,
       activeSession (startRoutine Sample.R1 8000000 SampleState.idle) = Some s
       /\ ws_id s = activeId
       /\ map (fun ex => (ex_name ex, ex_sets ex, ex_reps ex)) (ws_exercises s)
          = [("Push-ups", 3, Finite 10)].
Proof.
  split; [reflexivity|].
  destruct (startRoutine_rows Sample.R1 8000000 SampleState.idle eq_refl)
    as (s & Hs & Hid & Hrows & _).
  exists s. split; [exact Hs|]. split; [exact Hid | exact Hrows].
Defined.

Lemma updatedSets_keeps_rows (exerciseId : string) (delta : Z) (l : list Exercise) :
  Forall (fun ex => 1 <= ex_sets ex) l ->
  updatedSets exerciseId delta l
  = map (fun ex => if String.eqb (ex_id ex) exerciseId
                   then withSets (Z.max 1 (ex_sets ex + delta)) ex
                   else ex) l
  /\ map ex_id (updatedSets exerciseId delta l) = map ex_id l
  /\ Forall (fun ex => 1 <= ex_sets ex) (updatedSets exerciseId delta l).
Proof.
  unfold updatedSets.
  induction 1 as [|ex l Hex _ (IH1 & IH2 & IH3)]; simpl.
  - repeat split. constructor.
  - destruct (String.eqb (ex_id ex) exerciseId); simpl.
    + assert (E : (0 <? Z.max 1 (ex_sets ex + delta)) = true) by (apply Z.ltb_lt; lia).
      rewrite E, IH1. simpl. rewrite <- IH1, IH2. repeat split.
      constructor; [simpl; lia | exact IH3].
    + assert (E : (0 <? ex_sets ex) = true) by (apply Z.ltb_lt; lia).
      rewrite E, IH1. simpl. rewrite <- IH1, IH2. repeat split.
      constructor; [exact Hex | exact IH3].
Qed.

(** X22. The set buttons of the logger never take a row below one set
    and, on a session whose rows all have at least one set, never lose a
    row: the rows keep their ids and order, the row with the given id gets
    [max 1 (sets + delta)] sets, the others are untouched, and the
    inactivity clock is reset. *)
Theorem handleUpdateSet_floor (exerciseId : string) (delta now : Z)
    (st : AppState) (s : WorkoutSession) :
  activeSession st = Some s ->
  Forall (fun ex => 1 <= ex_sets ex) (ws_exercises s) ->
  exists s',
    activeSession (handleUpdateSet exerciseId delta now st) = Some s'
    /\ ws_exercises s'
       = map (fun ex => if String.eqb (ex_id ex) exerciseId
                        then withSets (Z.max 1 (ex_sets ex + delta)) ex
                        else ex) (ws_exercises s)
    /\ map ex_id (ws_exercises s') = map ex_id (ws_exercises s)
    /\ Forall (fun ex => 1 <= ex_sets ex) (ws_exercises s')
    /\ ws_id s' = ws_id s
    /\ lastActivityTime (handleUpdateSet exerciseId delta now st) = Some now.
Proof.
  intros Hact Hsets. unfold handleUpdateSet, updateActiveSession. rewrite Hact.
  destruct (updatedSets_keeps_rows exerciseId delta (ws_exercises s) Hsets)
    as (H1 & H2 & H3).
  eexists. split; [reflexivity|]. simpl. auto.
Qed.

Lemma handleUpdateSet_floor_witness :
  activeSession SampleState.logging = Some SampleState.newSession
  /\ Forall (fun ex => 1 <= ex_sets ex) (ws_exercises SampleState.newSession)
  /\ exists s',
       activeSession (handleUpdateSet "1700000000001" (-1) 1010000 SampleState.logging)
       = Some s'
       /\ Forall (fun ex => 1 <= ex_sets ex) (ws_exercises s').
Proof.
  split; [reflexivity|].
  assert (Hsets : Forall (fun ex => 1 <= ex_sets ex) (ws_exercises SampleState.newSession))
    by (simpl; repeat constructor; simpl; lia).
  split; [exact Hsets|].
  destruct (handleUpdateSet_floor "1700000000001" (-1) 1010000 SampleState.logging
              SampleState.newSession eq_refl Hsets)
    as (s' & Hs' & _ & _ & Hfloor & _).
  exists s'. split; [exact Hs' | exact Hfloor].
Defined.

(** A row without sets, as a routine saved with zero sets brings in, is
    dropped by a click on the buttons of another row. *)
Example handleUpdateSet_drops_empty_rows :
  updatedSets "a" 1
    [mkExercise "a" "Squats" 3 (Finite 8) (Finite (Q2Qc 0)) kg;
     mkExercise "b" "Dips" 0 (Finite 5) (Finite (Q2Qc 0)) kg]
  = [mkExercise "a" "Squats" 4 (Finite 8) (Finite (Q2Qc 0)) kg].
Proof. reflexivity. Qed.

(** ** Fit sync *)

(** X23. A session is sent to Fit only with a positive duration, and the
    request then ends after it starts, by the duration in milliseconds.
    For a new session committed at [now] this means: it is sent exactly
    when at least half a minute lies between start and commit. *)
Theorem fitSessionRequest_positive (now : Z) (s : WorkoutSession) :
  (forall session request,
      fitSessionRequest session = Some request ->
      exists minutes,
        ws_durationMinutes session = Some minutes /\ 0 < minutes
        /\ fit_startTimeMillis request = ws_timestamp session
        /\ fit_endTimeMillis request = ws_timestamp session + minutes * 60000
        /\ fit_startTimeMillis request < fit_endTimeMillis request)
  /\ (ws_id s = activeId ->
      (fitSessionRequest (finalSessionWithId now s) = None
       <-> now - ws_timestamp s < 30000)).
Proof.
  split.
  - intros session request H. unfold fitSessionRequest in H.
    destruct (ws_durationMinutes session) as [m|]; [|discriminate].
    destruct ((m =? 0) || (m <=? 0)) eqn:E; [discriminate|].
    apply orb_false_elim in E. destruct E as [_ E]. apply Z.leb_gt in E.
    injection H as <-. exists m. simpl. repeat split; lia.
  - intros Hid. unfold fitSessionRequest, finalSessionWithId, finalSession.
    rewrite Hid. simpl.
    pose proof (roundDiv_nearest (now - ws_timestamp s) 60000 ltac:(lia)) as B.
    destruct ((roundDiv (now - ws_timestamp s) 60000 =? 0)
              || (roundDiv (now - ws_timestamp s) 60000 <=? 0)) eqn:E.
    + split; [intros _|reflexivity].
      apply orb_true_iff in E. destruct E as [E|E];
        [apply Z.eqb_eq in E | apply Z.leb_le in E]; lia.
    + split; [discriminate|]. intros Hlt.
      apply orb_false_elim in E. destruct E as [_ E]. apply Z.leb_gt in E. lia.
Qed.

Lemma fitSessionRequest_positive_witness :
  (exists request minutes,
      fitSessionRequest Sample.S2 = Some request
      /\ ws_durationMinutes Sample.S2 = Some minutes /\ 0 < minutes
      /\ fit_startTimeMillis request < fit_endTimeMillis request)
  /\ ws_id SampleState.newSession = activeId
  /\ 1020000 - ws_timestamp SampleState.newSession < 30000
  /\ fitSessionRequest (finalSessionWithId 1020000 SampleState.newSession) = None.
Proof.
  split.
  - destruct (proj1 (fitSessionRequest_positive 0 Sample.S2) Sample.S2 _ eq_refl)
      as (minutes & Hm & Hpos & _ & _ & Hlt).
    eexists. exists minutes. split; [reflexivity|]. auto.
  - split; [reflexivity|].
    assert (H : 1020000 - ws_timestamp SampleState.newSession < 30000) by (simpl; lia).
    split; [exact H|].
    exact (proj2 (proj2 (fitSessionRequest_positive 1020000 SampleState.newSession)
                    eq_refl) H).
Defined.

(** ** Recovery code *)

Lemma securityCodeChars_get (n : nat) :
  (n < 32)%nat ->
  exists c, String.get n securityCodeChars = Some c /\ isCodeChar c = true.
Proof.
  intros Hn.
  do 32 (destruct n as [|n]; [eexists; split; reflexivity|]).
  lia.
Qed.

(** X24. Whatever the random draws, the recovery code has 14 characters:
    three groups of four with a hyphen after the fourth and the eighth;
    the twelve characters are the drawn ones in order, all from the
    32-letter alphabet, which has no I, O, 0 or 1. *)
Theorem generateSecurityCode_format (draw : nat -> nat) :
  (forall i, (i < 12)%nat -> (draw i < 32)%nat) ->
  String.length (generateSecurityCode draw) = 14%nat
  /\ String.get 4 (generateSecurityCode draw) = Some "-"%char
  /\ String.get 9 (generateSecurityCode draw) = Some "-"%char
  /\ (forall i, (i < 12)%nat ->
        String.get (i + i / 4) (generateSecurityCode draw)
        = String.get (draw i) securityCodeChars)
  /\ (forall i, (i < 12)%nat ->
        exists c, String.get (i + i / 4) (generateSecurityCode draw) = Some c
                  /\ isCodeChar c = true)
  /\ (forall c, isCodeChar c = true ->
        c <> "I"%char /\ c <> "O"%char /\ c <> "0"%char /\ c <> "1"%char).
Proof.
  intros Hdraw.
  destruct (securityCodeChars_get (draw 0%nat) (Hdraw 0%nat ltac:(lia))) as (c0 & H0 & K0).
  destruct (securityCodeChars_get (draw 1%nat) (Hdraw 1%nat ltac:(lia))) as (c1 & H1 & K1).
  destruct (securityCodeChars_get (draw 2%nat) (Hdraw 2%nat ltac:(lia))) as (c2 & H2 & K2).
  destruct (securityCodeChars_get (draw 3%nat) (Hdraw 3%nat ltac:(lia))) as (c3 & H3 & K3).
  destruct (securityCodeChars_get (draw 4%nat) (Hdraw 4%nat ltac:(lia))) as (c4 & H4 & K4).
  destruct (securityCodeChars_get (draw 5%nat) (Hdraw 5%nat ltac:(lia))) as (c5 & H5 & K5).
  destruct (securityCodeChars_get (draw 6%nat) (Hdraw 6%nat ltac:(lia))) as (c6 & H6 & K6).
  destruct (securityCodeChars_get (draw 7%nat) (Hdraw 7%nat ltac:(lia))) as (c7 & H7 & K7).
  destruct (securityCodeChars_get (draw 8%nat) (Hdraw 8%nat ltac:(lia))) as (c8 & H8 & K8).
  destruct (securityCodeChars_get (draw 9%nat) (Hdraw 9%nat ltac:(lia))) as (c9 & H9 & K9).
  destruct (securityCodeChars_get (draw 10%nat) (Hdraw 10%nat ltac:(lia))) as (c10 & H10 & K10).
  destruct (securityCodeChars_get (draw 11%nat) (Hdraw 11%nat ltac:(lia))) as (c11 & H11 & K11).
  assert (E : generateSecurityCode draw
              = String c0 (String c1 (String c2 (String c3 (String "-"
                  (String c4 (String c5 (String c6 (String c7 (String "-"
                  (String c8 (String c9 (String c10 (String c11 EmptyString)))))))))))))).
  { unfold generateSecurityCode, charAt. cbn [fold_left seq].
    rewrite H0, H1, H2, H3, H4, H5, H6, H7, H8, H9, H10, H11. reflexivity. }
  rewrite E.
  split; [reflexivity|]. split; [reflexivity|]. split; [reflexivity|].
  split; [|split].
  - intros i Hi.
    do 12 (destruct i as [|i];
           [first [rewrite H0 | rewrite H1 | rewrite H2 | rewrite H3 | rewrite H4
                  | rewrite H5 | rewrite H6 | rewrite H7 | rewrite H8 | rewrite H9
                  | rewrite H10 | rewrite H11]; reflexivity|]).
    lia.
  - intros i Hi.
    do 12 (destruct i as [|i]; [eexists; split; [reflexivity | assumption]|]). lia.
  - intros c Hc. repeat split; intros ->; discriminate Hc.
Qed.

Lemma generateSecurityCode_format_witness :
  (forall i, (i < 12)%nat -> ((fun k => (7 * k + 3) mod 32)%nat i < 32)%nat)
  /\ generateSecurityCode (fun k => (7 * k + 3) mod 32)%nat = "DLT2-9GPW-5CKS"
  /\ String.length (generateSecurityCode (fun k => (7 * k + 3) mod 32)%nat) = 14%nat.
Proof.
  assert (H : forall i, (i < 12)%nat -> ((fun k => (7 * k + 3) mod 32)%nat i < 32)%nat)
    by (intros i _; apply Nat.mod_upper_bound; discriminate).
  split; [exact H|]. split; [reflexivity|].
  exact (proj1 (generateSecurityCode_format (fun k => (7 * k + 3) mod 32)%nat H)).
Defined.

(** ** Offline accounts *)

Lemma toString_nonempty (n : Z) : toString n <> EmptyString.
Proof.
  unfold toString.
  destruct (Z.to_int n) as [u|u]; destruct u; simpl; discriminate.
Qed.

Lemma find_none_existsb {A : Type} (f : A -> bool) (l : list A) :
  existsb f l = false <-> find f l = None.
Proof.
  induction l as [|x l IH]; simpl; [tauto|].
  destruct (f x); simpl; [split; discriminate | exact IH].
Qed.

Lemma find_none_forallb {A : Type} (f : A -> bool) (l : list A) :
  find f l = None -> forallb (fun y => negb (f y)) l = true.
Proof.
  induction l as [|x l IH]; simpl; [reflexivity|].
  destruct (f x); simpl; [discriminate | exact IH].
Qed.

Section OfflineAccountFacts.
Variable hashPassword : string -> string.
Variable toLowerCase : string -> string.
Variable trim : string -> string.

Local Abbreviation login := (handleOfflineLogin hashPassword toLowerCase).
Local Abbreviation register := (handleOfflineRegister hashPassword toLowerCase trim).
Local Abbreviation byName := (findByName toLowerCase).

(** X25. Registration under a name that is taken, in any capitalisation,
    is refused: the error is shown, no profile is added and no recovery
    code is handed out.  And registration keeps the names unique without
    regard to case, as long as the name entered has no surrounding
    blanks (the name is stored trimmed but compared untrimmed). *)
Theorem register_keeps_names_unique (username password securityCode : string)
    (now : Z) (a : AuthState) :
  (forall p, byName username (profiles (app a)) = Some p ->
     register username password securityCode now a
     = setOfflineAuthError (Some "Username already taken.") a)
  /\ (uniqueNames toLowerCase (profiles (app a)) ->
      trim username = username ->
      uniqueNames toLowerCase
        (profiles (app (register username password securityCode now a)))).
Proof.
  unfold handleOfflineRegister, findByName, uniqueNames.
  destruct (existsb
              (fun p => String.eqb (toLowerCase (up_name p)) (toLowerCase username))
              (profiles (app a))) eqn:E.
  - split; [reflexivity | auto].
  - apply find_none_existsb in E. split.
    + intros p Hp. rewrite Hp in E. discriminate.
    + intros Hnd Htrim. simpl. rewrite map_app. simpl. rewrite Htrim.
      apply NoDup_app; [exact Hnd | repeat constructor; simpl; tauto |].
      intros x Hx [<-|[]].
      apply in_map_iff in Hx. destruct Hx as (p & Hp & Hin).
      apply find_none_forallb in E. rewrite forallb_forall in E.
      specialize (E p Hin). rewrite Hp, String.eqb_refl in E. discriminate.
Qed.

(** X26. A freshly registered account can be logged into: after a
    registration under a free name without surrounding blanks, a login
    with the same name and password succeeds, makes the new profile the
    active one and clears the error; the recovery code is handed out with
    the registration.  When no older profile carries the new id, the
    active profile is the new one, with an empty Dataset. *)
Theorem register_then_login (username password securityCode : string)
    (now : Z) (a : AuthState) :
  byName username (profiles (app a)) = None ->
  toLowerCase (trim username) = toLowerCase username ->
  hashPassword password <> EmptyString ->
  let registered := register username password securityCode now a in
  let logged := login username password registered in
  securityCodeForNewUser registered = Some (trim username, securityCode)
  /\ offlineAuthError logged = None
  /\ activeLocalProfileId (app logged) = Some (toString now)
  /\ isSignedIn (app logged) = false
  /\ profiles (app logged)
     = profiles (app a)
       ++ [mkUserProfile (toString now) (trim username) (hashPassword password)
             (Some (hashPassword securityCode)) emptyAppData DEFAULT_SETTINGS]
  /\ (~ In (toString now) (map up_id (profiles (app a))) ->
      currentDataset (app logged) = Some emptyAppData).
Proof.
  intros Hfree Htrim Hhash. simpl.
  unfold handleOfflineRegister.
  rewrite (proj2 (find_none_existsb _ _) Hfree).
  split; [reflexivity|].
  unfold handleOfflineLogin. simpl.
  assert (Hfind : byName username
                    (profiles (app a)
                     ++ [mkUserProfile (toString now) (trim username) (hashPassword password)
                           (Some (hashPassword securityCode)) emptyAppData DEFAULT_SETTINGS])
                  = Some (mkUserProfile (toString now) (trim username) (hashPassword password)
                            (Some (hashPassword securityCode)) emptyAppData DEFAULT_SETTINGS)).
  { unfold findByName. apply find_first.
    - now apply find_none_forallb.
    - simpl. rewrite Htrim. apply String.eqb_refl. }
  rewrite Hfind. simpl.
  destruct (String.eqb_spec (hashPassword password) EmptyString) as [E|_];
    [contradiction|].
  unfold verifyPassword. rewrite String.eqb_refl. simpl.
  repeat (split; [reflexivity|]).
  intros Hfresh. unfold currentDataset, activeProfile. cbn -[truthy toString find].
  rewrite (truthy_nonempty _ (toString_nonempty now)).
  rewrite (find_first _ (profiles (app a)) []); [reflexivity | | apply String.eqb_refl].
  apply forallb_forall. intros p Hp.
  destruct (String.eqb_spec (up_id p) (toString now)) as [E|_]; [|reflexivity].
  exfalso. apply Hfresh. rewrite <- E. now apply in_map.
Qed.

(** X27. A login either fails with the one message "Invalid username or
    password." -- the same for an unknown name and for a wrong password --
    and leaves everything else as it was, or it succeeds, and then only
    for a profile found by the name whose stored digest is the digest of
    the password entered. *)
Theorem login_outcomes (username password : string) (a : AuthState) :
  login username password a
  = setOfflineAuthError (Some "Invalid username or password.") a
  \/ exists p,
       byName username (profiles (app a)) = Some p
       /\ hashPassword password = up_passwordHash p
       /\ login username password a
          = mkAuthState
              (setIsSignedIn false (setActiveLocalProfileId (Some (up_id p)) (app a)))
              None (securityCodeForNewUser a) (authMode a).
Proof.
  unfold handleOfflineLogin.
  destruct (byName username (profiles (app a))) as [p|]; [|now left].
  destruct (String.eqb (up_passwordHash p) EmptyString); [now left|].
  unfold verifyPassword.
  destruct (String.eqb_spec (hashPassword password) (up_passwordHash p)) as [E|_];
    [|now left].
  right. exists p. auto.
Qed.

(** X28. After a successful password reset the new password logs in and
    a password with another digest does not: on a profile list with
    unique ids, for a profile with a non-empty id found by name whose
    stored recovery digest is the digest of the code entered. *)
Theorem reset_then_login (username code newPassword : string) (a : AuthState)
    (p : UserProfile) (h : string) :
  NoDup (map up_id (profiles (app a))) ->
  up_id p <> EmptyString ->
  byName username (profiles (app a)) = Some p ->
  up_securityCodeHash p = Some h -> h <> EmptyString -> hashPassword code = h ->
  hashPassword newPassword <> EmptyString ->
  let after :=
    mkAuthState
      (snd (handleOfflinePasswordReset hashPassword toLowerCase
              username code newPassword (app a)))
      (offlineAuthError a) (securityCodeForNewUser a) (authMode a) in
  activeLocalProfileId (app (login username newPassword after)) = Some (up_id p)
  /\ offlineAuthError (login username newPassword after) = None
  /\ (forall other,
        hashPassword other <> hashPassword newPassword ->
        login username other after
        = setOfflineAuthError (Some "Invalid username or password.") after).
Proof.
  intros Hnd Hid Hp Hh Hne Hcode Hnew after.
  destruct (find_split _ _ _ Hp) as (l1 & l2 & Hsplit & Hmatch & Hbefore).
  pose proof (reset_accepted hashPassword toLowerCase username code newPassword
                (app a) p h l1 l2 Hnd Hid Hp Hsplit Hh Hne Hcode) as Hreset.
  assert (Hfind : byName username (profiles (app after))
                  = Some (withPasswordHash (hashPassword newPassword) p)).
  { subst after. simpl. rewrite Hreset. simpl.
    unfold findByName. now apply find_first. }
  assert (Hlogin : forall pw,
            login username pw after
            = if String.eqb (hashPassword pw) (hashPassword newPassword)
              then mkAuthState
                     (setIsSignedIn false
                        (setActiveLocalProfileId (Some (up_id p)) (app after)))
                     None (securityCodeForNewUser after) (authMode after)
              else setOfflineAuthError (Some "Invalid username or password.") after).
  { intros pw. unfold handleOfflineLogin. rewrite Hfind. simpl.
    destruct (String.eqb_spec (hashPassword newPassword) EmptyString) as [E|_];
      [contradiction|].
    unfold verifyPassword. reflexivity. }
  split; [|split].
  - now rewrite Hlogin, String.eqb_refl.
  - now rewrite Hlogin, String.eqb_refl.
  - intros other Hother. rewrite Hlogin.
    now destruct (String.eqb_spec (hashPassword other) (hashPassword newPassword)).
Qed.
End OfflineAccountFacts.

Lemma find_profile_by_id (ps : list UserProfile) (p : UserProfile) :
  NoDup (map up_id ps) -> In p ps ->
  find (fun q => String.eqb (up_id q) (up_id p)) ps = Some p.
Proof.
  induction ps as [|q ps IH]; simpl; intros Hnd Hin; [contradiction|].
  inversion Hnd as [|? ? Hnotin Hnd']; subst.
  destruct Hin as [->|Hin].
  - now rewrite String.eqb_refl.
  - destruct (String.eqb_spec (up_id q) (up_id p)) as [E|_].
    + exfalso. apply Hnotin. rewrite E. now apply in_map.
    + now apply IH.
Qed.

(** X29. Deleting the active profile, once confirmed, removes every
    profile stored under the active id and no other, and logs the user
    out: no profile is active, and for a user who is not signed in there
    is no current Dataset and the loading effect empties the data in
    memory.  A declined deletion changes nothing. *)
Theorem handleDeleteActiveProfile_removes (st : AppState) (pid : string)
    (p : UserProfile) :
  truthy (activeLocalProfileId st) = Some pid ->
  activeProfile st = Some p ->
  handleDeleteActiveProfile false st = st
  /\ activeLocalProfileId (handleDeleteActiveProfile true st) = None
  /\ profiles (handleDeleteActiveProfile true st)
     = filter (fun q => negb (String.eqb (up_id q) pid)) (profiles st)
  /\ ~ In pid (map up_id (profiles (handleDeleteActiveProfile true st)))
  /\ (forall q, In q (profiles st) -> up_id q <> pid ->
        In q (profiles (handleDeleteActiveProfile true st)))
  /\ (isSignedIn st = false ->
      currentDataset (handleDeleteActiveProfile true st) = None
      /\ appData (loadDataEffect (handleDeleteActiveProfile true st)) = emptyAppData).
Proof.
  intros Ht Hp. unfold handleDeleteActiveProfile. rewrite Ht, Hp.
  split; [reflexivity|]. split; [reflexivity|]. split; [reflexivity|].
  simpl. split; [|split].
  - rewrite in_map_iff. intros (q & E & Hin).
    apply filter_In in Hin. destruct Hin as [_ Hne].
    rewrite E, String.eqb_refl in Hne. discriminate.
  - intros q Hin Hne. apply filter_In. split; [exact Hin|].
    now destruct (String.eqb_spec (up_id q) pid).
  - intros Hs. unfold currentDataset, loadDataEffect, activeProfile. simpl.
    rewrite Hs. split; reflexivity.
Qed.

Lemma handleDeleteActiveProfile_removes_witness :
  truthy (activeLocalProfileId SampleState.loggingOffline) = Some "p1"
  /\ activeProfile SampleState.loggingOffline = Some SampleState.alice
  /\ profiles (handleDeleteActiveProfile true SampleState.loggingOffline) = []
  /\ appData (loadDataEffect (handleDeleteActiveProfile true SampleState.loggingOffline))
     = emptyAppData.
Proof.
  split; [reflexivity|]. split; [reflexivity|].
  destruct (handleDeleteActiveProfile_removes SampleState.loggingOffline "p1"
              SampleState.alice eq_refl eq_refl)
    as (_ & _ & Hps & _ & _ & Hout).
  split; [exact Hps | exact (proj2 (Hout eq_refl))].
Defined.

Section SessionOfAnAccount.
Variable hashPassword : string -> string.
Variable toLowerCase : string -> string.

(** X30. Logging in brings the profile's own data into memory and logging
    out takes it out again without touching what is stored: after a
    login with the right password, on a list with unique ids, the loading
    effect makes the Dataset and settings of the profile found by name
    the current ones; after a logout the effect leaves an empty Dataset
    and the default settings in memory, and the profile list is as it
    was. *)
Theorem login_loads_logout_clears (username password : string) (a : AuthState)
    (p : UserProfile) :
  NoDup (map up_id (profiles (app a))) ->
  up_id p <> EmptyString ->
  findByName toLowerCase username (profiles (app a)) = Some p ->
  up_passwordHash p <> EmptyString ->
  hashPassword password = up_passwordHash p ->
  let loggedIn :=
    loadDataEffect (app (handleOfflineLogin hashPassword toLowerCase username password a)) in
  let loggedOut := loadDataEffect (handleLogOut loggedIn) in
  appData loggedIn = up_appData p
  /\ settings loggedIn = up_settings p
  /\ currentDataset loggedIn = Some (up_appData p)
  /\ appData loggedOut = emptyAppData
  /\ settings loggedOut = DEFAULT_SETTINGS
  /\ currentDataset loggedOut = None
  /\ profiles loggedOut = profiles (app a).
Proof.
  intros Hnd Hid Hp Hpw Hhash.
  assert (Hin : In p (profiles (app a))) by (apply find_some in Hp; tauto).
  assert (Hlogin : app (handleOfflineLogin hashPassword toLowerCase username password a)
                   = setIsSignedIn false
                       (setActiveLocalProfileId (Some (up_id p)) (app a))).
  { unfold handleOfflineLogin. rewrite Hp.
    destruct (String.eqb_spec (up_passwordHash p) EmptyString) as [E|_];
      [contradiction|].
    unfold verifyPassword. now rewrite Hhash, String.eqb_refl. }
  simpl. rewrite Hlogin.
  assert (Hactive : activeProfile
                      (setIsSignedIn false
                         (setActiveLocalProfileId (Some (up_id p)) (app a))) = Some p).
  { unfold activeProfile. cbn -[truthy find].
    rewrite (truthy_nonempty _ Hid). now apply find_profile_by_id. }
  assert (Hload : loadDataEffect
                    (setIsSignedIn false
                       (setActiveLocalProfileId (Some (up_id p)) (app a)))
                  = setSettings (up_settings p)
                      (setAppData (up_appData p)
                         (setIsSignedIn false
                            (setActiveLocalProfileId (Some (up_id p)) (app a))))).
  { unfold loadDataEffect. now rewrite Hactive. }
  rewrite Hload.
  split; [reflexivity|]. split; [reflexivity|]. split.
  - unfold currentDataset. cbn -[truthy find activeProfile].
    rewrite (truthy_nonempty _ Hid).
    change (activeProfile _) with
      (activeProfile (setIsSignedIn false
                        (setActiveLocalProfileId (Some (up_id p)) (app a)))).
    now rewrite Hactive.
  - repeat split.
Qed.
End SessionOfAnAccount.

Lemma register_keeps_names_unique_witness :
  uniqueNames SampleState.lowerString (profiles (app sampleLoginPage))
  /\ handleOfflineRegister SampleState.sampleDigest SampleState.lowerString (fun text => text)
       "ALICE" "pw" "ABCD-EFGH-JKLM" 9000000 sampleLoginPage
     = setOfflineAuthError (Some "Username already taken.") sampleLoginPage
  /\ uniqueNames SampleState.lowerString
       (profiles
          (app (handleOfflineRegister SampleState.sampleDigest SampleState.lowerString
                  (fun text => text) "Carol" "pw" "ABCD-EFGH-JKLM" 9000000
                  sampleLoginPage))).
Proof.
  assert (Hu : uniqueNames SampleState.lowerString (profiles (app sampleLoginPage)))
    by (unfold uniqueNames; simpl; repeat constructor; simpl; intuition discriminate).
  split; [exact Hu|]. split.
  - apply (proj1 (register_keeps_names_unique SampleState.sampleDigest
                    SampleState.lowerString (fun text => text)
                    "ALICE" "pw" "ABCD-EFGH-JKLM" 9000000 sampleLoginPage)
             SampleState.alice).
    reflexivity.
  - apply (proj2 (register_keeps_names_unique SampleState.sampleDigest
                    SampleState.lowerString (fun text => text)
                    "Carol" "pw" "ABCD-EFGH-JKLM" 9000000 sampleLoginPage));
      [exact Hu | reflexivity].
Defined.

Lemma register_then_login_witness :
  findByName SampleState.lowerString "Carol" (profiles (app sampleLoginPage)) = None
  /\ activeLocalProfileId
       (app (handleOfflineLogin SampleState.sampleDigest SampleState.lowerString "Carol" "pw"
               (handleOfflineRegister SampleState.sampleDigest SampleState.lowerString
                  (fun text => text) "Carol" "pw" "ABCD-EFGH-JKLM" 9000000
                  sampleLoginPage)))
     = Some (toString 9000000).
Proof.
  split; [reflexivity|].
  apply (register_then_login SampleState.sampleDigest SampleState.lowerString
           (fun text => text) "Carol" "pw" "ABCD-EFGH-JKLM" 9000000 sampleLoginPage).
  - reflexivity.
  - reflexivity.
  - discriminate.
Defined.

Lemma reset_then_login_witness :
  activeLocalProfileId
    (app (handleOfflineLogin SampleState.sampleDigest SampleState.lowerString
            "alice" "new-pw"
            (mkAuthState
               (snd (handleOfflinePasswordReset SampleState.sampleDigest
                       SampleState.lowerString "alice" "ABCD-EFGH-JKLM" "new-pw"
                       (app sampleLoginPage)))
               None None mode_login)))
  = Some "p1".
Proof.
  apply (reset_then_login SampleState.sampleDigest SampleState.lowerString
           "alice" "ABCD-EFGH-JKLM" "new-pw" sampleLoginPage SampleState.alice
           (SampleState.sampleDigest "ABCD-EFGH-JKLM")).
  - simpl. repeat constructor; simpl; intuition discriminate.
  - discriminate.
  - reflexivity.
  - reflexivity.
  - discriminate.
  - reflexivity.
  - discriminate.
Defined.

Lemma login_loads_logout_clears_witness :
  appData (loadDataEffect
             (app (handleOfflineLogin SampleState.sampleDigest SampleState.lowerString
                     "ALICE" "old-pw" sampleLoginPage)))
  = up_appData SampleState.alice.
Proof.
  apply (login_loads_logout_clears SampleState.sampleDigest SampleState.lowerString
           "ALICE" "old-pw" sampleLoginPage SampleState.alice).
  - simpl. repeat constructor; simpl; intuition discriminate.
  - discriminate.
  - reflexivity.
  - discriminate.
  - reflexivity.
Defined.
